(** * Orchestrator core engine: a shallow embedding and its properties

    The development follows [orchestrator_core.py] (class
    [OrchestratorCore]) and the two places of [agent_bridge.py] and
    [api_server.py] that decide what an executing worker receives.

    Modelling conventions.
    - A Python [str] is a [string] of bytes, the UTF-8 encoding of its code
      points; [lower], [strip] and [repr] work on the code points, with the
      tables of Unicode 14.0 (CPython 3.11). The [in] operator on strings
      is a search on the bytes, which finds the same occurrences.
    - A Python [dict] is an association list in insertion order (the engine
      iterates over [self.tasks.values()] and [self.agents.items()], so the
      order is part of the behaviour).
    - [uuid.uuid4()] is an effect: the identifiers drawn during a call are
      an explicit argument of the call, in drawing order.
    - [datetime.now()] values ([created_at], [completed_at], timestamps and
      durations of log entries) and the informational floats
      [performance_score] and [confidence] are left out: no branch of the
      engine reads them.
    - A Python [float] is a binary64 number, held as the rational it
      denotes; [Binary64] has the operations, each the exact result rounded
      to the nearest binary64 number, ties to even.
      [Binary64._calculate_health_score] and [Binary64.progress] are the
      floats that the aggregator returns. [_calculate_health_score] and
      [get_project_status] give the values of the same expressions before
      any rounding, which the bounds and the order of the scores are
      stated on; the floats are within [2 ^ -45] of them.
    - [asyncio.create_task] is modelled by an explicit list of coroutines
      owned by the event loop. *)

From Stdlib Require Import List String Ascii ZArith QArith Qminmax Lia Bool Arith.
From Stdlib Require Import DecimalString Lqa Permutation Qround Qabs Qpower.
From Stdlib Require Floats.SpecFloat.
Import ListNotations.
Local Close Scope Q_scope.
Local Open Scope string_scope.
Local Open Scope list_scope.

(* ------------------------------------------------------------------ *)
(** ** Unicode text

    A Python [str] is a sequence of code points. It is held here as a
    [string] of bytes, its UTF-8 encoding; a lone surrogate, which a [str]
    may hold, is held as the three bytes the same scheme gives it. The
    tables are those of Unicode 14.0, the version of CPython 3.11. *)

Module Unicode.
Local Open Scope Z_scope.

Definition byte (c : ascii) : Z := Z.of_N (N_of_ascii c).
Definition of_byte (b : Z) : ascii := ascii_of_N (Z.to_N b).

Definition of_bytes (bs : list Z) : string :=
  string_of_list_ascii (map of_byte bs).

(** [''.join(parts)]. *)
Definition join (parts : list string) : string :=
  fold_right append EmptyString parts.

(** A continuation byte, [10xxxxxx]. *)
Definition is_continuation (c : ascii) : bool :=
  (128 <=? byte c) && (byte c <? 192).

(** The characters of a string: each is a byte with the continuation
    bytes that follow it. *)
Fixpoint chars (s : string) : list string :=
  match s with
  | EmptyString => []
  | String c r =>
      match chars r with
      | String c' g :: gs =>
          if is_continuation c' then String c (String c' g) :: gs
          else String c EmptyString :: String c' g :: gs
      | gs => String c EmptyString :: gs
      end
  end.

(** [ord(c)]: the code point that the bytes of a character encode. [None]
    for bytes that encode no code point; they are in no [str]. *)
Definition ord (g : string) : option Z :=
  match map byte (list_ascii_of_string g) with
  | [b0] => if b0 <? 128 then Some b0 else None
  | [b0; b1] =>
      if (194 <=? b0) && (b0 <? 224)
      then Some ((b0 - 192) * 64 + (b1 - 128)) else None
  | [b0; b1; b2] =>
      let cp := (b0 - 224) * 4096 + (b1 - 128) * 64 + (b2 - 128) in
      if (224 <=? b0) && (b0 <? 240) && (2048 <=? cp) then Some cp else None
  | [b0; b1; b2; b3] =>
      let cp := (b0 - 240) * 262144 + (b1 - 128) * 4096
                + (b2 - 128) * 64 + (b3 - 128) in
      if (240 <=? b0) && (b0 <? 245) && (65536 <=? cp) && (cp <? 1114112)
      then Some cp else None
  | _ => None
  end.

(** [chr(cp)], as bytes. *)
Definition chr (cp : Z) : string :=
  if cp <? 128 then of_bytes [cp]
  else if cp <? 2048 then of_bytes [192 + cp / 64; 128 + cp mod 64]
  else if cp <? 65536 then
    of_bytes [224 + cp / 4096; 128 + (cp / 64) mod 64; 128 + cp mod 64]
  else
    of_bytes [240 + cp / 262144; 128 + (cp / 4096) mod 64;
              128 + (cp / 64) mod 64; 128 + cp mod 64].

Definition in_ranges (ranges : list (Z * Z)) (cp : Z) : bool :=
  existsb (fun '(first, last) => (first <=? cp) && (cp <=? last)) ranges.

Definition is_surrogate (cp : Z) : bool := (0xD800 <=? cp) && (cp <=? 0xDFFF).

(** The simple lower-case mappings: [(first, last, step, offset)] maps every
    [step]-th code point from [first] to [last] to the code point [offset]
    further. *)
Definition lowercase : list (Z * Z * Z * Z) :=
  [(0x0041, 0x005A, 1, 32); (0x00C0, 0x00D6, 1, 32);
   (0x00D8, 0x00DE, 1, 32); (0x0100, 0x012E, 2, 1);
   (0x0132, 0x0136, 2, 1); (0x0139, 0x0147, 2, 1);
   (0x014A, 0x0176, 2, 1); (0x0178, 0x0178, 1, -121);
   (0x0179, 0x017D, 2, 1); (0x0181, 0x0181, 1, 210);
   (0x0182, 0x0184, 2, 1); (0x0186, 0x0186, 1, 206);
   (0x0187, 0x0187, 1, 1); (0x0189, 0x018A, 1, 205);
   (0x018B, 0x018B, 1, 1); (0x018E, 0x018E, 1, 79);
   (0x018F, 0x018F, 1, 202); (0x0190, 0x0190, 1, 203);
   (0x0191, 0x0191, 1, 1); (0x0193, 0x0193, 1, 205);
   (0x0194, 0x0194, 1, 207); (0x0196, 0x0196, 1, 211);
   (0x0197, 0x0197, 1, 209); (0x0198, 0x0198, 1, 1);
   (0x019C, 0x019C, 1, 211); (0x019D, 0x019D, 1, 213);
   (0x019F, 0x019F, 1, 214); (0x01A0, 0x01A4, 2, 1);
   (0x01A6, 0x01A6, 1, 218); (0x01A7, 0x01A7, 1, 1);
   (0x01A9, 0x01A9, 1, 218); (0x01AC, 0x01AC, 1, 1);
   (0x01AE, 0x01AE, 1, 218); (0x01AF, 0x01AF, 1, 1);
   (0x01B1, 0x01B2, 1, 217); (0x01B3, 0x01B5, 2, 1);
   (0x01B7, 0x01B7, 1, 219); (0x01B8, 0x01B8, 1, 1);
   (0x01BC, 0x01BC, 1, 1); (0x01C4, 0x01C4, 1, 2);
   (0x01C5, 0x01C5, 1, 1); (0x01C7, 0x01C7, 1, 2);
   (0x01C8, 0x01C8, 1, 1); (0x01CA, 0x01CA, 1, 2);
   (0x01CB, 0x01DB, 2, 1); (0x01DE, 0x01EE, 2, 1);
   (0x01F1, 0x01F1, 1, 2); (0x01F2, 0x01F4, 2, 1);
   (0x01F6, 0x01F6, 1, -97); (0x01F7, 0x01F7, 1, -56);
   (0x01F8, 0x021E, 2, 1); (0x0220, 0x0220, 1, -130);
   (0x0222, 0x0232, 2, 1); (0x023A, 0x023A, 1, 10795);
   (0x023B, 0x023B, 1, 1); (0x023D, 0x023D, 1, -163);
   (0x023E, 0x023E, 1, 10792); (0x0241, 0x0241, 1, 1);
   (0x0243, 0x0243, 1, -195); (0x0244, 0x0244, 1, 69);
   (0x0245, 0x0245, 1, 71); (0x0246, 0x024E, 2, 1);
   (0x0370, 0x0372, 2, 1); (0x0376, 0x0376, 1, 1);
   (0x037F, 0x037F, 1, 116); (0x0386, 0x0386, 1, 38);
   (0x0388, 0x038A, 1, 37); (0x038C, 0x038C, 1, 64);
   (0x038E, 0x038F, 1, 63); (0x0391, 0x03A1, 1, 32);
   (0x03A3, 0x03AB, 1, 32); (0x03CF, 0x03CF, 1, 8);
   (0x03D8, 0x03EE, 2, 1); (0x03F4, 0x03F4, 1, -60);
   (0x03F7, 0x03F7, 1, 1); (0x03F9, 0x03F9, 1, -7);
   (0x03FA, 0x03FA, 1, 1); (0x03FD, 0x03FF, 1, -130);
   (0x0400, 0x040F, 1, 80); (0x0410, 0x042F, 1, 32);
   (0x0460, 0x0480, 2, 1); (0x048A, 0x04BE, 2, 1);
   (0x04C0, 0x04C0, 1, 15); (0x04C1, 0x04CD, 2, 1);
   (0x04D0, 0x052E, 2, 1); (0x0531, 0x0556, 1, 48);
   (0x10A0, 0x10C5, 1, 7264); (0x10C7, 0x10C7, 1, 7264);
   (0x10CD, 0x10CD, 1, 7264); (0x13A0, 0x13EF, 1, 38864);
   (0x13F0, 0x13F5, 1, 8); (0x1C90, 0x1CBA, 1, -3008);
   (0x1CBD, 0x1CBF, 1, -3008); (0x1E00, 0x1E94, 2, 1);
   (0x1E9E, 0x1E9E, 1, -7615); (0x1EA0, 0x1EFE, 2, 1);
   (0x1F08, 0x1F0F, 1, -8); (0x1F18, 0x1F1D, 1, -8);
   (0x1F28, 0x1F2F, 1, -8); (0x1F38, 0x1F3F, 1, -8);
   (0x1F48, 0x1F4D, 1, -8); (0x1F59, 0x1F5F, 2, -8);
   (0x1F68, 0x1F6F, 1, -8); (0x1F88, 0x1F8F, 1, -8);
   (0x1F98, 0x1F9F, 1, -8); (0x1FA8, 0x1FAF, 1, -8);
   (0x1FB8, 0x1FB9, 1, -8); (0x1FBA, 0x1FBB, 1, -74);
   (0x1FBC, 0x1FBC, 1, -9); (0x1FC8, 0x1FCB, 1, -86);
   (0x1FCC, 0x1FCC, 1, -9); (0x1FD8, 0x1FD9, 1, -8);
   (0x1FDA, 0x1FDB, 1, -100); (0x1FE8, 0x1FE9, 1, -8);
   (0x1FEA, 0x1FEB, 1, -112); (0x1FEC, 0x1FEC, 1, -7);
   (0x1FF8, 0x1FF9, 1, -128); (0x1FFA, 0x1FFB, 1, -126);
   (0x1FFC, 0x1FFC, 1, -9); (0x2126, 0x2126, 1, -7517);
   (0x212A, 0x212A, 1, -8383); (0x212B, 0x212B, 1, -8262);
   (0x2132, 0x2132, 1, 28); (0x2160, 0x216F, 1, 16);
   (0x2183, 0x2183, 1, 1); (0x24B6, 0x24CF, 1, 26);
   (0x2C00, 0x2C2F, 1, 48); (0x2C60, 0x2C60, 1, 1);
   (0x2C62, 0x2C62, 1, -10743); (0x2C63, 0x2C63, 1, -3814);
   (0x2C64, 0x2C64, 1, -10727); (0x2C67, 0x2C6B, 2, 1);
   (0x2C6D, 0x2C6D, 1, -10780); (0x2C6E, 0x2C6E, 1, -10749);
   (0x2C6F, 0x2C6F, 1, -10783); (0x2C70, 0x2C70, 1, -10782);
   (0x2C72, 0x2C72, 1, 1); (0x2C75, 0x2C75, 1, 1);
   (0x2C7E, 0x2C7F, 1, -10815); (0x2C80, 0x2CE2, 2, 1);
   (0x2CEB, 0x2CED, 2, 1); (0x2CF2, 0x2CF2, 1, 1);
   (0xA640, 0xA66C, 2, 1); (0xA680, 0xA69A, 2, 1);
   (0xA722, 0xA72E, 2, 1); (0xA732, 0xA76E, 2, 1);
   (0xA779, 0xA77B, 2, 1); (0xA77D, 0xA77D, 1, -35332);
   (0xA77E, 0xA786, 2, 1); (0xA78B, 0xA78B, 1, 1);
   (0xA78D, 0xA78D, 1, -42280); (0xA790, 0xA792, 2, 1);
   (0xA796, 0xA7A8, 2, 1); (0xA7AA, 0xA7AA, 1, -42308);
   (0xA7AB, 0xA7AB, 1, -42319); (0xA7AC, 0xA7AC, 1, -42315);
   (0xA7AD, 0xA7AD, 1, -42305); (0xA7AE, 0xA7AE, 1, -42308);
   (0xA7B0, 0xA7B0, 1, -42258); (0xA7B1, 0xA7B1, 1, -42282);
   (0xA7B2, 0xA7B2, 1, -42261); (0xA7B3, 0xA7B3, 1, 928);
   (0xA7B4, 0xA7C2, 2, 1); (0xA7C4, 0xA7C4, 1, -48);
   (0xA7C5, 0xA7C5, 1, -42307); (0xA7C6, 0xA7C6, 1, -35384);
   (0xA7C7, 0xA7C9, 2, 1); (0xA7D0, 0xA7D0, 1, 1);
   (0xA7D6, 0xA7D8, 2, 1); (0xA7F5, 0xA7F5, 1, 1);
   (0xFF21, 0xFF3A, 1, 32); (0x10400, 0x10427, 1, 40);
   (0x104B0, 0x104D3, 1, 40); (0x10570, 0x1057A, 1, 39);
   (0x1057C, 0x1058A, 1, 39); (0x1058C, 0x10592, 1, 39);
   (0x10594, 0x10595, 1, 39); (0x10C80, 0x10CB2, 1, 64);
   (0x118A0, 0x118BF, 1, 32); (0x16E40, 0x16E5F, 1, 32);
   (0x1E900, 0x1E921, 1, 34)].

(** The case-ignorable code points, as ranges. *)
Definition case_ignorable : list (Z * Z) :=
  [(0x0027, 0x0027); (0x002E, 0x002E); (0x003A, 0x003A); (0x005E, 0x005E);
   (0x0060, 0x0060); (0x00A8, 0x00A8); (0x00AD, 0x00AD); (0x00AF, 0x00AF);
   (0x00B4, 0x00B4); (0x00B7, 0x00B8); (0x02B0, 0x036F); (0x0374, 0x0375);
   (0x037A, 0x037A); (0x0384, 0x0385); (0x0387, 0x0387); (0x0483, 0x0489);
   (0x0559, 0x0559); (0x055F, 0x055F); (0x0591, 0x05BD); (0x05BF, 0x05BF);
   (0x05C1, 0x05C2); (0x05C4, 0x05C5); (0x05C7, 0x05C7); (0x05F4, 0x05F4);
   (0x0600, 0x0605); (0x0610, 0x061A); (0x061C, 0x061C); (0x0640, 0x0640);
   (0x064B, 0x065F); (0x0670, 0x0670); (0x06D6, 0x06DD); (0x06DF, 0x06E8);
   (0x06EA, 0x06ED); (0x070F, 0x070F); (0x0711, 0x0711); (0x0730, 0x074A);
   (0x07A6, 0x07B0); (0x07EB, 0x07F5); (0x07FA, 0x07FA); (0x07FD, 0x07FD);
   (0x0816, 0x082D); (0x0859, 0x085B); (0x0888, 0x0888); (0x0890, 0x0891);
   (0x0898, 0x089F); (0x08C9, 0x0902); (0x093A, 0x093A); (0x093C, 0x093C);
   (0x0941, 0x0948); (0x094D, 0x094D); (0x0951, 0x0957); (0x0962, 0x0963);
   (0x0971, 0x0971); (0x0981, 0x0981); (0x09BC, 0x09BC); (0x09C1, 0x09C4);
   (0x09CD, 0x09CD); (0x09E2, 0x09E3); (0x09FE, 0x09FE); (0x0A01, 0x0A02);
   (0x0A3C, 0x0A3C); (0x0A41, 0x0A42); (0x0A47, 0x0A48); (0x0A4B, 0x0A4D);
   (0x0A51, 0x0A51); (0x0A70, 0x0A71); (0x0A75, 0x0A75); (0x0A81, 0x0A82);
   (0x0ABC, 0x0ABC); (0x0AC1, 0x0AC5); (0x0AC7, 0x0AC8); (0x0ACD, 0x0ACD);
   (0x0AE2, 0x0AE3); (0x0AFA, 0x0AFF); (0x0B01, 0x0B01); (0x0B3C, 0x0B3C);
   (0x0B3F, 0x0B3F); (0x0B41, 0x0B44); (0x0B4D, 0x0B4D); (0x0B55, 0x0B56);
   (0x0B62, 0x0B63); (0x0B82, 0x0B82); (0x0BC0, 0x0BC0); (0x0BCD, 0x0BCD);
   (0x0C00, 0x0C00); (0x0C04, 0x0C04); (0x0C3C, 0x0C3C); (0x0C3E, 0x0C40);
   (0x0C46, 0x0C48); (0x0C4A, 0x0C4D); (0x0C55, 0x0C56); (0x0C62, 0x0C63);
   (0x0C81, 0x0C81); (0x0CBC, 0x0CBC); (0x0CBF, 0x0CBF); (0x0CC6, 0x0CC6);
   (0x0CCC, 0x0CCD); (0x0CE2, 0x0CE3); (0x0D00, 0x0D01); (0x0D3B, 0x0D3C);
   (0x0D41, 0x0D44); (0x0D4D, 0x0D4D); (0x0D62, 0x0D63); (0x0D81, 0x0D81);
   (0x0DCA, 0x0DCA); (0x0DD2, 0x0DD4); (0x0DD6, 0x0DD6); (0x0E31, 0x0E31);
   (0x0E34, 0x0E3A); (0x0E46, 0x0E4E); (0x0EB1, 0x0EB1); (0x0EB4, 0x0EBC);
   (0x0EC6, 0x0EC6); (0x0EC8, 0x0ECD); (0x0F18, 0x0F19); (0x0F35, 0x0F35);
   (0x0F37, 0x0F37); (0x0F39, 0x0F39); (0x0F71, 0x0F7E); (0x0F80, 0x0F84);
   (0x0F86, 0x0F87); (0x0F8D, 0x0F97); (0x0F99, 0x0FBC); (0x0FC6, 0x0FC6);
   (0x102D, 0x1030); (0x1032, 0x1037); (0x1039, 0x103A); (0x103D, 0x103E);
   (0x1058, 0x1059); (0x105E, 0x1060); (0x1071, 0x1074); (0x1082, 0x1082);
   (0x1085, 0x1086); (0x108D, 0x108D); (0x109D, 0x109D); (0x10FC, 0x10FC);
   (0x135D, 0x135F); (0x1712, 0x1714); (0x1732, 0x1733); (0x1752, 0x1753);
   (0x1772, 0x1773); (0x17B4, 0x17B5); (0x17B7, 0x17BD); (0x17C6, 0x17C6);
   (0x17C9, 0x17D3); (0x17D7, 0x17D7); (0x17DD, 0x17DD); (0x180B, 0x180F);
   (0x1843, 0x1843); (0x1885, 0x1886); (0x18A9, 0x18A9); (0x1920, 0x1922);
   (0x1927, 0x1928); (0x1932, 0x1932); (0x1939, 0x193B); (0x1A17, 0x1A18);
   (0x1A1B, 0x1A1B); (0x1A56, 0x1A56); (0x1A58, 0x1A5E); (0x1A60, 0x1A60);
   (0x1A62, 0x1A62); (0x1A65, 0x1A6C); (0x1A73, 0x1A7C); (0x1A7F, 0x1A7F);
   (0x1AA7, 0x1AA7); (0x1AB0, 0x1ACE); (0x1B00, 0x1B03); (0x1B34, 0x1B34);
   (0x1B36, 0x1B3A); (0x1B3C, 0x1B3C); (0x1B42, 0x1B42); (0x1B6B, 0x1B73);
   (0x1B80, 0x1B81); (0x1BA2, 0x1BA5); (0x1BA8, 0x1BA9); (0x1BAB, 0x1BAD);
   (0x1BE6, 0x1BE6); (0x1BE8, 0x1BE9); (0x1BED, 0x1BED); (0x1BEF, 0x1BF1);
   (0x1C2C, 0x1C33); (0x1C36, 0x1C37); (0x1C78, 0x1C7D); (0x1CD0, 0x1CD2);
   (0x1CD4, 0x1CE0); (0x1CE2, 0x1CE8); (0x1CED, 0x1CED); (0x1CF4, 0x1CF4);
   (0x1CF8, 0x1CF9); (0x1D2C, 0x1D6A); (0x1D78, 0x1D78); (0x1D9B, 0x1DFF);
   (0x1FBD, 0x1FBD); (0x1FBF, 0x1FC1); (0x1FCD, 0x1FCF); (0x1FDD, 0x1FDF);
   (0x1FED, 0x1FEF); (0x1FFD, 0x1FFE); (0x200B, 0x200F); (0x2018, 0x2019);
   (0x2024, 0x2024); (0x2027, 0x2027); (0x202A, 0x202E); (0x2060, 0x2064);
   (0x2066, 0x206F); (0x2071, 0x2071); (0x207F, 0x207F); (0x2090, 0x209C);
   (0x20D0, 0x20F0); (0x2C7C, 0x2C7D); (0x2CEF, 0x2CF1); (0x2D6F, 0x2D6F);
   (0x2D7F, 0x2D7F); (0x2DE0, 0x2DFF); (0x2E2F, 0x2E2F); (0x3005, 0x3005);
   (0x302A, 0x302D); (0x3031, 0x3035); (0x303B, 0x303B); (0x3099, 0x309E);
   (0x30FC, 0x30FE); (0xA015, 0xA015); (0xA4F8, 0xA4FD); (0xA60C, 0xA60C);
   (0xA66F, 0xA672); (0xA674, 0xA67D); (0xA67F, 0xA67F); (0xA69C, 0xA69F);
   (0xA6F0, 0xA6F1); (0xA700, 0xA721); (0xA770, 0xA770); (0xA788, 0xA78A);
   (0xA7F2, 0xA7F4); (0xA7F8, 0xA7F9); (0xA802, 0xA802); (0xA806, 0xA806);
   (0xA80B, 0xA80B); (0xA825, 0xA826); (0xA82C, 0xA82C); (0xA8C4, 0xA8C5);
   (0xA8E0, 0xA8F1); (0xA8FF, 0xA8FF); (0xA926, 0xA92D); (0xA947, 0xA951);
   (0xA980, 0xA982); (0xA9B3, 0xA9B3); (0xA9B6, 0xA9B9); (0xA9BC, 0xA9BD);
   (0xA9CF, 0xA9CF); (0xA9E5, 0xA9E6); (0xAA29, 0xAA2E); (0xAA31, 0xAA32);
   (0xAA35, 0xAA36); (0xAA43, 0xAA43); (0xAA4C, 0xAA4C); (0xAA70, 0xAA70);
   (0xAA7C, 0xAA7C); (0xAAB0, 0xAAB0); (0xAAB2, 0xAAB4); (0xAAB7, 0xAAB8);
   (0xAABE, 0xAABF); (0xAAC1, 0xAAC1); (0xAADD, 0xAADD); (0xAAEC, 0xAAED);
   (0xAAF3, 0xAAF4); (0xAAF6, 0xAAF6); (0xAB5B, 0xAB5F); (0xAB69, 0xAB6B);
   (0xABE5, 0xABE5); (0xABE8, 0xABE8); (0xABED, 0xABED); (0xFB1E, 0xFB1E);
   (0xFBB2, 0xFBC2); (0xFE00, 0xFE0F); (0xFE13, 0xFE13); (0xFE20, 0xFE2F);
   (0xFE52, 0xFE52); (0xFE55, 0xFE55); (0xFEFF, 0xFEFF); (0xFF07, 0xFF07);
   (0xFF0E, 0xFF0E); (0xFF1A, 0xFF1A); (0xFF3E, 0xFF3E); (0xFF40, 0xFF40);
   (0xFF70, 0xFF70); (0xFF9E, 0xFF9F); (0xFFE3, 0xFFE3); (0xFFF9, 0xFFFB);
   (0x101FD, 0x101FD); (0x102E0, 0x102E0); (0x10376, 0x1037A); (0x10780, 0x10785);
   (0x10787, 0x107B0); (0x107B2, 0x107BA); (0x10A01, 0x10A03); (0x10A05, 0x10A06);
   (0x10A0C, 0x10A0F); (0x10A38, 0x10A3A); (0x10A3F, 0x10A3F); (0x10AE5, 0x10AE6);
   (0x10D24, 0x10D27); (0x10EAB, 0x10EAC); (0x10F46, 0x10F50); (0x10F82, 0x10F85);
   (0x11001, 0x11001); (0x11038, 0x11046); (0x11070, 0x11070); (0x11073, 0x11074);
   (0x1107F, 0x11081); (0x110B3, 0x110B6); (0x110B9, 0x110BA); (0x110BD, 0x110BD);
   (0x110C2, 0x110C2); (0x110CD, 0x110CD); (0x11100, 0x11102); (0x11127, 0x1112B);
   (0x1112D, 0x11134); (0x11173, 0x11173); (0x11180, 0x11181); (0x111B6, 0x111BE);
   (0x111C9, 0x111CC); (0x111CF, 0x111CF); (0x1122F, 0x11231); (0x11234, 0x11234);
   (0x11236, 0x11237); (0x1123E, 0x1123E); (0x112DF, 0x112DF); (0x112E3, 0x112EA);
   (0x11300, 0x11301); (0x1133B, 0x1133C); (0x11340, 0x11340); (0x11366, 0x1136C);
   (0x11370, 0x11374); (0x11438, 0x1143F); (0x11442, 0x11444); (0x11446, 0x11446);
   (0x1145E, 0x1145E); (0x114B3, 0x114B8); (0x114BA, 0x114BA); (0x114BF, 0x114C0);
   (0x114C2, 0x114C3); (0x115B2, 0x115B5); (0x115BC, 0x115BD); (0x115BF, 0x115C0);
   (0x115DC, 0x115DD); (0x11633, 0x1163A); (0x1163D, 0x1163D); (0x1163F, 0x11640);
   (0x116AB, 0x116AB); (0x116AD, 0x116AD); (0x116B0, 0x116B5); (0x116B7, 0x116B7);
   (0x1171D, 0x1171F); (0x11722, 0x11725); (0x11727, 0x1172B); (0x1182F, 0x11837);
   (0x11839, 0x1183A); (0x1193B, 0x1193C); (0x1193E, 0x1193E); (0x11943, 0x11943);
   (0x119D4, 0x119D7); (0x119DA, 0x119DB); (0x119E0, 0x119E0); (0x11A01, 0x11A0A);
   (0x11A33, 0x11A38); (0x11A3B, 0x11A3E); (0x11A47, 0x11A47); (0x11A51, 0x11A56);
   (0x11A59, 0x11A5B); (0x11A8A, 0x11A96); (0x11A98, 0x11A99); (0x11C30, 0x11C36);
   (0x11C38, 0x11C3D); (0x11C3F, 0x11C3F); (0x11C92, 0x11CA7); (0x11CAA, 0x11CB0);
   (0x11CB2, 0x11CB3); (0x11CB5, 0x11CB6); (0x11D31, 0x11D36); (0x11D3A, 0x11D3A);
   (0x11D3C, 0x11D3D); (0x11D3F, 0x11D45); (0x11D47, 0x11D47); (0x11D90, 0x11D91);
   (0x11D95, 0x11D95); (0x11D97, 0x11D97); (0x11EF3, 0x11EF4); (0x13430, 0x13438);
   (0x16AF0, 0x16AF4); (0x16B30, 0x16B36); (0x16B40, 0x16B43); (0x16F4F, 0x16F4F);
   (0x16F8F, 0x16F9F); (0x16FE0, 0x16FE1); (0x16FE3, 0x16FE4); (0x1AFF0, 0x1AFF3);
   (0x1AFF5, 0x1AFFB); (0x1AFFD, 0x1AFFE); (0x1BC9D, 0x1BC9E); (0x1BCA0, 0x1BCA3);
   (0x1CF00, 0x1CF2D); (0x1CF30, 0x1CF46); (0x1D167, 0x1D169); (0x1D173, 0x1D182);
   (0x1D185, 0x1D18B); (0x1D1AA, 0x1D1AD); (0x1D242, 0x1D244); (0x1DA00, 0x1DA36);
   (0x1DA3B, 0x1DA6C); (0x1DA75, 0x1DA75); (0x1DA84, 0x1DA84); (0x1DA9B, 0x1DA9F);
   (0x1DAA1, 0x1DAAF); (0x1E000, 0x1E006); (0x1E008, 0x1E018); (0x1E01B, 0x1E021);
   (0x1E023, 0x1E024); (0x1E026, 0x1E02A); (0x1E130, 0x1E13D); (0x1E2AE, 0x1E2AE);
   (0x1E2EC, 0x1E2EF); (0x1E8D0, 0x1E8D6); (0x1E944, 0x1E94B); (0x1F3FB, 0x1F3FF);
   (0xE0001, 0xE0001); (0xE0020, 0xE007F); (0xE0100, 0xE01EF)].

(** The cased code points that are not case-ignorable (the test for a cased
    character is applied to no other), as ranges. *)
Definition cased : list (Z * Z) :=
  [(0x0041, 0x005A); (0x0061, 0x007A); (0x00AA, 0x00AA); (0x00B5, 0x00B5);
   (0x00BA, 0x00BA); (0x00C0, 0x00D6); (0x00D8, 0x00F6); (0x00F8, 0x01BA);
   (0x01BC, 0x01BF); (0x01C4, 0x0293); (0x0295, 0x02AF); (0x0370, 0x0373);
   (0x0376, 0x0377); (0x037B, 0x037D); (0x037F, 0x037F); (0x0386, 0x0386);
   (0x0388, 0x038A); (0x038C, 0x038C); (0x038E, 0x03A1); (0x03A3, 0x03F5);
   (0x03F7, 0x0481); (0x048A, 0x052F); (0x0531, 0x0556); (0x0560, 0x0588);
   (0x10A0, 0x10C5); (0x10C7, 0x10C7); (0x10CD, 0x10CD); (0x10D0, 0x10FA);
   (0x10FD, 0x10FF); (0x13A0, 0x13F5); (0x13F8, 0x13FD); (0x1C80, 0x1C88);
   (0x1C90, 0x1CBA); (0x1CBD, 0x1CBF); (0x1D00, 0x1D2B); (0x1D6B, 0x1D77);
   (0x1D79, 0x1D9A); (0x1E00, 0x1F15); (0x1F18, 0x1F1D); (0x1F20, 0x1F45);
   (0x1F48, 0x1F4D); (0x1F50, 0x1F57); (0x1F59, 0x1F59); (0x1F5B, 0x1F5B);
   (0x1F5D, 0x1F5D); (0x1F5F, 0x1F7D); (0x1F80, 0x1FB4); (0x1FB6, 0x1FBC);
   (0x1FBE, 0x1FBE); (0x1FC2, 0x1FC4); (0x1FC6, 0x1FCC); (0x1FD0, 0x1FD3);
   (0x1FD6, 0x1FDB); (0x1FE0, 0x1FEC); (0x1FF2, 0x1FF4); (0x1FF6, 0x1FFC);
   (0x2102, 0x2102); (0x2107, 0x2107); (0x210A, 0x2113); (0x2115, 0x2115);
   (0x2119, 0x211D); (0x2124, 0x2124); (0x2126, 0x2126); (0x2128, 0x2128);
   (0x212A, 0x212D); (0x212F, 0x2134); (0x2139, 0x2139); (0x213C, 0x213F);
   (0x2145, 0x2149); (0x214E, 0x214E); (0x2160, 0x217F); (0x2183, 0x2184);
   (0x24B6, 0x24E9); (0x2C00, 0x2C7B); (0x2C7E, 0x2CE4); (0x2CEB, 0x2CEE);
   (0x2CF2, 0x2CF3); (0x2D00, 0x2D25); (0x2D27, 0x2D27); (0x2D2D, 0x2D2D);
   (0xA640, 0xA66D); (0xA680, 0xA69B); (0xA722, 0xA76F); (0xA771, 0xA787);
   (0xA78B, 0xA78E); (0xA790, 0xA7CA); (0xA7D0, 0xA7D1); (0xA7D3, 0xA7D3);
   (0xA7D5, 0xA7D9); (0xA7F5, 0xA7F6); (0xA7FA, 0xA7FA); (0xAB30, 0xAB5A);
   (0xAB60, 0xAB68); (0xAB70, 0xABBF); (0xFB00, 0xFB06); (0xFB13, 0xFB17);
   (0xFF21, 0xFF3A); (0xFF41, 0xFF5A); (0x10400, 0x1044F); (0x104B0, 0x104D3);
   (0x104D8, 0x104FB); (0x10570, 0x1057A); (0x1057C, 0x1058A); (0x1058C, 0x10592);
   (0x10594, 0x10595); (0x10597, 0x105A1); (0x105A3, 0x105B1); (0x105B3, 0x105B9);
   (0x105BB, 0x105BC); (0x10C80, 0x10CB2); (0x10CC0, 0x10CF2); (0x118A0, 0x118DF);
   (0x16E40, 0x16E7F); (0x1D400, 0x1D454); (0x1D456, 0x1D49C); (0x1D49E, 0x1D49F);
   (0x1D4A2, 0x1D4A2); (0x1D4A5, 0x1D4A6); (0x1D4A9, 0x1D4AC); (0x1D4AE, 0x1D4B9);
   (0x1D4BB, 0x1D4BB); (0x1D4BD, 0x1D4C3); (0x1D4C5, 0x1D505); (0x1D507, 0x1D50A);
   (0x1D50D, 0x1D514); (0x1D516, 0x1D51C); (0x1D51E, 0x1D539); (0x1D53B, 0x1D53E);
   (0x1D540, 0x1D544); (0x1D546, 0x1D546); (0x1D54A, 0x1D550); (0x1D552, 0x1D6A5);
   (0x1D6A8, 0x1D6C0); (0x1D6C2, 0x1D6DA); (0x1D6DC, 0x1D6FA); (0x1D6FC, 0x1D714);
   (0x1D716, 0x1D734); (0x1D736, 0x1D74E); (0x1D750, 0x1D76E); (0x1D770, 0x1D788);
   (0x1D78A, 0x1D7A8); (0x1D7AA, 0x1D7C2); (0x1D7C4, 0x1D7CB); (0x1DF00, 0x1DF09);
   (0x1DF0B, 0x1DF1E); (0x1E900, 0x1E943); (0x1F130, 0x1F149); (0x1F150, 0x1F169);
   (0x1F170, 0x1F189)].

(** The printable code points from 128 up ([str.isprintable]), as ranges. *)
Definition printable : list (Z * Z) :=
  [(0x00A1, 0x00AC); (0x00AE, 0x0377); (0x037A, 0x037F); (0x0384, 0x038A);
   (0x038C, 0x038C); (0x038E, 0x03A1); (0x03A3, 0x052F); (0x0531, 0x0556);
   (0x0559, 0x058A); (0x058D, 0x058F); (0x0591, 0x05C7); (0x05D0, 0x05EA);
   (0x05EF, 0x05F4); (0x0606, 0x061B); (0x061D, 0x06DC); (0x06DE, 0x070D);
   (0x0710, 0x074A); (0x074D, 0x07B1); (0x07C0, 0x07FA); (0x07FD, 0x082D);
   (0x0830, 0x083E); (0x0840, 0x085B); (0x085E, 0x085E); (0x0860, 0x086A);
   (0x0870, 0x088E); (0x0898, 0x08E1); (0x08E3, 0x0983); (0x0985, 0x098C);
   (0x098F, 0x0990); (0x0993, 0x09A8); (0x09AA, 0x09B0); (0x09B2, 0x09B2);
   (0x09B6, 0x09B9); (0x09BC, 0x09C4); (0x09C7, 0x09C8); (0x09CB, 0x09CE);
   (0x09D7, 0x09D7); (0x09DC, 0x09DD); (0x09DF, 0x09E3); (0x09E6, 0x09FE);
   (0x0A01, 0x0A03); (0x0A05, 0x0A0A); (0x0A0F, 0x0A10); (0x0A13, 0x0A28);
   (0x0A2A, 0x0A30); (0x0A32, 0x0A33); (0x0A35, 0x0A36); (0x0A38, 0x0A39);
   (0x0A3C, 0x0A3C); (0x0A3E, 0x0A42); (0x0A47, 0x0A48); (0x0A4B, 0x0A4D);
   (0x0A51, 0x0A51); (0x0A59, 0x0A5C); (0x0A5E, 0x0A5E); (0x0A66, 0x0A76);
   (0x0A81, 0x0A83); (0x0A85, 0x0A8D); (0x0A8F, 0x0A91); (0x0A93, 0x0AA8);
   (0x0AAA, 0x0AB0); (0x0AB2, 0x0AB3); (0x0AB5, 0x0AB9); (0x0ABC, 0x0AC5);
   (0x0AC7, 0x0AC9); (0x0ACB, 0x0ACD); (0x0AD0, 0x0AD0); (0x0AE0, 0x0AE3);
   (0x0AE6, 0x0AF1); (0x0AF9, 0x0AFF); (0x0B01, 0x0B03); (0x0B05, 0x0B0C);
   (0x0B0F, 0x0B10); (0x0B13, 0x0B28); (0x0B2A, 0x0B30); (0x0B32, 0x0B33);
   (0x0B35, 0x0B39); (0x0B3C, 0x0B44); (0x0B47, 0x0B48); (0x0B4B, 0x0B4D);
   (0x0B55, 0x0B57); (0x0B5C, 0x0B5D); (0x0B5F, 0x0B63); (0x0B66, 0x0B77);
   (0x0B82, 0x0B83); (0x0B85, 0x0B8A); (0x0B8E, 0x0B90); (0x0B92, 0x0B95);
   (0x0B99, 0x0B9A); (0x0B9C, 0x0B9C); (0x0B9E, 0x0B9F); (0x0BA3, 0x0BA4);
   (0x0BA8, 0x0BAA); (0x0BAE, 0x0BB9); (0x0BBE, 0x0BC2); (0x0BC6, 0x0BC8);
   (0x0BCA, 0x0BCD); (0x0BD0, 0x0BD0); (0x0BD7, 0x0BD7); (0x0BE6, 0x0BFA);
   (0x0C00, 0x0C0C); (0x0C0E, 0x0C10); (0x0C12, 0x0C28); (0x0C2A, 0x0C39);
   (0x0C3C, 0x0C44); (0x0C46, 0x0C48); (0x0C4A, 0x0C4D); (0x0C55, 0x0C56);
   (0x0C58, 0x0C5A); (0x0C5D, 0x0C5D); (0x0C60, 0x0C63); (0x0C66, 0x0C6F);
   (0x0C77, 0x0C8C); (0x0C8E, 0x0C90); (0x0C92, 0x0CA8); (0x0CAA, 0x0CB3);
   (0x0CB5, 0x0CB9); (0x0CBC, 0x0CC4); (0x0CC6, 0x0CC8); (0x0CCA, 0x0CCD);
   (0x0CD5, 0x0CD6); (0x0CDD, 0x0CDE); (0x0CE0, 0x0CE3); (0x0CE6, 0x0CEF);
   (0x0CF1, 0x0CF2); (0x0D00, 0x0D0C); (0x0D0E, 0x0D10); (0x0D12, 0x0D44);
   (0x0D46, 0x0D48); (0x0D4A, 0x0D4F); (0x0D54, 0x0D63); (0x0D66, 0x0D7F);
   (0x0D81, 0x0D83); (0x0D85, 0x0D96); (0x0D9A, 0x0DB1); (0x0DB3, 0x0DBB);
   (0x0DBD, 0x0DBD); (0x0DC0, 0x0DC6); (0x0DCA, 0x0DCA); (0x0DCF, 0x0DD4);
   (0x0DD6, 0x0DD6); (0x0DD8, 0x0DDF); (0x0DE6, 0x0DEF); (0x0DF2, 0x0DF4);
   (0x0E01, 0x0E3A); (0x0E3F, 0x0E5B); (0x0E81, 0x0E82); (0x0E84, 0x0E84);
   (0x0E86, 0x0E8A); (0x0E8C, 0x0EA3); (0x0EA5, 0x0EA5); (0x0EA7, 0x0EBD);
   (0x0EC0, 0x0EC4); (0x0EC6, 0x0EC6); (0x0EC8, 0x0ECD); (0x0ED0, 0x0ED9);
   (0x0EDC, 0x0EDF); (0x0F00, 0x0F47); (0x0F49, 0x0F6C); (0x0F71, 0x0F97);
   (0x0F99, 0x0FBC); (0x0FBE, 0x0FCC); (0x0FCE, 0x0FDA); (0x1000, 0x10C5);
   (0x10C7, 0x10C7); (0x10CD, 0x10CD); (0x10D0, 0x1248); (0x124A, 0x124D);
   (0x1250, 0x1256); (0x1258, 0x1258); (0x125A, 0x125D); (0x1260, 0x1288);
   (0x128A, 0x128D); (0x1290, 0x12B0); (0x12B2, 0x12B5); (0x12B8, 0x12BE);
   (0x12C0, 0x12C0); (0x12C2, 0x12C5); (0x12C8, 0x12D6); (0x12D8, 0x1310);
   (0x1312, 0x1315); (0x1318, 0x135A); (0x135D, 0x137C); (0x1380, 0x1399);
   (0x13A0, 0x13F5); (0x13F8, 0x13FD); (0x1400, 0x167F); (0x1681, 0x169C);
   (0x16A0, 0x16F8); (0x1700, 0x1715); (0x171F, 0x1736); (0x1740, 0x1753);
   (0x1760, 0x176C); (0x176E, 0x1770); (0x1772, 0x1773); (0x1780, 0x17DD);
   (0x17E0, 0x17E9); (0x17F0, 0x17F9); (0x1800, 0x180D); (0x180F, 0x1819);
   (0x1820, 0x1878); (0x1880, 0x18AA); (0x18B0, 0x18F5); (0x1900, 0x191E);
   (0x1920, 0x192B); (0x1930, 0x193B); (0x1940, 0x1940); (0x1944, 0x196D);
   (0x1970, 0x1974); (0x1980, 0x19AB); (0x19B0, 0x19C9); (0x19D0, 0x19DA);
   (0x19DE, 0x1A1B); (0x1A1E, 0x1A5E); (0x1A60, 0x1A7C); (0x1A7F, 0x1A89);
   (0x1A90, 0x1A99); (0x1AA0, 0x1AAD); (0x1AB0, 0x1ACE); (0x1B00, 0x1B4C);
   (0x1B50, 0x1B7E); (0x1B80, 0x1BF3); (0x1BFC, 0x1C37); (0x1C3B, 0x1C49);
   (0x1C4D, 0x1C88); (0x1C90, 0x1CBA); (0x1CBD, 0x1CC7); (0x1CD0, 0x1CFA);
   (0x1D00, 0x1F15); (0x1F18, 0x1F1D); (0x1F20, 0x1F45); (0x1F48, 0x1F4D);
   (0x1F50, 0x1F57); (0x1F59, 0x1F59); (0x1F5B, 0x1F5B); (0x1F5D, 0x1F5D);
   (0x1F5F, 0x1F7D); (0x1F80, 0x1FB4); (0x1FB6, 0x1FC4); (0x1FC6, 0x1FD3);
   (0x1FD6, 0x1FDB); (0x1FDD, 0x1FEF); (0x1FF2, 0x1FF4); (0x1FF6, 0x1FFE);
   (0x2010, 0x2027); (0x2030, 0x205E); (0x2070, 0x2071); (0x2074, 0x208E);
   (0x2090, 0x209C); (0x20A0, 0x20C0); (0x20D0, 0x20F0); (0x2100, 0x218B);
   (0x2190, 0x2426); (0x2440, 0x244A); (0x2460, 0x2B73); (0x2B76, 0x2B95);
   (0x2B97, 0x2CF3); (0x2CF9, 0x2D25); (0x2D27, 0x2D27); (0x2D2D, 0x2D2D);
   (0x2D30, 0x2D67); (0x2D6F, 0x2D70); (0x2D7F, 0x2D96); (0x2DA0, 0x2DA6);
   (0x2DA8, 0x2DAE); (0x2DB0, 0x2DB6); (0x2DB8, 0x2DBE); (0x2DC0, 0x2DC6);
   (0x2DC8, 0x2DCE); (0x2DD0, 0x2DD6); (0x2DD8, 0x2DDE); (0x2DE0, 0x2E5D);
   (0x2E80, 0x2E99); (0x2E9B, 0x2EF3); (0x2F00, 0x2FD5); (0x2FF0, 0x2FFB);
   (0x3001, 0x303F); (0x3041, 0x3096); (0x3099, 0x30FF); (0x3105, 0x312F);
   (0x3131, 0x318E); (0x3190, 0x31E3); (0x31F0, 0x321E); (0x3220, 0xA48C);
   (0xA490, 0xA4C6); (0xA4D0, 0xA62B); (0xA640, 0xA6F7); (0xA700, 0xA7CA);
   (0xA7D0, 0xA7D1); (0xA7D3, 0xA7D3); (0xA7D5, 0xA7D9); (0xA7F2, 0xA82C);
   (0xA830, 0xA839); (0xA840, 0xA877); (0xA880, 0xA8C5); (0xA8CE, 0xA8D9);
   (0xA8E0, 0xA953); (0xA95F, 0xA97C); (0xA980, 0xA9CD); (0xA9CF, 0xA9D9);
   (0xA9DE, 0xA9FE); (0xAA00, 0xAA36); (0xAA40, 0xAA4D); (0xAA50, 0xAA59);
   (0xAA5C, 0xAAC2); (0xAADB, 0xAAF6); (0xAB01, 0xAB06); (0xAB09, 0xAB0E);
   (0xAB11, 0xAB16); (0xAB20, 0xAB26); (0xAB28, 0xAB2E); (0xAB30, 0xAB6B);
   (0xAB70, 0xABED); (0xABF0, 0xABF9); (0xAC00, 0xD7A3); (0xD7B0, 0xD7C6);
   (0xD7CB, 0xD7FB); (0xF900, 0xFA6D); (0xFA70, 0xFAD9); (0xFB00, 0xFB06);
   (0xFB13, 0xFB17); (0xFB1D, 0xFB36); (0xFB38, 0xFB3C); (0xFB3E, 0xFB3E);
   (0xFB40, 0xFB41); (0xFB43, 0xFB44); (0xFB46, 0xFBC2); (0xFBD3, 0xFD8F);
   (0xFD92, 0xFDC7); (0xFDCF, 0xFDCF); (0xFDF0, 0xFE19); (0xFE20, 0xFE52);
   (0xFE54, 0xFE66); (0xFE68, 0xFE6B); (0xFE70, 0xFE74); (0xFE76, 0xFEFC);
   (0xFF01, 0xFFBE); (0xFFC2, 0xFFC7); (0xFFCA, 0xFFCF); (0xFFD2, 0xFFD7);
   (0xFFDA, 0xFFDC); (0xFFE0, 0xFFE6); (0xFFE8, 0xFFEE); (0xFFFC, 0xFFFD);
   (0x10000, 0x1000B); (0x1000D, 0x10026); (0x10028, 0x1003A); (0x1003C, 0x1003D);
   (0x1003F, 0x1004D); (0x10050, 0x1005D); (0x10080, 0x100FA); (0x10100, 0x10102);
   (0x10107, 0x10133); (0x10137, 0x1018E); (0x10190, 0x1019C); (0x101A0, 0x101A0);
   (0x101D0, 0x101FD); (0x10280, 0x1029C); (0x102A0, 0x102D0); (0x102E0, 0x102FB);
   (0x10300, 0x10323); (0x1032D, 0x1034A); (0x10350, 0x1037A); (0x10380, 0x1039D);
   (0x1039F, 0x103C3); (0x103C8, 0x103D5); (0x10400, 0x1049D); (0x104A0, 0x104A9);
   (0x104B0, 0x104D3); (0x104D8, 0x104FB); (0x10500, 0x10527); (0x10530, 0x10563);
   (0x1056F, 0x1057A); (0x1057C, 0x1058A); (0x1058C, 0x10592); (0x10594, 0x10595);
   (0x10597, 0x105A1); (0x105A3, 0x105B1); (0x105B3, 0x105B9); (0x105BB, 0x105BC);
   (0x10600, 0x10736); (0x10740, 0x10755); (0x10760, 0x10767); (0x10780, 0x10785);
   (0x10787, 0x107B0); (0x107B2, 0x107BA); (0x10800, 0x10805); (0x10808, 0x10808);
   (0x1080A, 0x10835); (0x10837, 0x10838); (0x1083C, 0x1083C); (0x1083F, 0x10855);
   (0x10857, 0x1089E); (0x108A7, 0x108AF); (0x108E0, 0x108F2); (0x108F4, 0x108F5);
   (0x108FB, 0x1091B); (0x1091F, 0x10939); (0x1093F, 0x1093F); (0x10980, 0x109B7);
   (0x109BC, 0x109CF); (0x109D2, 0x10A03); (0x10A05, 0x10A06); (0x10A0C, 0x10A13);
   (0x10A15, 0x10A17); (0x10A19, 0x10A35); (0x10A38, 0x10A3A); (0x10A3F, 0x10A48);
   (0x10A50, 0x10A58); (0x10A60, 0x10A9F); (0x10AC0, 0x10AE6); (0x10AEB, 0x10AF6);
   (0x10B00, 0x10B35); (0x10B39, 0x10B55); (0x10B58, 0x10B72); (0x10B78, 0x10B91);
   (0x10B99, 0x10B9C); (0x10BA9, 0x10BAF); (0x10C00, 0x10C48); (0x10C80, 0x10CB2);
   (0x10CC0, 0x10CF2); (0x10CFA, 0x10D27); (0x10D30, 0x10D39); (0x10E60, 0x10E7E);
   (0x10E80, 0x10EA9); (0x10EAB, 0x10EAD); (0x10EB0, 0x10EB1); (0x10F00, 0x10F27);
   (0x10F30, 0x10F59); (0x10F70, 0x10F89); (0x10FB0, 0x10FCB); (0x10FE0, 0x10FF6);
   (0x11000, 0x1104D); (0x11052, 0x11075); (0x1107F, 0x110BC); (0x110BE, 0x110C2);
   (0x110D0, 0x110E8); (0x110F0, 0x110F9); (0x11100, 0x11134); (0x11136, 0x11147);
   (0x11150, 0x11176); (0x11180, 0x111DF); (0x111E1, 0x111F4); (0x11200, 0x11211);
   (0x11213, 0x1123E); (0x11280, 0x11286); (0x11288, 0x11288); (0x1128A, 0x1128D);
   (0x1128F, 0x1129D); (0x1129F, 0x112A9); (0x112B0, 0x112EA); (0x112F0, 0x112F9);
   (0x11300, 0x11303); (0x11305, 0x1130C); (0x1130F, 0x11310); (0x11313, 0x11328);
   (0x1132A, 0x11330); (0x11332, 0x11333); (0x11335, 0x11339); (0x1133B, 0x11344);
   (0x11347, 0x11348); (0x1134B, 0x1134D); (0x11350, 0x11350); (0x11357, 0x11357);
   (0x1135D, 0x11363); (0x11366, 0x1136C); (0x11370, 0x11374); (0x11400, 0x1145B);
   (0x1145D, 0x11461); (0x11480, 0x114C7); (0x114D0, 0x114D9); (0x11580, 0x115B5);
   (0x115B8, 0x115DD); (0x11600, 0x11644); (0x11650, 0x11659); (0x11660, 0x1166C);
   (0x11680, 0x116B9); (0x116C0, 0x116C9); (0x11700, 0x1171A); (0x1171D, 0x1172B);
   (0x11730, 0x11746); (0x11800, 0x1183B); (0x118A0, 0x118F2); (0x118FF, 0x11906);
   (0x11909, 0x11909); (0x1190C, 0x11913); (0x11915, 0x11916); (0x11918, 0x11935);
   (0x11937, 0x11938); (0x1193B, 0x11946); (0x11950, 0x11959); (0x119A0, 0x119A7);
   (0x119AA, 0x119D7); (0x119DA, 0x119E4); (0x11A00, 0x11A47); (0x11A50, 0x11AA2);
   (0x11AB0, 0x11AF8); (0x11C00, 0x11C08); (0x11C0A, 0x11C36); (0x11C38, 0x11C45);
   (0x11C50, 0x11C6C); (0x11C70, 0x11C8F); (0x11C92, 0x11CA7); (0x11CA9, 0x11CB6);
   (0x11D00, 0x11D06); (0x11D08, 0x11D09); (0x11D0B, 0x11D36); (0x11D3A, 0x11D3A);
   (0x11D3C, 0x11D3D); (0x11D3F, 0x11D47); (0x11D50, 0x11D59); (0x11D60, 0x11D65);
   (0x11D67, 0x11D68); (0x11D6A, 0x11D8E); (0x11D90, 0x11D91); (0x11D93, 0x11D98);
   (0x11DA0, 0x11DA9); (0x11EE0, 0x11EF8); (0x11FB0, 0x11FB0); (0x11FC0, 0x11FF1);
   (0x11FFF, 0x12399); (0x12400, 0x1246E); (0x12470, 0x12474); (0x12480, 0x12543);
   (0x12F90, 0x12FF2); (0x13000, 0x1342E); (0x14400, 0x14646); (0x16800, 0x16A38);
   (0x16A40, 0x16A5E); (0x16A60, 0x16A69); (0x16A6E, 0x16ABE); (0x16AC0, 0x16AC9);
   (0x16AD0, 0x16AED); (0x16AF0, 0x16AF5); (0x16B00, 0x16B45); (0x16B50, 0x16B59);
   (0x16B5B, 0x16B61); (0x16B63, 0x16B77); (0x16B7D, 0x16B8F); (0x16E40, 0x16E9A);
   (0x16F00, 0x16F4A); (0x16F4F, 0x16F87); (0x16F8F, 0x16F9F); (0x16FE0, 0x16FE4);
   (0x16FF0, 0x16FF1); (0x17000, 0x187F7); (0x18800, 0x18CD5); (0x18D00, 0x18D08);
   (0x1AFF0, 0x1AFF3); (0x1AFF5, 0x1AFFB); (0x1AFFD, 0x1AFFE); (0x1B000, 0x1B122);
   (0x1B150, 0x1B152); (0x1B164, 0x1B167); (0x1B170, 0x1B2FB); (0x1BC00, 0x1BC6A);
   (0x1BC70, 0x1BC7C); (0x1BC80, 0x1BC88); (0x1BC90, 0x1BC99); (0x1BC9C, 0x1BC9F);
   (0x1CF00, 0x1CF2D); (0x1CF30, 0x1CF46); (0x1CF50, 0x1CFC3); (0x1D000, 0x1D0F5);
   (0x1D100, 0x1D126); (0x1D129, 0x1D172); (0x1D17B, 0x1D1EA); (0x1D200, 0x1D245);
   (0x1D2E0, 0x1D2F3); (0x1D300, 0x1D356); (0x1D360, 0x1D378); (0x1D400, 0x1D454);
   (0x1D456, 0x1D49C); (0x1D49E, 0x1D49F); (0x1D4A2, 0x1D4A2); (0x1D4A5, 0x1D4A6);
   (0x1D4A9, 0x1D4AC); (0x1D4AE, 0x1D4B9); (0x1D4BB, 0x1D4BB); (0x1D4BD, 0x1D4C3);
   (0x1D4C5, 0x1D505); (0x1D507, 0x1D50A); (0x1D50D, 0x1D514); (0x1D516, 0x1D51C);
   (0x1D51E, 0x1D539); (0x1D53B, 0x1D53E); (0x1D540, 0x1D544); (0x1D546, 0x1D546);
   (0x1D54A, 0x1D550); (0x1D552, 0x1D6A5); (0x1D6A8, 0x1D7CB); (0x1D7CE, 0x1DA8B);
   (0x1DA9B, 0x1DA9F); (0x1DAA1, 0x1DAAF); (0x1DF00, 0x1DF1E); (0x1E000, 0x1E006);
   (0x1E008, 0x1E018); (0x1E01B, 0x1E021); (0x1E023, 0x1E024); (0x1E026, 0x1E02A);
   (0x1E100, 0x1E12C); (0x1E130, 0x1E13D); (0x1E140, 0x1E149); (0x1E14E, 0x1E14F);
   (0x1E290, 0x1E2AE); (0x1E2C0, 0x1E2F9); (0x1E2FF, 0x1E2FF); (0x1E7E0, 0x1E7E6);
   (0x1E7E8, 0x1E7EB); (0x1E7ED, 0x1E7EE); (0x1E7F0, 0x1E7FE); (0x1E800, 0x1E8C4);
   (0x1E8C7, 0x1E8D6); (0x1E900, 0x1E94B); (0x1E950, 0x1E959); (0x1E95E, 0x1E95F);
   (0x1EC71, 0x1ECB4); (0x1ED01, 0x1ED3D); (0x1EE00, 0x1EE03); (0x1EE05, 0x1EE1F);
   (0x1EE21, 0x1EE22); (0x1EE24, 0x1EE24); (0x1EE27, 0x1EE27); (0x1EE29, 0x1EE32);
   (0x1EE34, 0x1EE37); (0x1EE39, 0x1EE39); (0x1EE3B, 0x1EE3B); (0x1EE42, 0x1EE42);
   (0x1EE47, 0x1EE47); (0x1EE49, 0x1EE49); (0x1EE4B, 0x1EE4B); (0x1EE4D, 0x1EE4F);
   (0x1EE51, 0x1EE52); (0x1EE54, 0x1EE54); (0x1EE57, 0x1EE57); (0x1EE59, 0x1EE59);
   (0x1EE5B, 0x1EE5B); (0x1EE5D, 0x1EE5D); (0x1EE5F, 0x1EE5F); (0x1EE61, 0x1EE62);
   (0x1EE64, 0x1EE64); (0x1EE67, 0x1EE6A); (0x1EE6C, 0x1EE72); (0x1EE74, 0x1EE77);
   (0x1EE79, 0x1EE7C); (0x1EE7E, 0x1EE7E); (0x1EE80, 0x1EE89); (0x1EE8B, 0x1EE9B);
   (0x1EEA1, 0x1EEA3); (0x1EEA5, 0x1EEA9); (0x1EEAB, 0x1EEBB); (0x1EEF0, 0x1EEF1);
   (0x1F000, 0x1F02B); (0x1F030, 0x1F093); (0x1F0A0, 0x1F0AE); (0x1F0B1, 0x1F0BF);
   (0x1F0C1, 0x1F0CF); (0x1F0D1, 0x1F0F5); (0x1F100, 0x1F1AD); (0x1F1E6, 0x1F202);
   (0x1F210, 0x1F23B); (0x1F240, 0x1F248); (0x1F250, 0x1F251); (0x1F260, 0x1F265);
   (0x1F300, 0x1F6D7); (0x1F6DD, 0x1F6EC); (0x1F6F0, 0x1F6FC); (0x1F700, 0x1F773);
   (0x1F780, 0x1F7D8); (0x1F7E0, 0x1F7EB); (0x1F7F0, 0x1F7F0); (0x1F800, 0x1F80B);
   (0x1F810, 0x1F847); (0x1F850, 0x1F859); (0x1F860, 0x1F887); (0x1F890, 0x1F8AD);
   (0x1F8B0, 0x1F8B1); (0x1F900, 0x1FA53); (0x1FA60, 0x1FA6D); (0x1FA70, 0x1FA74);
   (0x1FA78, 0x1FA7C); (0x1FA80, 0x1FA86); (0x1FA90, 0x1FAAC); (0x1FAB0, 0x1FABA);
   (0x1FAC0, 0x1FAC5); (0x1FAD0, 0x1FAD9); (0x1FAE0, 0x1FAE7); (0x1FAF0, 0x1FAF6);
   (0x1FB00, 0x1FB92); (0x1FB94, 0x1FBCA); (0x1FBF0, 0x1FBF9); (0x20000, 0x2A6DF);
   (0x2A700, 0x2B738); (0x2B740, 0x2B81D); (0x2B820, 0x2CEA1); (0x2CEB0, 0x2EBE0);
   (0x2F800, 0x2FA1D); (0x30000, 0x3134A); (0xE0100, 0xE01EF)].

(** The whitespace code points ([str.isspace]), as ranges. *)
Definition whitespace : list (Z * Z) :=
  [(0x0009, 0x000D); (0x001C, 0x0020); (0x0085, 0x0085); (0x00A0, 0x00A0);
   (0x1680, 0x1680); (0x2000, 0x200A); (0x2028, 0x2029); (0x202F, 0x202F);
   (0x205F, 0x205F); (0x3000, 0x3000)].

(** The lower-case mapping of one code point; the capital sigma apart,
    which depends on its place in the word. U+0130 is the one code point
    with a mapping of two code points. *)
Definition to_lower (cp : Z) : list Z :=
  if cp =? 0x0130 then [0x0069; 0x0307]
  else
    match find (fun '(first, last, step, _) =>
                  (first <=? cp) && (cp <=? last) && ((cp - first) mod step =? 0))
               lowercase with
    | Some (_, _, _, offset) => [cp + offset]
    | None => [cp]
    end.

Definition is_case_ignorable (c : option Z) : bool :=
  match c with Some cp => in_ranges case_ignorable cp | None => false end.

Definition is_cased (c : option Z) : bool :=
  match c with Some cp => in_ranges cased cp | None => false end.

(** A capital sigma is final when, case-ignorable characters skipped, a
    cased character comes before it and none comes after it. [before] is
    the text before the sigma, nearest character first. *)
Definition final_sigma (before after : list (option Z)) : bool :=
  match find (fun c => negb (is_case_ignorable c)) before with
  | Some c =>
      is_cased c
      && match find (fun c => negb (is_case_ignorable c)) after with
         | Some c' => negb (is_cased c')
         | None => true
         end
  | None => false
  end.

Fixpoint lower_chars (before : list (option Z)) (cs : list string) : string :=
  match cs with
  | [] => EmptyString
  | c :: rest =>
      (match ord c with
       | Some cp =>
           if cp =? 0x03A3
           then chr (if final_sigma before (map ord rest) then 0x03C2 else 0x03C3)
           else join (map chr (to_lower cp))
       | None => c
       end) ++ lower_chars (ord c :: before) rest
  end.

(** [c.isspace()] and [c.isprintable()] of a character. *)
Definition is_space (c : string) : bool :=
  match ord c with Some cp => in_ranges whitespace cp | None => false end.

Definition is_printable (cp : Z) : bool :=
  if cp <? 128 then (32 <=? cp) && (cp <? 127) else in_ranges printable cp.

(** A text that UTF-8 can encode: one without a surrogate. *)
Definition encodable (s : string) : bool :=
  forallb (fun c => match ord c with
                    | Some cp => negb (is_surrogate cp)
                    | None => true
                    end) (chars s).

End Unicode.

(* ------------------------------------------------------------------ *)
(** ** Python strings *)

Module PyStr.

(** [s.lower()]. *)
Definition lower (s : string) : string :=
  Unicode.lower_chars [] (Unicode.chars s).

(** [hay.startswith(needle)]. *)
Fixpoint startswith (needle hay : string) : bool :=
  match needle, hay with
  | EmptyString, _ => true
  | String _ _, EmptyString => false
  | String a n, String b h => Ascii.eqb a b && startswith n h
  end.

(** [needle in hay]. *)
Fixpoint contains (needle hay : string) : bool :=
  startswith needle hay ||
  match hay with
  | EmptyString => false
  | String _ h => contains needle h
  end.

(** [any(keyword in text for keyword in keywords)]. *)
Definition any_in (keywords : list string) (text : string) : bool :=
  existsb (fun keyword => contains keyword text) keywords.

End PyStr.

(* ------------------------------------------------------------------ *)
(** ** Enumerations *)

Inductive AgentType :=
| ANALYST | IMPLEMENTER | VALIDATOR | INTEGRATOR | CREATIVE | REASONER.

Inductive TaskStatus :=
| PENDING | ASSIGNED | IN_PROGRESS | REVIEW | COMPLETED | BLOCKED.

Inductive SignalType :=
| REQUIREMENT | DECISION_NEEDED | INNOVATION_DETECTED
| QUALITY_ISSUE | INTEGRATION_READY | DEPLOYMENT_SIGNAL.

Definition AgentType_eqb (a b : AgentType) : bool :=
  match a, b with
  | ANALYST, ANALYST | IMPLEMENTER, IMPLEMENTER | VALIDATOR, VALIDATOR
  | INTEGRATOR, INTEGRATOR | CREATIVE, CREATIVE | REASONER, REASONER => true
  | _, _ => false
  end.

Definition TaskStatus_eqb (a b : TaskStatus) : bool :=
  match a, b with
  | PENDING, PENDING | ASSIGNED, ASSIGNED | IN_PROGRESS, IN_PROGRESS
  | REVIEW, REVIEW | COMPLETED, COMPLETED | BLOCKED, BLOCKED => true
  | _, _ => false
  end.

Definition SignalType_eqb (a b : SignalType) : bool :=
  match a, b with
  | REQUIREMENT, REQUIREMENT | DECISION_NEEDED, DECISION_NEEDED
  | INNOVATION_DETECTED, INNOVATION_DETECTED | QUALITY_ISSUE, QUALITY_ISSUE
  | INTEGRATION_READY, INTEGRATION_READY
  | DEPLOYMENT_SIGNAL, DEPLOYMENT_SIGNAL => true
  | _, _ => false
  end.

(** [AgentType.value]. *)
Definition AgentType_value (a : AgentType) : string :=
  match a with
  | ANALYST => "analyst" | IMPLEMENTER => "implementer"
  | VALIDATOR => "validator" | INTEGRATOR => "integrator"
  | CREATIVE => "creative" | REASONER => "reasoner"
  end.

(* ------------------------------------------------------------------ *)
(** ** Python values carried in outputs, signal payloads and log entries *)

#[local] Set Warnings "-register-all".

Inductive pyval :=
| PNone
| PBool (b : bool)
| PInt (z : Z)
| PStr (s : string)
| PList (l : list pyval)
| PDict (d : list (string * pyval)).

Definition pydict := list (string * pyval).

Module PyDict.
Section Dict.
Context {V : Type}.

(** [d.get(k)]. *)
Fixpoint get (k : string) (d : list (string * V)) : option V :=
  match d with
  | [] => None
  | (k', v) :: r => if String.eqb k k' then Some v else get k r
  end.

(** [d[k] = v]: replaces in place, or appends a new key. *)
Fixpoint set (k : string) (v : V) (d : list (string * V)) : list (string * V) :=
  match d with
  | [] => [(k, v)]
  | (k', v') :: r =>
      if String.eqb k k' then (k', v) :: r else (k', v') :: set k v r
  end.

(** [k in d]. *)
Definition mem (k : string) (d : list (string * V)) : bool :=
  match get k d with Some _ => true | None => false end.

(** Attribute assignment on the object stored under [k]: the object is
    shared, so the dict sees the change; nothing happens to the keys. *)
Fixpoint update (k : string) (f : V -> V) (d : list (string * V))
  : list (string * V) :=
  match d with
  | [] => []
  | (k', v) :: r =>
      if String.eqb k k' then (k', f v) :: r else (k', v) :: update k f r
  end.

Definition keys (d : list (string * V)) : list string := map fst d.
Definition values (d : list (string * V)) : list V := map snd d.
End Dict.
End PyDict.

(** [d.get(k, default)]. *)
Definition get_default (k : string) (default : pyval) (d : pydict) : pyval :=
  match PyDict.get k d with Some v => v | None => default end.

(** Truth value of an [Optional[dict]]: [None] and [{}] are false. *)
Definition truthy (o : option pydict) : bool :=
  match o with
  | None => false
  | Some [] => false
  | Some (_ :: _) => true
  end.

(** Truth value of an arbitrary value. *)
Definition py_bool (v : pyval) : bool :=
  match v with
  | PNone => false
  | PBool b => b
  | PInt z => negb (z =? 0)%Z
  | PStr s => negb (String.eqb s "")
  | PList l => match l with [] => false | _ => true end
  | PDict d => match d with [] => false | _ => true end
  end.

(* ------------------------------------------------------------------ *)
(** ** Data classes *)

Record Agent := mkAgent {
  a_id : string;
  a_name : string;
  a_type : AgentType;
  a_capabilities : list string;
  a_status : string;
  a_current_task : option string;
  a_specializations : list string
}.

Record Task := mkTask {
  t_id : string;
  t_description : string;
  t_agent_type : AgentType;
  t_status : TaskStatus;
  t_priority : Z;
  t_dependencies : list string;
  t_output : option pydict;
  t_assigned_to : option string
}.

Record Signal := mkSignal {
  s_id : string;
  s_type : SignalType;
  s_source : option string;
  s_data : pydict
}.

(** One entry of [ProjectContext.decisions]. *)
Record Decision := mkDecision {
  d_decision : string;
  d_signal_data : pydict
}.

Record ProjectContext := mkContext {
  c_project_id : string;
  c_name : string;
  c_description : string;
  c_requirements : list string;
  c_decisions : list (string * Decision);
  c_patterns : list (string * list string);
  c_metrics : list (string * Q)
}.

Record LogEntry := mkLog {
  l_event_type : string;
  l_data : pydict
}.

(** [Task(id=..., description=..., agent_type=..., priority=...,
    dependencies=...)] with the defaults of the data class. *)
Definition new_Task (id description : string) (agent_type : AgentType)
           (priority : Z) (dependencies : list string) : Task :=
  mkTask id description agent_type PENDING priority dependencies None None.

(* ------------------------------------------------------------------ *)
(** ** The decomposer *)

Definition deep_reasoning_keywords : list string :=
  ["optimize"; "performance"; "algorithm"; "complex"; "architecture";
   "scale"; "security"; "analyze"; "efficient"; "bottleneck"].

Definition needs_deep_reasoning (requirement : string) : bool :=
  PyStr.any_in deep_reasoning_keywords (PyStr.lower requirement).

(** [tasks[-1].id] and [tasks[0].id]. *)
Definition last_id (tasks : list Task) : string :=
  t_id (last tasks (new_Task "" "" ANALYST 0 [])).
Definition first_id (tasks : list Task) : string :=
  t_id (hd (new_Task "" "" ANALYST 0 []) tasks).

(** [_decompose_requirement]: [ids] are the values of [uuid.uuid4()] in
    drawing order; every task draws exactly one, so the task appended to
    [tasks] takes the identifier of index [len(tasks)]. *)
Definition _decompose_requirement (ids : list string) (requirement : string)
  : list Task :=
  let uuid4 (tasks : list Task) := nth (List.length tasks) ids "" in
  let tasks := [] in
  let needs := needs_deep_reasoning requirement in
  let tasks := tasks ++
    [new_Task (uuid4 tasks)
       ("Analyze and architect solution for: " ++ requirement) ANALYST 10 []] in
  let tasks :=
    if needs then tasks ++
      [new_Task (uuid4 tasks)
         ("Perform deep technical analysis and optimization for: " ++ requirement)
         REASONER 9 [first_id tasks]]
    else tasks in
  let plan_deps := if needs then [last_id tasks] else [first_id tasks] in
  let tasks := tasks ++
    [new_Task (uuid4 tasks)
       ("Create implementation plan for: " ++ requirement) ANALYST 8 plan_deps] in
  let tasks := tasks ++
    [new_Task (uuid4 tasks)
       ("Generate code implementation for: " ++ requirement)
       IMPLEMENTER 7 [last_id tasks]] in
  let tasks := tasks ++
    [new_Task (uuid4 tasks)
       ("Validate and test implementation for: " ++ requirement)
       VALIDATOR 6 [last_id tasks]] in
  let tasks :=
    if needs then tasks ++
      [new_Task (uuid4 tasks)
         ("Optimize and refine implementation based on analysis: " ++ requirement)
         REASONER 5 [last_id tasks]]
    else tasks in
  tasks.

(** Number of tasks that list [task_id] among their dependencies. *)
Definition dependents (task_id : string) (tasks : list Task) : list Task :=
  filter (fun u => existsb (String.eqb task_id) (t_dependencies u)) tasks.

(* ------------------------------------------------------------------ *)
(** ** [str] and [repr] of Python values *)

Module PyRepr.
Local Open Scope string_scope.

Definition dquote : ascii := ascii_of_nat 34.
Definition squote : ascii := ascii_of_nat 39.
Definition backslash : ascii := ascii_of_nat 92.

Definition hex_digit (n : nat) : ascii :=
  nth n (list_ascii_of_string "0123456789abcdef") "0"%char.

Definition str1 (c : ascii) : string := String c EmptyString.

(** [n] as [digits] lower-case hexadecimal digits. *)
Fixpoint hex (digits : nat) (n : Z) : string :=
  match digits with
  | O => EmptyString
  | S d => hex d (n / 16) ++ str1 (hex_digit (Z.to_nat (n mod 16)))
  end.

(** One character of [repr(s)] when [q] is the enclosing quote: the
    backslash and the quote are escaped, tab, newline and carriage return
    have their letters, every other character that is not printable is
    written by its code point, and the printable ones are kept. *)
Definition repr_char (q : ascii) (c : string) : string :=
  match Unicode.ord c with
  | Some cp =>
      if (cp =? Unicode.byte backslash)%Z then String backslash (str1 backslash)
      else if (cp =? Unicode.byte q)%Z then String backslash (str1 q)
      else if (cp =? 9)%Z then String backslash "t"
      else if (cp =? 10)%Z then String backslash "n"
      else if (cp =? 13)%Z then String backslash "r"
      else if Unicode.is_printable cp then c
      else if (cp <? 256)%Z then String backslash ("x" ++ hex 2 cp)
      else if (cp <? 65536)%Z then String backslash ("u" ++ hex 4 cp)
      else String backslash ("U" ++ hex 8 cp)
  | None => c
  end.

Definition repr_chars (q : ascii) (s : string) : string :=
  Unicode.join (map (repr_char q) (Unicode.chars s)).

(** [repr(s)] of a string: single quotes unless the text has a single
    quote and no double quote. *)
Definition repr_str (s : string) : string :=
  let q := if PyStr.contains (str1 squote) s && negb (PyStr.contains (str1 dquote) s)
           then dquote else squote in
  String q (repr_chars q s ++ str1 q).

Definition repr_Z (z : Z) : string := NilZero.string_of_int (Z.to_int z).

Fixpoint repr (v : pyval) : string :=
  match v with
  | PNone => "None"
  | PBool true => "True"
  | PBool false => "False"
  | PInt z => repr_Z z
  | PStr s => repr_str s
  | PList l =>
      "[" ++
      (fix items (l : list pyval) : string :=
         match l with
         | [] => ""
         | x :: r => repr x ++ match r with [] => "" | _ => ", " ++ items r end
         end) l ++ "]"
  | PDict d =>
      "{" ++
      (fix items (d : list (string * pyval)) : string :=
         match d with
         | [] => ""
         | (k, x) :: r =>
             repr_str k ++ ": " ++ repr x ++
             match r with [] => "" | _ => ", " ++ items r end
         end) d ++ "}"
  end.

(** The text between the braces of [repr] of a dict. *)
Fixpoint dict_items (d : list (string * pyval)) : string :=
  match d with
  | [] => ""
  | (k, x) :: r =>
      repr_str k ++ ": " ++ repr x ++
      match r with [] => "" | _ => ", " ++ dict_items r end
  end.

(** [str(task.output)] for an [Optional[dict]]. *)
Definition str_output (o : option pydict) : string :=
  match o with
  | None => "None"
  | Some d => repr (PDict d)
  end.

End PyRepr.

(* ------------------------------------------------------------------ *)
(** ** The engine *)

(** A coroutine made by [asyncio.create_task(self._execute_task(task,
    agent))]: [Created] until the loop first runs it, [Awaiting] while it is
    suspended in [await bridge.execute_task(...)]. *)
Inductive phase := Created | Awaiting.

Definition phase_eqb (a b : phase) : bool :=
  match a, b with
  | Created, Created | Awaiting, Awaiting => true
  | _, _ => false
  end.

Record Coroutine := mkCoroutine {
  co_task : string;
  co_agent : string;
  co_phase : phase
}.

Record OrchestratorCore := mkCore {
  project_path : string;
  project_id : string;
  agents : list (string * Agent);
  tasks : list (string * Task);
  signals : list Signal;
  context : option ProjectContext;
  execution_log : list LogEntry;
  loop : list Coroutine
}.

Definition with_agents (self : OrchestratorCore) x :=
  mkCore (project_path self) (project_id self) x (tasks self) (signals self)
         (context self) (execution_log self) (loop self).
Definition with_tasks (self : OrchestratorCore) x :=
  mkCore (project_path self) (project_id self) (agents self) x (signals self)
         (context self) (execution_log self) (loop self).
Definition with_signals (self : OrchestratorCore) x :=
  mkCore (project_path self) (project_id self) (agents self) (tasks self) x
         (context self) (execution_log self) (loop self).
Definition with_context (self : OrchestratorCore) x :=
  mkCore (project_path self) (project_id self) (agents self) (tasks self)
         (signals self) x (execution_log self) (loop self).
Definition with_execution_log (self : OrchestratorCore) x :=
  mkCore (project_path self) (project_id self) (agents self) (tasks self)
         (signals self) (context self) x (loop self).
Definition with_loop (self : OrchestratorCore) x :=
  mkCore (project_path self) (project_id self) (agents self) (tasks self)
         (signals self) (context self) (execution_log self) x.

(** [_initialize_agents]: the fixed roster, in insertion order. *)
Definition _initialize_agents : list (string * Agent) :=
  [ ("claude_analyst",
     mkAgent "claude_analyst" "Claude Strategic Analyst" ANALYST
       ["architecture_design"; "requirement_analysis"; "strategic_planning";
        "risk_assessment"]
       "ready" None ["system_design"; "scalability"; "best_practices"]);
    ("codex_impl",
     mkAgent "codex_impl" "Codex Implementation Engine" IMPLEMENTER
       ["code_generation"; "api_development"; "database_design"; "optimization"]
       "ready" None ["full_stack"; "microservices"; "cloud_native"]);
    ("claude2_validator",
     mkAgent "claude2_validator" "Claude2 Quality Validator" VALIDATOR
       ["code_review"; "test_generation"; "security_audit"; "performance_testing"]
       "ready" None ["quality_assurance"; "security"; "compliance"]);
    ("ide_integrator",
     mkAgent "ide_integrator" "IDE Integration Suite" INTEGRATOR
       ["deployment"; "monitoring"; "debugging"; "environment_setup"]
       "ready" None ["ci_cd"; "containerization"; "observability"]);
    ("deepseek_reasoner",
     mkAgent "deepseek_reasoner" "DeepSeek Advanced Reasoner" REASONER
       ["deep_reasoning"; "algorithm_analysis"; "performance_optimization";
        "security_analysis"; "architecture_review"]
       "ready" None ["complexity_analysis"; "bottleneck_detection"; "optimization"]) ].

(** [OrchestratorCore(project_path)]; [pid] is the [uuid4] drawn for
    [project_id]. *)
Definition init (path pid : string) : OrchestratorCore :=
  mkCore path pid _initialize_agents [] [] None [] [].

(** [_log_event]. *)
Definition _log_event (self : OrchestratorCore) (event_type : string)
           (data : pydict) : OrchestratorCore :=
  with_execution_log self (execution_log self ++ [mkLog event_type data]).

(** [_dependencies_met]: a [Task] object is always true, so
    [not dep_task] holds for [None] only. *)
Definition _dependencies_met (self : OrchestratorCore) (task : Task) : bool :=
  forallb
    (fun dep_id =>
       match PyDict.get dep_id (tasks self) with
       | None => false
       | Some dep_task => TaskStatus_eqb (t_status dep_task) COMPLETED
       end)
    (t_dependencies task).

Definition set_assigned (agent_id : string) (t : Task) : Task :=
  mkTask (t_id t) (t_description t) (t_agent_type t) ASSIGNED (t_priority t)
         (t_dependencies t) (t_output t) (Some agent_id).

Definition set_status (st : TaskStatus) (t : Task) : Task :=
  mkTask (t_id t) (t_description t) (t_agent_type t) st (t_priority t)
         (t_dependencies t) (t_output t) (t_assigned_to t).

Definition set_completed (output : option pydict) (t : Task) : Task :=
  mkTask (t_id t) (t_description t) (t_agent_type t) COMPLETED (t_priority t)
         (t_dependencies t) output (t_assigned_to t).

Definition set_agent (status : string) (current : option string) (a : Agent)
  : Agent :=
  mkAgent (a_id a) (a_name a) (a_type a) (a_capabilities a) status current
          (a_specializations a).

(** The agent picked by the loop of [_assign_task]: the first one, in
    roster order, of the task's type whose status is ["ready"]. *)
Definition find_agent (self : OrchestratorCore) (task : Task)
  : option (string * Agent) :=
  find (fun '(agent_id, agent) =>
          AgentType_eqb (a_type agent) (t_agent_type task)
          && String.eqb (a_status agent) "ready")
       (agents self).

(** [_assign_task]. *)
Definition _assign_task (self : OrchestratorCore) (task : Task)
  : OrchestratorCore :=
  if negb (_dependencies_met self task) then self
  else
    match find_agent self task with
    | None => self
    | Some (agent_id, agent) =>
        let self := with_tasks self
                      (PyDict.update (t_id task) (set_assigned agent_id) (tasks self)) in
        let self := with_agents self
                      (PyDict.update agent_id (set_agent "working" (Some (t_id task)))
                                     (agents self)) in
        with_loop self (loop self ++ [mkCoroutine (t_id task) agent_id Created])
    end.

(** [_check_pending_tasks]: the loop visits the task objects in insertion
    order and reads the status each object has when it is visited. *)
Definition _check_pending_tasks (self : OrchestratorCore) : OrchestratorCore :=
  fold_left
    (fun self task_id =>
       match PyDict.get task_id (tasks self) with
       | Some task =>
           if TaskStatus_eqb (t_status task) PENDING
           then _assign_task self task else self
       | None => self
       end)
    (PyDict.keys (tasks self)) self.

(** [process_requirement]: [req_id] and [ids] are the identifiers drawn,
    the first by [process_requirement] itself, the others by the
    decomposer. *)
Definition process_requirement (self : OrchestratorCore) (requirement : string)
           (priority : Z) (req_id : string) (ids : list string)
  : OrchestratorCore * string :=
  let signal := mkSignal req_id REQUIREMENT (Some "user")
                  [("content", PStr requirement); ("priority", PInt priority)] in
  let self := with_signals self (signals self ++ [signal]) in
  let new_tasks := _decompose_requirement ids requirement in
  let self :=
    fold_left
      (fun self task =>
         let self := with_tasks self (PyDict.set (t_id task) task (tasks self)) in
         _assign_task self task)
      new_tasks self in
  let self := _log_event self "requirement_processed"
                [("id", PStr req_id); ("requirement", PStr requirement);
                 ("task_count", PInt (Z.of_nat (List.length new_tasks)))] in
  (self, req_id).

(** What [await bridge.execute_task(...)] does: it raises, or it returns a
    result dict. *)
Inductive bridge_result :=
| Raised
| Returned (result : pydict).

(** The request dict [_execute_task] hands to the bridge. *)
Definition bridge_request (task : Task) (agent : Agent) : pydict :=
  [("id", PStr (t_id task));
   ("description", PStr (t_description task));
   ("priority", PInt (t_priority task));
   ("agent_type", PStr (AgentType_value (a_type agent)))].

(** [AgentBridge.execute_task] passes [task.get("context", {})] to the
    connector as the worker's execution context. *)
Definition worker_context (request : pydict) : pyval :=
  get_default "context" (PDict []) request.

(** The simulated output of [_execute_task], by agent type; [None] where no
    branch of the [if]/[elif] chain applies and [task.output] is left as it
    is. *)
Definition simulated_output (agent_type : AgentType) (description : string)
  : option pydict :=
  match agent_type with
  | ANALYST =>
      if PyStr.contains "hello world" (PyStr.lower description)
         || PyStr.contains "webpage" (PyStr.lower description)
      then Some [("architecture", PStr "static_website");
                 ("components", PList [PStr "html"; PStr "css"]);
                 ("technology", PStr "HTML/CSS");
                 ("complexity", PStr "simple")]
      else Some [("architecture", PStr "microservices");
                 ("components", PList [PStr "api"; PStr "database"; PStr "cache";
                                       PStr "queue"]);
                 ("decisions_needed", PList [PStr "database_choice";
                                             PStr "deployment_platform"])]
  | IMPLEMENTER =>
      Some [("code_generated", PBool true);
            ("files", PList [PStr "app.py"; PStr "models.py"; PStr "api.py"]);
            ("lines_of_code", PInt 500)]
  | VALIDATOR =>
      Some [("tests_passed", PBool true);
            ("coverage", PInt 85);
            ("issues_found", PInt 2);
            ("security_score", PStr "A");
            ("execution_metadata",
             PDict [("runnable", PBool true);
                    ("execution_type", PStr "web_server");
                    ("command", PStr "python3 hello_world.py");
                    ("port", PInt 8000);
                    ("url", PStr "http://localhost:8000");
                    ("framework", PStr "FastAPI");
                    ("startup_time", PInt 2)])]
  | REASONER =>
      Some [("analysis_complete", PBool true);
            ("optimizations",
             PList [PStr "Use connection pooling for database";
                    PStr "Implement caching layer";
                    PStr "Add request rate limiting"]);
            ("performance_metrics",
             PDict [("time_complexity", PStr "O(n log n)");
                    ("space_complexity", PStr "O(n)");
                    ("bottlenecks", PList [PStr "database queries";
                                           PStr "external API calls"])]);
            ("security_recommendations",
             PList [PStr "Add input validation";
                    PStr "Implement CSRF protection";
                    PStr "Use prepared statements"])]
  | INTEGRATOR | CREATIVE => None
  end.

(** [task.output] after the [try]/[except] and the simulation block. *)
Definition task_output (task : Task) (agent : Agent) (r : bridge_result)
  : option pydict :=
  let output := match r with Returned result => Some result | Raised => None end in
  if negb (truthy output) then
    match simulated_output (a_type agent) (t_description task) with
    | Some simulated => Some simulated
    | None => output
    end
  else output.

(** [_create_decision_signal]; [signal_id] is the [uuid4] drawn. *)
Definition _create_decision_signal (self : OrchestratorCore) (task : Task)
           (signal_id : string) : OrchestratorCore :=
  let output := match t_output task with Some d => d | None => [] end in
  let signal :=
    mkSignal signal_id DECISION_NEEDED (t_assigned_to task)
      [("task_id", PStr (t_id task));
       ("decisions", get_default "decisions_needed" (PList []) output);
       ("context", PDict output)] in
  with_signals self (signals self ++ [signal]).

(** [_execute_task] up to its [await]: the task is in progress and the
    start is logged. *)
Definition _execute_task_begin (self : OrchestratorCore) (task : Task)
           (agent : Agent) : OrchestratorCore :=
  let self := with_tasks self
                (PyDict.update (t_id task) (set_status IN_PROGRESS) (tasks self)) in
  _log_event self "task_started"
    [("task_id", PStr (t_id task)); ("agent_id", PStr (a_id agent));
     ("description", PStr (t_description task))].

(** [_execute_task] from the point where the bridge call has raised or
    returned. Writing the implementer's response to the workspace is file
    output only and changes nothing in the engine. *)
Definition _execute_task_resume (self : OrchestratorCore) (task : Task)
           (agent : Agent) (r : bridge_result) (signal_id : string)
  : OrchestratorCore :=
  let output := task_output task agent r in
  let self := with_tasks self
                (PyDict.update (t_id task) (set_completed output) (tasks self)) in
  let self := with_agents self
                (PyDict.update (a_id agent) (set_agent "ready" None) (agents self)) in
  let self :=
    if PyStr.contains "decisions_needed" (PyRepr.str_output output)
    then _create_decision_signal self (set_completed output task) signal_id
    else self in
  let self := _check_pending_tasks self in
  _log_event self "task_completed"
    [("task_id", PStr (t_id task)); ("agent_id", PStr (a_id agent))].

(** [make_decision]. *)
Definition make_decision (self : OrchestratorCore) (signal_id decision : string)
  : OrchestratorCore * bool :=
  match find (fun s => String.eqb (s_id s) signal_id) (signals self) with
  | None => (self, false)
  | Some signal =>
      let ctx := match context self with
                 | Some c => c
                 | None => mkContext (project_id self) "Project"
                                     "AI-augmented development" [] [] [] []
                 end in
      let ctx := mkContext (c_project_id ctx) (c_name ctx) (c_description ctx)
                   (c_requirements ctx)
                   (PyDict.set signal_id (mkDecision decision (s_data signal))
                               (c_decisions ctx))
                   (c_patterns ctx) (c_metrics ctx) in
      let self := with_context self (Some ctx) in
      let self := _log_event self "decision_made"
                    [("signal_id", PStr signal_id); ("decision", PStr decision)] in
      (self, true)
  end.

(* ------------------------------------------------------------------ *)
(** ** The status aggregator *)

(** [sum(1 for x in xs if p(x))]. *)
Definition count_if {A : Type} (p : A -> bool) (xs : list A) : nat :=
  List.length (filter p xs).

Definition has_status (st : TaskStatus) (t : Task) : bool :=
  TaskStatus_eqb (t_status t) st.

(** Python's [max(a, b)] and [min(a, b)]: the first argument unless the
    second is strictly larger (smaller). *)
Definition py_max (a b : Q) : Q := if Qlt_le_dec a b then b else a.
Definition py_min (a b : Q) : Q := if Qlt_le_dec b a then b else a.

Definition of_nat (n : nat) : Q := inject_Z (Z.of_nat n).

(** [_calculate_health_score], in exact arithmetic; the weights in
    [factors] are never read. *)
Definition _calculate_health_score (self : OrchestratorCore) : Q :=
  let score := 85%Q in
  let blocked_ratio :=
    (of_nat (count_if (has_status BLOCKED) (PyDict.values (tasks self)))
     / of_nat (Nat.max (List.length (tasks self)) 1))%Q in
  let score := (score - blocked_ratio * 20)%Q in
  py_max 0 (py_min 100 score).

Record ProjectStatus := mkStatus {
  ps_project_id : string;
  ps_health_score : Q;
  ps_progress : Q;
  ps_active_agents : nat;
  ps_pending_decisions : nat;
  ps_total : nat;
  ps_completed : nat;
  ps_in_progress : nat;
  ps_blocked : nat
}.

(** [get_project_status], the health score and the progress in exact
    arithmetic. *)
Definition get_project_status (self : OrchestratorCore) : ProjectStatus :=
  let total_tasks := List.length (tasks self) in
  let completed_tasks :=
    count_if (has_status COMPLETED) (PyDict.values (tasks self)) in
  mkStatus
    (project_id self)
    (_calculate_health_score self)
    (if (0 <? total_tasks)%nat
     then (of_nat completed_tasks / of_nat total_tasks * 100)%Q else 0%Q)
    (count_if (fun a => String.eqb (a_status a) "working") (PyDict.values (agents self)))
    (count_if (fun s => SignalType_eqb (s_type s) DECISION_NEEDED) (signals self))
    total_tasks
    completed_tasks
    (count_if (has_status IN_PROGRESS) (PyDict.values (tasks self)))
    (count_if (has_status BLOCKED) (PyDict.values (tasks self))).

(* ------------------------------------------------------------------ *)
(** ** The status aggregator in binary64

    A [float] is held as the rational it denotes; infinities and NaN do
    not arise in the aggregator. *)

Module Binary64.
Local Open Scope Q_scope.

Definition pow2 (e : Z) : Q := 2 ^ e.

(** The exponent of the binade of a positive number: the [e] with
    [2 ^ (e - 1) <= x < 2 ^ e]. The difference of the binary logarithms of
    numerator and denominator is [e] or [e - 1]. *)
Definition mag (x : Q) : Z :=
  let e := (Z.log2 (Qnum x) - Z.log2 (Z.pos (Qden x)))%Z in
  if Qle_bool (pow2 e) x then (e + 1)%Z else e.

(** The exponent of the last place in that binade: 53 significant bits,
    and no place below [2 ^ -1074], the smallest subnormal number. *)
Definition fexp (m : Z) : Z := Z.max (m - 53) (-1074).

(** The nearest integer, the even one of two that are equally near. *)
Definition round_half_even (x : Q) : Z :=
  let f := Qfloor x in
  match Qcompare (x - inject_Z f) (1 # 2) with
  | Lt => f
  | Gt => (f + 1)%Z
  | Eq => if Z.even f then f else (f + 1)%Z
  end.

(** The binary64 number nearest to a positive [x]. *)
Definition round_pos (x : Q) : Q :=
  let e := fexp (mag x) in
  inject_Z (round_half_even (x / pow2 e)) * pow2 e.

(** The binary64 number nearest to [x]. Overflow is left out: no number
    of the aggregator is beyond [2 ^ 7]. *)
Definition round (x : Q) : Q :=
  let x := Qred x in
  match Qnum x with
  | Z0 => 0
  | Zpos _ => round_pos x
  | Zneg _ => - round_pos (- x)
  end.

(** [a / b] of two [int]s: the quotient, rounded once. *)
Definition truediv (a b : nat) : Q := round (of_nat a / of_nat b).

(** [x * y] and [x - y] of two [float]s; an [int] operand is converted
    first, which changes none of 20, 85 and 100. *)
Definition mul (x y : Q) : Q := round (x * y).
Definition sub (x y : Q) : Q := round (x - y).

(** [_calculate_health_score] as Python computes it. *)
Definition _calculate_health_score (self : OrchestratorCore) : Q :=
  let score := 85 in
  let blocked_ratio :=
    truediv (count_if (has_status BLOCKED) (PyDict.values (tasks self)))
            (Nat.max (List.length (tasks self)) 1) in
  let score := sub score (mul blocked_ratio 20) in
  py_max 0 (py_min 100 score).

(** The ["progress"] of [get_project_status] as Python computes it. *)
Definition progress (self : OrchestratorCore) : Q :=
  let total_tasks := List.length (tasks self) in
  let completed_tasks :=
    count_if (has_status COMPLETED) (PyDict.values (tasks self)) in
  if (0 <? total_tasks)%nat
  then mul (truediv completed_tasks total_tasks) 100 else 0.
End Binary64.

(** The same operations by the IEEE 754 model of the standard library,
    to compare the two on small task maps. *)
Module IEEE754.
Import SpecFloat.
Definition prec : Z := 53.
Definition emax : Z := 1024.
Definition of_Z (z : Z) : spec_float := binary_normalize prec emax z 0 false.
Definition value (f : spec_float) : Q :=
  match f with
  | S754_finite s m e =>
      ((if s then -1 else 1) * inject_Z (Z.pos m) * Binary64.pow2 e)%Q
  | _ => 0%Q
  end.
Definition div : spec_float -> spec_float -> spec_float := SFdiv prec emax.
Definition mul : spec_float -> spec_float -> spec_float := SFmul prec emax.
Definition sub : spec_float -> spec_float -> spec_float := SFsub prec emax.
End IEEE754.

(** The pairs [(c, t)] with [c <= t] and [1 <= t <= n]. *)
Definition counts (n : nat) : list (nat * nat) :=
  flat_map (fun t => map (fun c => (c, S t)) (seq 0 (S (S t)))) (seq 0 n).

(* ------------------------------------------------------------------ *)
(** ** Runs of the engine *)

(** What can happen to an engine: a requirement is submitted, the event
    loop runs a created coroutine up to its [await], a bridge call ends and
    its coroutine runs to the end, a decision is submitted. *)
Inductive event :=
| Submit (requirement : string) (priority : Z) (req_id : string) (ids : list string)
| Start (task_id : string)
| Resume (task_id : string) (r : bridge_result) (signal_id : string)
| Decide (signal_id decision : string).

Fixpoint nodupb (l : list string) : bool :=
  match l with
  | [] => true
  | x :: r => negb (existsb (String.eqb x) r) && nodupb r
  end.

(** [uuid4] never repeats: the identifiers drawn for the new tasks are
    pairwise distinct and name no task of the map; there are as many as the
    decomposer draws. *)
Definition fresh_ids (self : OrchestratorCore) (requirement : string)
           (ids : list string) : bool :=
  nodupb ids
  && forallb (fun i => negb (PyDict.mem i (tasks self))) ids
  && (List.length ids =? List.length (_decompose_requirement ids requirement))%nat.

(** Takes the first coroutine of task [task_id] in phase [ph] out of the
    loop's list. *)
Fixpoint take_coroutine (task_id : string) (ph : phase) (l : list Coroutine)
  : option (Coroutine * list Coroutine) :=
  match l with
  | [] => None
  | c :: r =>
      if String.eqb (co_task c) task_id && phase_eqb (co_phase c) ph
      then Some (c, r)
      else match take_coroutine task_id ph r with
           | Some (c', r') => Some (c', c :: r')
           | None => None
           end
  end.

(** One event; [None] when the event cannot happen in this state. *)
Definition step (self : OrchestratorCore) (e : event) : option OrchestratorCore :=
  match e with
  | Submit requirement priority req_id ids =>
      if fresh_ids self requirement ids
      then Some (fst (process_requirement self requirement priority req_id ids))
      else None
  | Start task_id =>
      match take_coroutine task_id Created (loop self) with
      | Some (c, rest) =>
          match PyDict.get task_id (tasks self), PyDict.get (co_agent c) (agents self) with
          | Some task, Some agent =>
              let self := with_loop self (rest ++ [mkCoroutine task_id (co_agent c) Awaiting]) in
              Some (_execute_task_begin self task agent)
          | _, _ => None
          end
      | None => None
      end
  | Resume task_id r signal_id =>
      match take_coroutine task_id Awaiting (loop self) with
      | Some (c, rest) =>
          match PyDict.get task_id (tasks self), PyDict.get (co_agent c) (agents self) with
          | Some task, Some agent =>
              let self := with_loop self rest in
              Some (_execute_task_resume self task agent r signal_id)
          | _, _ => None
          end
      | None => None
      end
  | Decide signal_id decision =>
      Some (fst (make_decision self signal_id decision))
  end.

Fixpoint run (self : OrchestratorCore) (events : list event)
  : option OrchestratorCore :=
  match events with
  | [] => Some self
  | e :: rest =>
      match step self e with
      | Some self' => run self' rest
      | None => None
      end
  end.

(** The states an engine can be in. *)
Definition reachable (self : OrchestratorCore) : Prop :=
  exists path pid events, run (init path pid) events = Some self.

(** [_execute_task] when nothing else runs in between. *)
Definition _execute_task (self : OrchestratorCore) (task : Task) (agent : Agent)
           (r : bridge_result) (signal_id : string) : OrchestratorCore :=
  let self := _execute_task_begin self task agent in
  _execute_task_resume self (set_status IN_PROGRESS task) agent r signal_id.

(* ------------------------------------------------------------------ *)
(** ** The status aggregator as the specification words it

    The formulas in exact arithmetic first, then in binary64. *)

Definition spec_progress (completed total : nat) : Q :=
  if (total =? 0)%nat then 0%Q
  else (of_nat completed / of_nat total * 100)%Q.

Definition clamp (lo hi x : Q) : Q := Qmax lo (Qmin hi x).

Definition spec_health (blocked total : nat) : Q :=
  clamp 0 100 (85 - 20 * (of_nat blocked / of_nat (Nat.max total 1)))%Q.

Definition spec_progress_binary64 (completed total : nat) : Q :=
  if (total =? 0)%nat then 0%Q
  else Binary64.mul (Binary64.truediv completed total) 100.

Definition spec_health_binary64 (blocked total : nat) : Q :=
  clamp 0 100
    (Binary64.sub 85
       (Binary64.mul 20 (Binary64.truediv blocked (Nat.max total 1)))).

(* ------------------------------------------------------------------ *)
(** ** Execution context built by the API server

    [process_requirement_tasks] of [api_server.py], from [if
    task.assigned_to:] to the bridge call. [None] stands for the
    [TypeError] of ["implementer" in None]. *)

Definition assigned_contains (word : string) (t : Task) : option bool :=
  match t_assigned_to t with
  | Some agent_id => Some (PyStr.contains word agent_id)
  | None => None
  end.

(** [[t for t in requirement_tasks if "implementer" in t.assigned_to]]. *)
Fixpoint implementer_tasks (requirement_tasks : list Task) : option (list Task) :=
  match requirement_tasks with
  | [] => Some []
  | t :: r =>
      match assigned_contains "implementer" t with
      | None => None
      | Some b =>
          match implementer_tasks r with
          | None => None
          | Some l => Some (if b then t :: l else l)
          end
      end
  end.

Definition build_context (requirement_id : string) (task : Task)
           (requirement_tasks : list Task) (task_results : list (string * pydict))
  : option pydict :=
  let context := [("requirement_id", PStr requirement_id);
                  ("priority", PInt (t_priority task))] in
  match assigned_contains "validator" task with
  | None => None
  | Some false => Some context
  | Some true =>
      match implementer_tasks requirement_tasks with
      | None => None
      | Some [] => Some context
      | Some (impl_task :: _) =>
          match PyDict.get (t_id impl_task) task_results with
          | Some result =>
              Some (PyDict.set "implementer_result" (PDict result) context)
          | None => Some context
          end
      end
  end.

(** The request dict the API server hands to the bridge. *)
Definition api_request (task : Task) (context : pydict) : pydict :=
  [("id", PStr (t_id task));
   ("description", PStr (t_description task));
   ("context", PDict context)].

(* ------------------------------------------------------------------ *)
(** ** Auxiliary notions of the statements *)

Definition no_task : Task := new_Task "" "" ANALYST 0 [].

(** The stages of a chain: agent type and priority, in list order. *)
Definition stages (ts : list Task) : list (AgentType * Z) :=
  map (fun t => (t_agent_type t, t_priority t)) ts.

Definition blocked_count (self : OrchestratorCore) : nat :=
  count_if (has_status BLOCKED) (PyDict.values (tasks self)).

Definition completed_count (self : OrchestratorCore) : nat :=
  count_if (has_status COMPLETED) (PyDict.values (tasks self)).

Definition total_count (self : OrchestratorCore) : nat :=
  List.length (tasks self).

(** The score before clamping, as the code computes it. *)
Definition raw_score (self : OrchestratorCore) : Q :=
  (85 - of_nat (blocked_count self) / of_nat (Nat.max (total_count self) 1) * 20)%Q.

Definition is_decision_needed (s : Signal) : bool :=
  SignalType_eqb (s_type s) DECISION_NEEDED.

Definition is_quality_issue (s : Signal) : bool :=
  SignalType_eqb (s_type s) QUALITY_ISSUE.

Definition pending_decisions (self : OrchestratorCore) : nat :=
  ps_pending_decisions (get_project_status self).

(** The signal [_create_decision_signal] builds for a completed task whose
    output is [output]. *)
Definition decision_signal (task : Task) (output : pydict) (signal_id : string)
  : Signal :=
  mkSignal signal_id DECISION_NEEDED (t_assigned_to task)
    [("task_id", PStr (t_id task));
     ("decisions", get_default "decisions_needed" (PList []) output);
     ("context", PDict output)].

(** The signals one run of [_execute_task] appends. *)
Definition resume_signals (task : Task) (agent : Agent) (r : bridge_result)
           (signal_id : string) : list Signal :=
  match task_output task agent r with
  | Some output =>
      if PyStr.contains "decisions_needed" (PyRepr.repr (PDict output))
      then [decision_signal task output signal_id] else []
  | None => []
  end.

(** The signals an event appends in a state where it can happen. *)
Definition appended_signals (self : OrchestratorCore) (e : event) : list Signal :=
  match e with
  | Submit requirement priority req_id _ =>
      [mkSignal req_id REQUIREMENT (Some "user")
         [("content", PStr requirement); ("priority", PInt priority)]]
  | Start _ => []
  | Resume task_id r signal_id =>
      match take_coroutine task_id Awaiting (loop self) with
      | Some (c, _) =>
          match PyDict.get task_id (tasks self), PyDict.get (co_agent c) (agents self) with
          | Some task, Some agent => resume_signals task agent r signal_id
          | _, _ => []
          end
      | None => []
      end
  | Decide _ _ => []
  end.

(* ------------------------------------------------------------------ *)
(** ** The scheduling invariant *)

(** The status a task has while its coroutine is in phase [ph]. *)
Definition phase_status (ph : phase) : TaskStatus :=
  match ph with Created => ASSIGNED | Awaiting => IN_PROGRESS end.

(** [k] names a task of the map whose status is completed. *)
Definition completed_in (d : list (string * Task)) (k : string) : Prop :=
  exists dt, PyDict.get k d = Some dt /\ t_status dt = COMPLETED.

Definition dependencies_completed (d : list (string * Task)) (t : Task) : Prop :=
  forall dep, In dep (t_dependencies t) -> completed_in d dep.

(** What holds of the task map and the loop in every state of a run:
    tasks are stored under their own id; a task is assigned while its
    coroutine waits to be run and in progress while it awaits the bridge;
    no task has two coroutines; a task that left [pending] has all its
    dependencies in the map, completed; no task is blocked or in review. *)
Record invariant (d : list (string * Task)) (l : list Coroutine) : Prop := {
  inv_ids : forall k t, PyDict.get k d = Some t -> t_id t = k;
  inv_loop : forall c, In c l ->
             exists t, PyDict.get (co_task c) d = Some t
                       /\ t_status t = phase_status (co_phase c);
  inv_nodup : NoDup (map co_task l);
  inv_deps : forall k t, PyDict.get k d = Some t -> t_status t <> PENDING ->
             dependencies_completed d t;
  inv_status : forall k t, PyDict.get k d = Some t ->
               t_status t <> BLOCKED /\ t_status t <> REVIEW
}.

Definition Inv (self : OrchestratorCore) : Prop :=
  invariant (tasks self) (loop self).

(* ------------------------------------------------------------------ *)
(** ** Concrete engines and runs *)

(** A run used to exercise the statements: one requirement, whose
    analysis task is started and then fails over to the simulated output. *)
Definition demo_events : list event :=
  [Submit "Build a REST API for user management" 8 "r1" ["t1"; "t2"; "t3"; "t4"];
   Start "t1";
   Resume "t1" Raised "s1"].

Definition demo_state : OrchestratorCore :=
  match run (init "/project" "p1") demo_events with
  | Some self => self
  | None => init "/project" "p1"
  end.

(** The state of the demo run after its first two events: the analysis
    task is in progress. *)
Definition demo_started : OrchestratorCore :=
  match run (init "/project" "p1") (firstn 2 demo_events) with
  | Some self => self
  | None => init "/project" "p1"
  end.

(** The planning task of the demo run, assigned once the analysis is
    completed. *)
Definition demo_planning : Task :=
  match PyDict.get "t2" (tasks demo_state) with
  | Some t => t
  | None => no_task
  end.

(** The demo run continued by a failing worker call: the bridge returns
    [{success: False, error: ...}] for the analysis task. *)
Definition failed_result : pydict :=
  [("success", PBool false); ("error", PStr "agent failed")].

Definition demo_failed : OrchestratorCore :=
  match step demo_started (Resume "t1" (Returned failed_result) "s1") with
  | Some self => self
  | None => demo_started
  end.

(** An engine holding one deployment task, assigned to the integrator. *)
Definition integrator_task : Task :=
  mkTask "t9" "Deploy the service" INTEGRATOR ASSIGNED 5 [] None
         (Some "ide_integrator").

Definition integrator_agent : Agent :=
  mkAgent "ide_integrator" "IDE Integration Suite" INTEGRATOR
    ["deployment"; "monitoring"; "debugging"; "environment_setup"]
    "working" (Some "t9") ["ci_cd"; "containerization"; "observability"].

Definition integrator_state : OrchestratorCore :=
  mkCore "/project" "p1"
    (PyDict.set "ide_integrator" integrator_agent _initialize_agents)
    [("t9", integrator_task)] [] None [] [].

Definition assigned_in_roster (t : Task) : Prop :=
  forall agent_id, t_assigned_to t = Some agent_id ->
                   In agent_id (PyDict.keys _initialize_agents).

(** The tasks of one requirement when its validation task is due: the
    implementation task is completed by [codex_impl] and its result is
    recorded. *)
Definition implementer_result : pydict :=
  [("success", PBool true); ("response", PStr "print('hello')");
   ("task_id", PStr "t3"); ("agent_id", PStr "codex_impl")].

Definition validation_task : Task :=
  mkTask "t4" "Validate and test implementation for: r1" VALIDATOR ASSIGNED 6
         ["t3"] None (Some "claude2_validator").

Definition requirement_tasks_r1 : list Task :=
  [mkTask "t1" "Analyze and architect solution for: r1" ANALYST COMPLETED 10 []
          (Some [("success", PBool true)]) (Some "claude_analyst");
   mkTask "t2" "Create implementation plan for: r1" ANALYST COMPLETED 8 ["t1"]
          (Some [("success", PBool true)]) (Some "claude_analyst");
   mkTask "t3" "Generate code implementation for: r1" IMPLEMENTER COMPLETED 7 ["t2"]
          (Some implementer_result) (Some "codex_impl");
   validation_task].

Definition task_results_r1 : list (string * pydict) :=
  [("t1", [("success", PBool true)]); ("t2", [("success", PBool true)]);
   ("t3", implementer_result)].

Definition validator_agent : Agent :=
  mkAgent "claude2_validator" "Claude2 Quality Validator" VALIDATOR
    ["code_review"; "test_generation"; "security_audit"; "performance_testing"]
    "working" (Some "t4") ["quality_assurance"; "security"; "compliance"].

Definition one_pending : OrchestratorCore :=
  with_tasks (init "/project" "p1")
    [("a", new_Task "a" "Deploy" INTEGRATOR 5 []);
     ("b", new_Task "b" "Design" CREATIVE 5 [])].

Definition one_blocked : OrchestratorCore :=
  with_tasks (init "/project" "p1")
    [("a", set_status BLOCKED (new_Task "a" "Deploy" INTEGRATOR 5 []));
     ("b", new_Task "b" "Design" CREATIVE 5 [])].

(* ------------------------------------------------------------------ *)
(** ** The life cycle of a task *)

(** What one event can do to a task of the map: nothing, or one move along
    pending, assigned, in progress, completed. *)
Inductive task_moves (t : Task) : Task -> Prop :=
| task_stays : task_moves t t
| task_assigned agent_id :
    t_status t = PENDING -> task_moves t (set_assigned agent_id t)
| task_started :
    t_status t = ASSIGNED -> task_moves t (set_status IN_PROGRESS t)
| task_completed output :
    t_status t = IN_PROGRESS -> task_moves t (set_completed output t).

(** The engine with one in-progress task of each kind the decomposer
    makes, used to exercise statements on [Resume]. *)
Definition demo_resumed : OrchestratorCore :=
  match step demo_started (Resume "t1" Raised "s1") with
  | Some self => self
  | None => demo_started
  end.

(* ------------------------------------------------------------------ *)
(** ** Workers and the tasks they run *)

(** What holds of the roster in every state of a run: the agents are those
    of [_initialize_agents], changed in status and current task only; an
    agent with a coroutine in the loop is working on that coroutine's task,
    which is assigned to it and is of its type; an agent with no coroutine
    is ready, with no current task; no agent has two coroutines. *)
Record roster_invariant (self : OrchestratorCore) : Prop := {
  ri_keys : PyDict.keys (agents self) = PyDict.keys _initialize_agents;
  ri_static : forall k a, PyDict.get k (agents self) = Some a ->
              PyDict.get k _initialize_agents = Some (set_agent "ready" None a);
  ri_busy : forall c, In c (loop self) ->
            exists task agent,
              PyDict.get (co_task c) (tasks self) = Some task
              /\ PyDict.get (co_agent c) (agents self) = Some agent
              /\ a_status agent = "working"
              /\ a_current_task agent = Some (co_task c)
              /\ t_assigned_to task = Some (co_agent c)
              /\ a_type agent = t_agent_type task;
  ri_idle : forall k a, PyDict.get k (agents self) = Some a ->
            (forall c, In c (loop self) -> co_agent c <> k) ->
            a_status a = "ready" /\ a_current_task a = None;
  ri_one : NoDup (map co_agent (loop self))
}.

(** Every task that is assigned or in progress has its coroutine in the
    loop. *)
Definition active_invariant (self : OrchestratorCore) : Prop :=
  forall k t, PyDict.get k (tasks self) = Some t ->
              t_status t = ASSIGNED \/ t_status t = IN_PROGRESS ->
              exists c, In c (loop self) /\ co_task c = k.

(** The agent types the decomposer gives to tasks. *)
Definition decomposed_type (a : AgentType) : bool :=
  match a with
  | ANALYST | REASONER | IMPLEMENTER | VALIDATOR => true
  | INTEGRATOR | CREATIVE => false
  end.

(** Every task of the map is of a type the decomposer uses, and a
    completed task has a non-empty output. *)
Definition outputs_invariant (self : OrchestratorCore) : Prop :=
  forall k t, PyDict.get k (tasks self) = Some t ->
              decomposed_type (t_agent_type t) = true
              /\ (t_status t = COMPLETED -> truthy (t_output t) = true).

(** A task is active while it is assigned or in progress. *)
Definition active (t : Task) : Prop :=
  t_status t = ASSIGNED \/ t_status t = IN_PROGRESS.

(** The decisions recorded so far ([{}] before the context exists). *)
Definition decisions (self : OrchestratorCore) : list (string * Decision) :=
  match context self with
  | Some c => c_decisions c
  | None => []
  end.

(** A batch of tasks in which each depends on the one before it, the
    first on [prev]. *)
Fixpoint chained (prev : string) (ts : list Task) : Prop :=
  match ts with
  | [] => True
  | t :: r => t_dependencies t = [prev] /\ t_status t = PENDING /\ chained (t_id t) r
  end.

(** [_assign_task] has nothing to do for [t]: a dependency is not
    completed, or no agent of its type is ready. *)
Definition cannot_assign (s : OrchestratorCore) (t : Task) : Prop :=
  _dependencies_met s t = false \/ find_agent s t = None.

(** [s'] comes after [s] in a scheduling pass: the same dependencies are
    met, no agent has become ready, and a task pending in [s'] was pending,
    and the same, in [s]. *)
Definition later_in_pass (s s' : OrchestratorCore) : Prop :=
  (forall task, _dependencies_met s' task = _dependencies_met s task)
  /\ (forall task, find_agent s task = None -> find_agent s' task = None)
  /\ (forall k t, PyDict.get k (tasks s') = Some t -> t_status t = PENDING ->
                  PyDict.get k (tasks s) = Some t).

(* ------------------------------------------------------------------ *)
(** ** Saving the implementer's response *)

Module PyText.
(** The characters left when the leading whitespace is dropped. *)
Fixpoint lstrip_chars (cs : list string) : list string :=
  match cs with
  | [] => []
  | c :: rest => if Unicode.is_space c then lstrip_chars rest else cs
  end.

Definition rstrip_chars (cs : list string) : list string :=
  rev (lstrip_chars (rev cs)).

(** [s.lstrip()], [s.rstrip()] and [s.strip()]. *)
Definition lstrip (s : string) : string :=
  Unicode.join (lstrip_chars (Unicode.chars s)).
Definition rstrip (s : string) : string :=
  Unicode.join (rstrip_chars (Unicode.chars s)).
Definition strip (s : string) : string :=
  Unicode.join (rstrip_chars (lstrip_chars (Unicode.chars s))).
End PyText.

(** The test of [_save_implementation_to_workspace] for HTML content. *)
Definition is_html (response : string) : bool :=
  PyStr.startswith "<!DOCTYPE html" (PyText.strip response)
  || PyStr.contains "<html" response.

Definition html_filenames : list string :=
  ["hello_fred.html"; "hello_world.html"; "webpage.html"; "index.html"].

Definition python_filenames : list string :=
  ["hello_fred.py"; "hello_world.py"; "calculator.py"; "server.py"; "app.py"].

(** The file name chosen from the task description and the content. *)
Definition implementation_filename (description response : string) : string :=
  let task_desc := PyStr.lower description in
  if is_html response then
    if PyStr.contains "hello fred" task_desc then "hello_fred.html"
    else if PyStr.contains "hello world" task_desc then "hello_world.html"
    else if PyStr.contains "webpage" task_desc then "webpage.html"
    else "index.html"
  else
    if PyStr.contains "hello fred" task_desc then "hello_fred.py"
    else if PyStr.contains "hello world" task_desc then "hello_world.py"
    else if PyStr.contains "calculator" task_desc then "calculator.py"
    else if PyStr.contains "api" task_desc || PyStr.contains "server" task_desc
         then "server.py"
    else "app.py".

(** [_save_implementation_to_workspace]: the file it opens for writing
    under [workspace/implementation], as name and content. The content is
    the response; when the response has a lone surrogate, which UTF-8
    cannot encode, [f.write] raises, the exception is caught and the file
    stays empty. [None] when it returns early (no response) or when the
    attempt raises before the file is opened: [task.output] is [None], or
    the response is not a string, which has no [strip]. *)
Definition _save_implementation_to_workspace (task : Task)
  : option (string * string) :=
  match t_output task with
  | None => None
  | Some output =>
      match get_default "response" (PStr "") output with
      | PStr response =>
          if String.eqb response "" then None
          else Some (implementation_filename (t_description task) response,
                     if Unicode.encodable response then response else "")
      | _ => None
      end
  end.

(** The call of [_execute_task]: only for an implementer whose output is
    non-empty and has a true ["success"]. *)
Definition saved_implementation (task : Task) (agent : Agent) (r : bridge_result)
  : option (string * string) :=
  let output := task_output task agent r in
  if AgentType_eqb (a_type agent) IMPLEMENTER
     && truthy output
     && py_bool (match output with
                 | Some d => get_default "success" PNone d
                 | None => PNone
                 end)
  then _save_implementation_to_workspace
         (mkTask (t_id task) (t_description task) (t_agent_type task) (t_status task)
                 (t_priority task) (t_dependencies task) output (t_assigned_to task))
  else None.

(* ------------------------------------------------------------------ *)
(** ** The agent bridge *)

(** [AgentConnector.execute(prompt, context)]: what a connector does is
    outside the engine; it raises or returns a result dict. *)
Definition connector := pyval -> pyval -> bridge_result.

(** [AgentBridge._initialize_connectors], in insertion order. *)
Definition _initialize_connectors
           (claude codex claude2 deepseek vscode cursor : connector)
  : list (string * connector) :=
  [("claude_analyst", claude); ("codex_impl", codex);
   ("claude2_validator", claude2); ("deepseek_reasoner", deepseek);
   ("vscode_ide", vscode); ("cursor_ide", cursor)].

Definition unknown_agent (agent_id : string) : pydict :=
  [("success", PBool false); ("error", PStr ("Unknown agent: " ++ agent_id))].

(** [AgentBridge.execute_task]. *)
Definition execute_task (bridge_agents : list (string * connector))
           (agent_id : string) (task : pydict) : bridge_result :=
  match PyDict.get agent_id bridge_agents with
  | None => Returned (unknown_agent agent_id)
  | Some agent =>
      match agent (get_default "description" (PStr "") task)
                  (get_default "context" (PDict []) task) with
      | Raised => Raised
      | Returned result =>
          let result := PyDict.set "task_id" (get_default "id" PNone task) result in
          let result := PyDict.set "agent_id" (PStr agent_id) result in
          Returned result
      end
  end.

(** The bridge call of [_execute_task]. *)
Definition engine_bridge_call (bridge_agents : list (string * connector))
           (task : Task) (agent : Agent) : bridge_result :=
  execute_task bridge_agents (a_id agent) (bridge_request task agent).

(** The simulated output of an analysis that is not about a hello world
    page or a webpage. *)
Definition generic_analysis : pydict :=
  [("architecture", PStr "microservices");
   ("components", PList [PStr "api"; PStr "database"; PStr "cache"; PStr "queue"]);
   ("decisions_needed", PList [PStr "database_choice"; PStr "deployment_platform"])].

Definition simple_page (description : string) : bool :=
  PyStr.contains "hello world" (PyStr.lower description)
  || PyStr.contains "webpage" (PyStr.lower description).

(* ------------------------------------------------------------------ *)
(** ** Operations of the API server on the engine *)

(** [TaskStatus.value]. *)
Definition TaskStatus_value (st : TaskStatus) : string :=
  match st with
  | PENDING => "pending" | ASSIGNED => "assigned" | IN_PROGRESS => "in_progress"
  | REVIEW => "review" | COMPLETED => "completed" | BLOCKED => "blocked"
  end.

Record TaskResponse := mkTaskResponse {
  tr_id : string;
  tr_description : string;
  tr_status : string;
  tr_assigned_to : option string;
  tr_progress : Z;
  tr_output : option pydict
}.

(** The progress figure [get_tasks] shows for a task. *)
Definition task_progress (st : TaskStatus) : Z :=
  match st with
  | COMPLETED => 100
  | IN_PROGRESS => 50
  | ASSIGNED => 10
  | _ => 0
  end.

Definition task_response (task : Task) : TaskResponse :=
  mkTaskResponse (t_id task) (t_description task)
                 (TaskStatus_value (t_status task)) (t_assigned_to task)
                 (task_progress (t_status task)) (t_output task).

(** The test [if status and task.status.value != status: continue]. *)
Definition skipped (status : option string) (task : Task) : bool :=
  match status with
  | Some s => negb (String.eqb s "")
              && negb (String.eqb (TaskStatus_value (t_status task)) s)
  | None => false
  end.

(** [get_tasks(status)] of [api_server.py]. *)
Definition get_tasks (self : OrchestratorCore) (status : option string)
  : list TaskResponse :=
  map task_response
      (filter (fun task => negb (skipped status task)) (PyDict.values (tasks self))).

(** [reset_project] of [api_server.py], on the engine. [archived] tells
    whether moving the workspace to the archive went through; when it
    raises, the handler returns before the context and the project id are
    reset. [new_id] is the [uuid4] drawn. Coroutines in flight are not
    touched. *)
Definition reset_project (self : OrchestratorCore) (archived : bool)
           (new_id : string) : OrchestratorCore :=
  let self := with_tasks self [] in
  let self := with_signals self [] in
  let self := with_agents self
                (map (fun '(agent_id, agent) =>
                        (agent_id, set_agent "ready" None agent))
                     (agents self)) in
  let self := with_execution_log self [] in
  if archived then
    mkCore (project_path self) new_id (agents self) (tasks self) (signals self)
           None (execution_log self) (loop self)
  else self.

(** The selection [[task for task in orchestrator.tasks.values() if
    requirement_id in task.description]] of [process_requirement_tasks]. *)
Definition requirement_tasks (requirement_id : string) (tasks : list Task)
  : list Task :=
  filter (fun task => PyStr.contains requirement_id (t_description task)) tasks.

(** The guard of its loop: [any(t.status != TaskStatus.COMPLETED for t in
    requirement_tasks)]. *)
Definition work_left (requirement_tasks : list Task) : bool :=
  existsb (fun t => negb (TaskStatus_eqb (t_status t) COMPLETED)) requirement_tasks.

(** [c in s] for one character. *)
Fixpoint has_char (c : ascii) (s : string) : bool :=
  match s with
  | EmptyString => false
  | String x r => Ascii.eqb x c || has_char c r
  end.

(** [s.endswith(c)] for one character. *)
Fixpoint ends_with (c : ascii) (s : string) : bool :=
  match s with
  | EmptyString => false
  | String x EmptyString => Ascii.eqb x c
  | String _ r => ends_with c r
  end.

(** The fixed texts the decomposer puts before the requirement. *)
Definition description_prefixes : list string :=
  ["Analyze and architect solution for: ";
   "Perform deep technical analysis and optimization for: ";
   "Create implementation plan for: ";
   "Generate code implementation for: ";
   "Validate and test implementation for: ";
   "Optimize and refine implementation based on analysis: "].

(** [t.status in (ASSIGNED, IN_PROGRESS)]. *)
Definition is_active (t : Task) : bool :=
  has_status ASSIGNED t || has_status IN_PROGRESS t.

(** No pending task of the map could be assigned right now. *)
Definition saturated (s : OrchestratorCore) : Prop :=
  forall k t, PyDict.get k (tasks s) = Some t -> t_status t = PENDING ->
              cannot_assign s t.

(** From [s] to [s'] the same dependencies are met and no agent has become
    ready. *)
Definition no_new_chance (s s' : OrchestratorCore) : Prop :=
  (forall task, _dependencies_met s' task = _dependencies_met s task)
  /\ (forall task, find_agent s task = None -> find_agent s' task = None).

(* ------------------------------------------------------------------ *)
(** * Properties *)

(** ** Decomposer *)

Example decompose_hello :
  map (fun t => (t_id t, t_priority t, t_dependencies t))
      (_decompose_requirement ["a"; "b"; "c"; "d"] "Build a simple hello world page")
  = [("a", 10%Z, []); ("b", 8%Z, ["a"]); ("c", 7%Z, ["b"]); ("d", 6%Z, ["c"])].
Proof. reflexivity. Qed.

Example decompose_optimize :
  map (fun t => (t_id t, t_priority t, t_dependencies t))
      (_decompose_requirement ["a"; "b"; "c"; "d"; "e"; "f"]
         "Optimize the algorithm for scalable performance")
  = [("a", 10%Z, []); ("b", 9%Z, ["a"]); ("c", 8%Z, ["b"]); ("d", 7%Z, ["c"]);
     ("e", 6%Z, ["d"]); ("f", 5%Z, ["e"])].
Proof. reflexivity. Qed.

(** The Kelvin sign is lowered to the letter k, and the capital I with a
    dot above to an i followed by a combining dot. *)
Example decompose_kelvin_sign :
  needs_deep_reasoning ("Remove the bottlenec" ++ Unicode.chr 0x212A) = true
  /\ List.length (_decompose_requirement ["a"; "b"; "c"; "d"; "e"; "f"]
                    ("Remove the bottlenec" ++ Unicode.chr 0x212A)) = 6%nat
  /\ needs_deep_reasoning ("OPT" ++ Unicode.chr 0x0130 ++ "MIZE") = false.
Proof. repeat split; vm_compute; reflexivity. Qed.

Lemma decompose_length ids requirement :
  List.length (_decompose_requirement ids requirement)
  = if needs_deep_reasoning requirement then 6%nat else 4%nat.
Proof.
  unfold _decompose_requirement.
  destruct (needs_deep_reasoning requirement); reflexivity.
Qed.

Lemma eqb_of_neq (a b : string) : a <> b -> String.eqb a b = false.
Proof. intro H. now apply String.eqb_neq. Qed.

(** The task list of the decomposer, written out. *)
Lemma decompose_eq (ids : list string) (requirement : string) :
  _decompose_requirement ids requirement
  = let uuid4 i := nth i ids "" in
    if needs_deep_reasoning requirement then
      [new_Task (uuid4 0%nat)
         ("Analyze and architect solution for: " ++ requirement) ANALYST 10 [];
       new_Task (uuid4 1%nat)
         ("Perform deep technical analysis and optimization for: " ++ requirement)
         REASONER 9 [uuid4 0%nat];
       new_Task (uuid4 2%nat)
         ("Create implementation plan for: " ++ requirement) ANALYST 8 [uuid4 1%nat];
       new_Task (uuid4 3%nat)
         ("Generate code implementation for: " ++ requirement)
         IMPLEMENTER 7 [uuid4 2%nat];
       new_Task (uuid4 4%nat)
         ("Validate and test implementation for: " ++ requirement)
         VALIDATOR 6 [uuid4 3%nat];
       new_Task (uuid4 5%nat)
         ("Optimize and refine implementation based on analysis: " ++ requirement)
         REASONER 5 [uuid4 4%nat]]
    else
      [new_Task (uuid4 0%nat)
         ("Analyze and architect solution for: " ++ requirement) ANALYST 10 [];
       new_Task (uuid4 1%nat)
         ("Create implementation plan for: " ++ requirement) ANALYST 8 [uuid4 0%nat];
       new_Task (uuid4 2%nat)
         ("Generate code implementation for: " ++ requirement)
         IMPLEMENTER 7 [uuid4 1%nat];
       new_Task (uuid4 3%nat)
         ("Validate and test implementation for: " ++ requirement)
         VALIDATOR 6 [uuid4 2%nat]].
Proof.
  unfold _decompose_requirement.
  destruct (needs_deep_reasoning requirement); reflexivity.
Qed.

Ltac distinct_ids H :=
  repeat match type of H with
         | NoDup (_ :: _) =>
             let H1 := fresh "Hnotin" in
             let H2 := fresh "Hnodup" in
             inversion H as [| ? ? H1 H2]; subst; clear H;
             simpl in H1; rename H2 into H
         end.

Ltac hide_descriptions requirement :=
  repeat match goal with
         | |- context [?prefix ++ requirement] =>
             generalize (prefix ++ requirement); intro
         end.

(** C3. For every requirement, with the identifiers drawn pairwise
    distinct, the decomposer returns 4 or 6 tasks, 6 exactly when the
    requirement in lower case, as [str.lower] makes it, contains one of the
    fixed keywords. The stages are analysis (10), planning (8),
    implementation (7), validation (6), with deep reasoning (9) after the
    analysis and an optimization (5) after the validation exactly in the
    6-task case. The first task has no dependency, every later task depends
    on exactly the task just before it, and no task has more than one
    dependent. *)
Theorem decompose_is_linear_chain (ids : list string) (requirement : string) :
  NoDup ids ->
  (List.length (_decompose_requirement ids requirement) <= List.length ids)%nat ->
  let ts := _decompose_requirement ids requirement in
  (List.length ts = 4%nat \/ List.length ts = 6%nat)
  /\ (List.length ts = 6%nat <->
      exists keyword, In keyword deep_reasoning_keywords
                      /\ PyStr.contains keyword (PyStr.lower requirement) = true)
  /\ stages ts =
       (if Nat.eqb (List.length ts) 6
        then [(ANALYST, 10%Z); (REASONER, 9%Z); (ANALYST, 8%Z);
              (IMPLEMENTER, 7%Z); (VALIDATOR, 6%Z); (REASONER, 5%Z)]
        else [(ANALYST, 10%Z); (ANALYST, 8%Z); (IMPLEMENTER, 7%Z);
              (VALIDATOR, 6%Z)])
  /\ map t_id ts = firstn (List.length ts) ids
  /\ map t_status ts = repeat PENDING (List.length ts)
  /\ t_dependencies (hd no_task ts) = []
  /\ (forall i, (S i < List.length ts)%nat ->
        t_dependencies (nth (S i) ts no_task) = [t_id (nth i ts no_task)])
  /\ (forall t, In t ts -> (List.length (dependents (t_id t) ts) <= 1)%nat).
Proof.
  intros Hnd Hlen ts.
  assert (Hkw : needs_deep_reasoning requirement = true <->
                exists keyword, In keyword deep_reasoning_keywords
                  /\ PyStr.contains keyword (PyStr.lower requirement) = true).
  { unfold needs_deep_reasoning, PyStr.any_in. apply existsb_exists. }
  rewrite decompose_length in Hlen.
  subst ts. rewrite decompose_eq. cbv zeta. unfold new_Task.
  destruct (needs_deep_reasoning requirement) eqn:Hneeds.
  - hide_descriptions requirement.
    destruct ids as [|a [|b [|c [|d [|e [|f ids]]]]]]; simpl in Hlen; try lia.
    distinct_ids Hnd.
    repeat split; simpl; auto.
    + intros _. apply Hkw. reflexivity.
    + intros i Hi.
      do 5 (destruct i as [|i]; [reflexivity|]). simpl in Hi; lia.
    + intros t Ht. unfold dependents. simpl in Ht.
      repeat (destruct Ht as [Ht | Ht]; [subst t; simpl|]); try contradiction;
        repeat (rewrite String.eqb_refl; simpl);
        repeat (rewrite eqb_of_neq by (intro; subst; tauto); simpl); lia.
  - hide_descriptions requirement.
    destruct ids as [|a [|b [|c [|d ids]]]]; simpl in Hlen; try lia.
    distinct_ids Hnd.
    repeat split; simpl; auto.
    + intros H; discriminate H.
    + intros H. apply Hkw in H. discriminate H.
    + intros i Hi.
      do 3 (destruct i as [|i]; [reflexivity|]). simpl in Hi; lia.
    + intros t Ht. unfold dependents. simpl in Ht.
      repeat (destruct Ht as [Ht | Ht]; [subst t; simpl|]); try contradiction;
        repeat (rewrite String.eqb_refl; simpl);
        repeat (rewrite eqb_of_neq by (intro; subst; tauto); simpl); lia.
Qed.

Lemma nodupb_NoDup (l : list string) : nodupb l = true -> NoDup l.
Proof.
  induction l as [|x r IH]; simpl; intro H.
  - constructor.
  - apply andb_true_iff in H as [Hx Hr]. constructor; auto.
    intro Hin. apply negb_true_iff in Hx.
    assert (existsb (String.eqb x) r = true) as E
      by (apply existsb_exists; exists x; split; [assumption | apply String.eqb_refl]).
    congruence.
Qed.

Lemma decompose_is_linear_chain_witness :
  let ids := ["a"; "b"; "c"; "d"; "e"; "f"] in
  let requirement := "Optimize the algorithm for scalable performance" in
  NoDup ids
  /\ (List.length (_decompose_requirement ids requirement) <= List.length ids)%nat
  /\ (List.length (_decompose_requirement ids requirement) = 4%nat
      \/ List.length (_decompose_requirement ids requirement) = 6%nat).
Proof.
  intros ids requirement.
  assert (H1 : NoDup ids) by (apply nodupb_NoDup; reflexivity).
  assert (H2 : (List.length (_decompose_requirement ids requirement)
                <= List.length ids)%nat) by (vm_compute; lia).
  split; [exact H1 | split; [exact H2 |]].
  exact (proj1 (decompose_is_linear_chain ids requirement H1 H2)).
Defined.

(* ------------------------------------------------------------------ *)
(** ** Status aggregator *)

Section Aggregator.
Local Open Scope Q_scope.

Lemma count_if_le {A} (p : A -> bool) (xs : list A) :
  (count_if p xs <= List.length xs)%nat.
Proof. unfold count_if. apply filter_length_le. Qed.

Lemma count_values_le (p : Task -> bool) (d : list (string * Task)) :
  (count_if p (PyDict.values d) <= List.length d)%nat.
Proof.
  unfold PyDict.values.
  rewrite <- (length_map snd d). apply count_if_le.
Qed.

Lemma of_nat_le (a b : nat) : (a <= b)%nat -> of_nat a <= of_nat b.
Proof. intro H. unfold of_nat. rewrite <- Zle_Qle. lia. Qed.

Lemma of_nat_pos (a : nat) : (0 < a)%nat -> 0 < of_nat a.
Proof.
  intro H. unfold of_nat. change 0 with (inject_Z 0). rewrite <- Zlt_Qlt. lia.
Qed.

Lemma of_nat_nonneg (a : nat) : 0 <= of_nat a.
Proof.
  unfold of_nat. change 0 with (inject_Z 0). rewrite <- Zle_Qle. lia.
Qed.

(** The blocked ratio of any [b] tasks out of [n], [b <= n]. *)
Lemma ratio_bounds (b n : nat) :
  (b <= n)%nat ->
  0 <= of_nat b / of_nat (Nat.max n 1) /\ of_nat b / of_nat (Nat.max n 1) <= 1.
Proof.
  intro H.
  assert (Hpos : 0 < of_nat (Nat.max n 1)) by (apply of_nat_pos; lia).
  split.
  - apply Qle_shift_div_l; [assumption|].
    rewrite Qmult_0_l. apply of_nat_nonneg.
  - apply Qle_shift_div_r; [assumption|].
    rewrite Qmult_1_l. apply of_nat_le. lia.
Qed.


Lemma py_clamp_id (x : Q) : 0 < x -> x < 100 -> py_max 0 (py_min 100 x) = x.
Proof.
  intros H0 H100. unfold py_max, py_min.
  destruct (Qlt_le_dec x 100) as [_|Hc]; [|lra].
  destruct (Qlt_le_dec 0 x) as [_|Hc]; [reflexivity | lra].
Qed.

Lemma clamp_id (x : Q) : 0 <= x -> x <= 100 -> clamp 0 100 x == x.
Proof.
  intros H0 H100. unfold clamp.
  rewrite (Q.min_r 100 x) by assumption.
  apply Q.max_r. assumption.
Qed.

Lemma raw_score_bounds (self : OrchestratorCore) :
  65 <= raw_score self /\ raw_score self <= 85.
Proof.
  unfold raw_score.
  destruct (ratio_bounds (blocked_count self) (total_count self)) as [Hlo Hhi].
  { apply count_values_le. }
  split; lra.
Qed.

Lemma health_score_raw (self : OrchestratorCore) :
  _calculate_health_score self = raw_score self.
Proof.
  destruct (raw_score_bounds self) as [Hlo Hhi].
  unfold _calculate_health_score.
  change (85 - _ * 20) with (raw_score self).
  apply py_clamp_id; lra.
Qed.

(** *** Rounding to binary64 *)

Lemma pow2_pos (e : Z) : 0 < Binary64.pow2 e.
Proof. apply Qpower_0_lt. reflexivity. Qed.

Lemma pow2_le (a b : Z) : (a <= b)%Z -> Binary64.pow2 a <= Binary64.pow2 b.
Proof. intro H. apply Qpower_le_compat_l; [assumption | discriminate]. Qed.

Lemma pow2_lt (a b : Z) : (a < b)%Z -> Binary64.pow2 a < Binary64.pow2 b.
Proof. intro H. apply Qpower_lt_compat_l; [assumption | reflexivity]. Qed.

Lemma pow2_succ (e : Z) : Binary64.pow2 (e + 1) == 2 * Binary64.pow2 e.
Proof.
  unfold Binary64.pow2. rewrite Qpower_plus by discriminate. rewrite Qpower_1_r. ring.
Qed.

Lemma pow2_Z (n : Z) : (0 <= n)%Z -> Binary64.pow2 n == inject_Z (2 ^ n).
Proof. intro H. unfold Binary64.pow2. now rewrite Zpower_Qpower. Qed.

(** Rounding to the nearest integer moves a number by a half at most. *)
Lemma round_half_even_error (x : Q) :
  x - (1 # 2) <= inject_Z (Binary64.round_half_even x) <= x + (1 # 2).
Proof.
  unfold Binary64.round_half_even.
  pose proof (Qfloor_le x) as Hlo. pose proof (Qlt_floor x) as Hhi.
  rewrite inject_Z_plus in Hhi. change (inject_Z 1) with 1 in Hhi.
  destruct (Qcompare (x - inject_Z (Qfloor x)) (1 # 2)) eqn:E.
  - apply Qeq_alt in E.
    destruct (Z.even (Qfloor x)); [|rewrite inject_Z_plus; change (inject_Z 1) with 1];
      split; lra.
  - apply Qlt_alt in E. split; lra.
  - apply Qgt_alt in E. rewrite inject_Z_plus. change (inject_Z 1) with 1.
    split; lra.
Qed.

Lemma round_half_even_nonneg (x : Q) : 0 <= x -> (0 <= Binary64.round_half_even x)%Z.
Proof.
  intro H.
  assert (H0 : (0 <= Qfloor x)%Z).
  { change 0%Z with (Qfloor 0). now apply Qfloor_resp_le. }
  unfold Binary64.round_half_even.
  destruct (Qcompare _ _); [destruct (Z.even _)| |]; lia.
Qed.

(** [Binary64.mag x] is the exponent of the binade of [x]. *)
Lemma mag_spec (x : Q) : 0 < x -> Binary64.pow2 (Binary64.mag x - 1) <= x /\ x < Binary64.pow2 (Binary64.mag x).
Proof.
  intro Hx. destruct x as [n d]. unfold Binary64.mag. cbn [Qnum Qden].
  assert (Hn : (0 < n)%Z) by (unfold Qlt in Hx; cbn in Hx; lia).
  set (a := Z.log2 n). set (b := Z.log2 (Z.pos d)).
  assert (Ha : (2 ^ a <= n < 2 ^ (a + 1))%Z).
  { pose proof (Z.log2_spec n Hn) as H. unfold a. now rewrite <- Z.add_1_r in H. }
  assert (Hb : (2 ^ b <= Z.pos d < 2 ^ (b + 1))%Z).
  { pose proof (Z.log2_spec (Z.pos d) eq_refl) as H. unfold b.
    now rewrite <- Z.add_1_r in H. }
  assert (Ha0 : (0 <= a)%Z) by apply Z.log2_nonneg.
  assert (Hb0 : (0 <= b)%Z) by apply Z.log2_nonneg.
  assert (Hx' : n # d == inject_Z n / inject_Z (Z.pos d)) by apply Qmake_Qdiv.
  assert (Hd : 0 < inject_Z (Z.pos d)) by reflexivity.
  (* 2^(a-b-1) < x < 2^(a-b+1) *)
  assert (Hlow : Binary64.pow2 (a - b - 1) < n # d).
  { rewrite Hx'. apply Qlt_shift_div_l; [assumption|].
    replace (a - b - 1)%Z with (a - (b + 1))%Z by lia.
    unfold Binary64.pow2. rewrite Qpower_minus by discriminate.
    fold (Binary64.pow2 a). fold (Binary64.pow2 (b + 1)).
    rewrite (pow2_Z a), (pow2_Z (b + 1)) by lia.
    assert (H1 : inject_Z (2 ^ a) <= inject_Z n) by (rewrite <- Zle_Qle; lia).
    assert (H2 : inject_Z (Z.pos d) < inject_Z (2 ^ (b + 1)))
      by (rewrite <- Zlt_Qlt; lia).
    assert (H3 : 0 < inject_Z (2 ^ a)).
    { change 0 with (inject_Z 0). rewrite <- Zlt_Qlt. apply Z.pow_pos_nonneg; lia. }
    assert (H4 : 0 < inject_Z (2 ^ (b + 1))) by lra.
    assert (Hq : 0 < inject_Z (2 ^ a) / inject_Z (2 ^ (b + 1))).
    { apply Qlt_shift_div_l; [assumption|]. now rewrite Qmult_0_l. }
    apply Qlt_le_trans
      with (inject_Z (2 ^ a) / inject_Z (2 ^ (b + 1)) * inject_Z (2 ^ (b + 1))).
    - apply Qmult_lt_l; assumption.
    - setoid_replace (inject_Z (2 ^ a) / inject_Z (2 ^ (b + 1)) * inject_Z (2 ^ (b + 1)))
        with (inject_Z (2 ^ a)) by (field; lra).
      assumption. }
  assert (Hhigh : n # d < Binary64.pow2 (a - b + 1)).
  { rewrite Hx'. apply Qlt_shift_div_r; [assumption|].
    replace (a - b + 1)%Z with (a + 1 - b)%Z by lia.
    unfold Binary64.pow2. rewrite Qpower_minus by discriminate.
    fold (Binary64.pow2 (a + 1)). fold (Binary64.pow2 b).
    rewrite (pow2_Z (a + 1)), (pow2_Z b) by lia.
    assert (H1 : inject_Z n < inject_Z (2 ^ (a + 1))) by (rewrite <- Zlt_Qlt; lia).
    assert (H2 : inject_Z (2 ^ b) <= inject_Z (Z.pos d))
      by (rewrite <- Zle_Qle; lia).
    assert (H3 : 0 < inject_Z (2 ^ b)).
    { change 0 with (inject_Z 0). rewrite <- Zlt_Qlt. apply Z.pow_pos_nonneg; lia. }
    assert (H4 : 0 < inject_Z (2 ^ (a + 1))).
    { change 0 with (inject_Z 0). rewrite <- Zlt_Qlt. apply Z.pow_pos_nonneg; lia. }
    assert (Hq : 0 < inject_Z (2 ^ (a + 1)) / inject_Z (2 ^ b)).
    { apply Qlt_shift_div_l; [assumption|]. now rewrite Qmult_0_l. }
    apply Qlt_le_trans with (inject_Z (2 ^ (a + 1))); [assumption|].
    setoid_replace (inject_Z (2 ^ (a + 1)))
      with (inject_Z (2 ^ (a + 1)) / inject_Z (2 ^ b) * inject_Z (2 ^ b)) at 1
      by (field; lra).
    apply Qmult_le_l; assumption. }
  destruct (Qle_bool (Binary64.pow2 (a - b)) (n # d)) eqn:E.
  - apply Qle_bool_iff in E. split.
    + now replace (a - b + 1 - 1)%Z with (a - b)%Z by lia.
    + assumption.
  - split.
    + apply Qlt_le_weak. assumption.
    + apply Qnot_le_lt. intro H. apply Qle_bool_iff in H. congruence.
Qed.

Lemma round_pos_error (x : Q) :
  0 < x ->
  x - Binary64.pow2 (Binary64.fexp (Binary64.mag x)) / 2 <= Binary64.round_pos x <= x + Binary64.pow2 (Binary64.fexp (Binary64.mag x)) / 2.
Proof.
  intro Hx. unfold Binary64.round_pos.
  set (u := Binary64.pow2 (Binary64.fexp (Binary64.mag x))).
  assert (Hu : 0 < u) by apply pow2_pos.
  destruct (round_half_even_error (x / u)) as [Hlo Hhi].
  set (i := inject_Z (Binary64.round_half_even (x / u))) in *.
  assert (E : x == x / u * u) by (field; lra).
  split.
  - setoid_replace (x - u / 2) with ((x / u - (1 # 2)) * u) by (field; lra).
    apply Qmult_le_compat_r; lra.
  - setoid_replace (x + u / 2) with ((x / u + (1 # 2)) * u) by (field; lra).
    apply Qmult_le_compat_r; lra.
Qed.

Lemma round_pos_nonneg (x : Q) : 0 < x -> 0 <= Binary64.round_pos x.
Proof.
  intro Hx. unfold Binary64.round_pos.
  pose proof (pow2_pos (Binary64.fexp (Binary64.mag x))) as Hu.
  apply Qmult_le_0_compat; [|lra].
  change 0 with (inject_Z 0). rewrite <- Zle_Qle.
  apply round_half_even_nonneg.
  apply Qle_shift_div_l; [assumption|]. rewrite Qmult_0_l. lra.
Qed.

Lemma mag_below (x : Q) (k : Z) : 0 < x -> x < Binary64.pow2 k -> (Binary64.mag x <= k)%Z.
Proof.
  intros Hx Hk. destruct (mag_spec x Hx) as [Hlo _].
  assert (H : Binary64.pow2 (Binary64.mag x - 1) < Binary64.pow2 k) by lra.
  apply Qpower_lt_compat_l_inv in H; [lia | reflexivity].
Qed.

(** Equal rationals Binary64.round to the same number. *)
Lemma round_proper (x y : Q) : x == y -> Binary64.round x = Binary64.round y.
Proof. intro E. unfold Binary64.round. now rewrite (Qred_complete x y E). Qed.

(** The rounding error below [2 ^ k]: half a unit in the last place of
    that binade. *)
Lemma round_error (x : Q) (k : Z) :
  (-1021 <= k)%Z -> 0 <= x -> x < Binary64.pow2 k ->
  0 <= Binary64.round x /\ x - Binary64.pow2 (k - 54) <= Binary64.round x <= x + Binary64.pow2 (k - 54).
Proof.
  intros Hk H0 Hx.
  pose proof (pow2_pos (k - 54)) as Hp.
  unfold Binary64.round. pose proof (Qred_correct x) as E.
  destruct (Qred x) as [n d] eqn:R. cbn [Qnum].
  destruct n as [|n|n].
  - assert (x == 0) by (rewrite <- E; reflexivity). split; lra.
  - assert (Hpos : 0 < Z.pos n # d) by reflexivity.
    pose proof (round_pos_error _ Hpos) as [Hlo Hhi].
    pose proof (round_pos_nonneg _ Hpos) as Hnn.
    assert (Hm : (Binary64.mag (Z.pos n # d) <= k)%Z) by (apply mag_below; lra).
    assert (Hu : Binary64.pow2 (Binary64.fexp (Binary64.mag (Z.pos n # d))) / 2 <= Binary64.pow2 (k - 54)).
    { apply Qle_shift_div_r; [reflexivity|].
      setoid_replace (Binary64.pow2 (k - 54) * 2) with (Binary64.pow2 (k - 53)).
      - apply pow2_le. unfold Binary64.fexp. lia.
      - replace (k - 53)%Z with (k - 54 + 1)%Z by lia. rewrite pow2_succ. ring. }
    split; [assumption|]. split; lra.
  - exfalso. assert (Hneg : Z.neg n # d < 0) by reflexivity. lra.
Qed.

Lemma py_clamp (x : Q) : py_max 0 (py_min 100 x) == clamp 0 100 x.
Proof.
  unfold py_max, py_min, clamp.
  destruct (Qlt_le_dec x 100) as [H1|H1].
  - rewrite (Q.min_r 100 x) by lra.
    destruct (Qlt_le_dec 0 x) as [H2|H2].
    + now rewrite Q.max_r by lra.
    + now rewrite Q.max_l by lra.
  - rewrite (Q.min_l 100 x) by lra.
    destruct (Qlt_le_dec 0 100) as [H2|H2]; [|lra].
    now rewrite Q.max_r by lra.
Qed.

(** The ratio of [a] to [b] as Python divides two [int]s, [a <= b]. *)
Lemma truediv_error (a b : nat) :
  (a <= b)%nat -> (0 < b)%nat ->
  0 <= Binary64.truediv a b
  /\ of_nat a / of_nat b - Binary64.pow2 (-53) <= Binary64.truediv a b
     <= of_nat a / of_nat b + Binary64.pow2 (-53).
Proof.
  intros Hab Hb. unfold Binary64.truediv.
  assert (Hpos : 0 < of_nat b) by now apply of_nat_pos.
  assert (H0 : 0 <= of_nat a / of_nat b).
  { apply Qle_shift_div_l; [assumption|]. rewrite Qmult_0_l. apply of_nat_nonneg. }
  assert (H1 : of_nat a / of_nat b <= 1).
  { apply Qle_shift_div_r; [assumption|]. rewrite Qmult_1_l. now apply of_nat_le. }
  apply (round_error _ 1); [lia | assumption |].
  change (Binary64.pow2 1) with 2. lra.
Qed.

(** The health score in binary64, before the clamp. *)
Lemma health_score_error (blocked total : nat) :
  (blocked <= total)%nat -> (0 < total)%nat ->
  let exact := 85 - 20 * (of_nat blocked / of_nat total) in
  let score := Binary64.sub 85 (Binary64.mul (Binary64.truediv blocked total) 20) in
  0 < score /\ score < 100
  /\ exact - Binary64.pow2 (-46) <= score <= exact + Binary64.pow2 (-46).
Proof.
  intros Hbt Ht. cbn zeta.
  destruct (truediv_error blocked total Hbt Ht) as (Hr0 & Hrlo & Hrhi).
  assert (Hx0 : 0 <= of_nat blocked / of_nat total).
  { apply Qle_shift_div_l; [now apply of_nat_pos|].
    rewrite Qmult_0_l. apply of_nat_nonneg. }
  assert (Hx1 : of_nat blocked / of_nat total <= 1).
  { apply Qle_shift_div_r; [now apply of_nat_pos|].
    rewrite Qmult_1_l. now apply of_nat_le. }
  set (x := of_nat blocked / of_nat total) in *.
  set (r := Binary64.truediv blocked total) in *.
  assert (P53 : Binary64.pow2 (-53) == 1 # 9007199254740992) by reflexivity.
  assert (P49 : Binary64.pow2 (-49) == 1 # 562949953421312) by reflexivity.
  assert (P47 : Binary64.pow2 (-47) == 1 # 140737488355328) by reflexivity.
  assert (P46 : Binary64.pow2 (-46) == 1 # 70368744177664) by reflexivity.
  unfold Binary64.mul, Binary64.sub.
  destruct (round_error (r * 20) 5) as (Hm0 & Hmlo & Hmhi);
    [lia | lra | change (Binary64.pow2 5) with 32; lra |].
  change (5 - 54)%Z with (-49)%Z in *.
  set (m := Binary64.round (r * 20)) in *.
  destruct (round_error (85 - m) 7) as (Hs0 & Hslo & Hshi);
    [lia | lra | change (Binary64.pow2 7) with 128; lra |].
  change (7 - 54)%Z with (-47)%Z in *.
  set (s := Binary64.round (85 - m)) in *.
  repeat split; lra.
Qed.

Lemma progress_error (completed total : nat) :
  (completed <= total)%nat -> (0 < total)%nat ->
  let exact := of_nat completed / of_nat total * 100 in
  let progress := Binary64.mul (Binary64.truediv completed total) 100 in
  exact - Binary64.pow2 (-45) <= progress <= exact + Binary64.pow2 (-45).
Proof.
  intros Hct Ht. cbn zeta.
  destruct (truediv_error completed total Hct Ht) as (Hr0 & Hrlo & Hrhi).
  assert (Hx1 : of_nat completed / of_nat total <= 1).
  { apply Qle_shift_div_r; [now apply of_nat_pos|].
    rewrite Qmult_1_l. now apply of_nat_le. }
  set (x := of_nat completed / of_nat total) in *.
  set (r := Binary64.truediv completed total) in *.
  assert (P53 : Binary64.pow2 (-53) == 1 # 9007199254740992) by reflexivity.
  assert (P47 : Binary64.pow2 (-47) == 1 # 140737488355328) by reflexivity.
  assert (P45 : Binary64.pow2 (-45) == 1 # 35184372088832) by reflexivity.
  unfold Binary64.mul.
  destruct (round_error (r * 100) 7) as (Hp0 & Hplo & Hphi);
    [lia | lra | change (Binary64.pow2 7) with 128; lra |].
  change (7 - 54)%Z with (-47)%Z in *.
  set (p := Binary64.round (r * 100)) in *.
  split; lra.
Qed.

(** The two models of binary64 give the same ratio, progress and score
    before clamping for all counts up to 40 tasks. *)
Lemma binary64_agrees_with_SpecFloat :
  forallb (fun '(c, t) =>
     let r := IEEE754.div (IEEE754.of_Z (Z.of_nat c)) (IEEE754.of_Z (Z.of_nat t)) in
     Qeq_bool (IEEE754.value r) (Binary64.truediv c t)
     && Qeq_bool (IEEE754.value (IEEE754.mul r (IEEE754.of_Z 100)))
                 (Binary64.mul (Binary64.truediv c t) 100)
     && Qeq_bool (IEEE754.value (IEEE754.sub (IEEE754.of_Z 85)
                                   (IEEE754.mul r (IEEE754.of_Z 20))))
                 (Binary64.sub 85 (Binary64.mul (Binary64.truediv c t) 20)))
    (counts 40) = true.
Proof. vm_compute. reflexivity. Qed.

(** One task of three completed gives the float 33.33333333333333, one of
    three blocked the float 78.33333333333333. *)
Example one_of_three :
  Binary64.mul (Binary64.truediv 1 3) 100 == 2345624805922133 # 70368744177664
  /\ Binary64.sub 85 (Binary64.mul (Binary64.truediv 1 3) 20)
     == 5512218293917013 # 70368744177664.
Proof. split; vm_compute; reflexivity. Qed.

(** C4. For every task map the aggregator counts the tasks, the completed
    and the blocked ones; the progress it returns is completed / total x 100
    computed in binary64, and 0 when there is no task; the health score it
    returns is 85 - 20 x (blocked / max(total, 1)) computed in binary64 and
    clamped to [0, 100], and 85 when there is no task. The progress is
    within [2 ^ -45] and the health score within [2 ^ -46] of the exact
    value of the formula. *)
Theorem status_follows_formulas (self : OrchestratorCore) :
  let st := get_project_status self in
  let total := total_count self in
  let completed := completed_count self in
  let blocked := blocked_count self in
  ps_total st = total /\ ps_completed st = completed /\ ps_blocked st = blocked
  /\ Binary64.progress self = spec_progress_binary64 completed total
  /\ Binary64._calculate_health_score self == spec_health_binary64 blocked total
  /\ (total = 0%nat ->
      Binary64.progress self = 0 /\ Binary64._calculate_health_score self == 85)
  /\ Qabs (Binary64.progress self - spec_progress completed total)
     <= Binary64.pow2 (-45)
  /\ Qabs (Binary64._calculate_health_score self - spec_health blocked total)
     <= Binary64.pow2 (-46).
Proof.
  cbn zeta.
  assert (Hc : (completed_count self <= total_count self)%nat)
    by apply count_values_le.
  assert (Hb : (blocked_count self <= Nat.max (total_count self) 1)%nat).
  { pose proof (count_values_le (has_status BLOCKED) (tasks self)).
    unfold blocked_count, total_count. lia. }
  assert (Hm : (0 < Nat.max (total_count self) 1)%nat) by lia.
  pose proof (health_score_error _ _ Hb Hm) as Hh. cbn zeta in Hh.
  destruct Hh as (Hs0 & Hs100 & Hslo & Hshi).
  assert (Hhealth : Binary64._calculate_health_score self
                    = Binary64.sub 85
                        (Binary64.mul
                           (Binary64.truediv (blocked_count self)
                              (Nat.max (total_count self) 1)) 20)).
  { unfold Binary64._calculate_health_score. apply py_clamp_id; assumption. }
  assert (Hxb : 0 <= of_nat (blocked_count self) / of_nat (Nat.max (total_count self) 1)
                /\ of_nat (blocked_count self) / of_nat (Nat.max (total_count self) 1) <= 1).
  { split.
    - apply Qle_shift_div_l; [now apply of_nat_pos|].
      rewrite Qmult_0_l. apply of_nat_nonneg.
    - apply Qle_shift_div_r; [now apply of_nat_pos|].
      rewrite Qmult_1_l. now apply of_nat_le. }
  split; [reflexivity|]. split; [reflexivity|]. split; [reflexivity|].
  split; [|split; [|split; [|split]]].
  - unfold Binary64.progress, spec_progress_binary64.
    fold (total_count self). fold (completed_count self).
    destruct (total_count self); reflexivity.
  - unfold Binary64._calculate_health_score, spec_health_binary64.
    rewrite py_clamp. unfold Binary64.mul.
    fold (total_count self). fold (blocked_count self).
    rewrite (round_proper
               (Binary64.truediv (blocked_count self) (Nat.max (total_count self) 1) * 20)
               (20 * Binary64.truediv (blocked_count self) (Nat.max (total_count self) 1)))
      by ring.
    reflexivity.
  - intro Hz. split.
    + unfold Binary64.progress. fold (total_count self). now rewrite Hz.
    + rewrite Hhealth.
      assert (Hb0 : blocked_count self = 0%nat).
      { pose proof (count_values_le (has_status BLOCKED) (tasks self)).
        unfold blocked_count, total_count in *. lia. }
      rewrite Hb0, Hz. vm_compute. reflexivity.
  - apply Qabs_Qle_condition.
    unfold Binary64.progress, spec_progress.
    fold (total_count self). fold (completed_count self).
    destruct (total_count self) as [|n] eqn:Et.
    + cbn. split; vm_compute; discriminate.
    + change (0 <? S n)%nat with true. change (S n =? 0)%nat with false. cbv iota.
      pose proof (progress_error (completed_count self) (S n)) as Hp.
      cbn zeta in Hp. destruct Hp as [Hlo Hhi]; [lia | lia |].
      split; lra.
  - apply Qabs_Qle_condition. rewrite Hhealth.
    unfold spec_health. rewrite clamp_id by (destruct Hxb; lra).
    split; lra.
Qed.



End Aggregator.

(* ------------------------------------------------------------------ *)
(** ** Dictionaries *)

Section DictFacts.
Context {V : Type}.
Implicit Types (d : list (string * V)) (k : string).

Lemma get_update_eq k (f : V -> V) d :
  PyDict.get k (PyDict.update k f d) = option_map f (PyDict.get k d).
Proof.
  induction d as [|[k' v] r IH]; simpl; [reflexivity|].
  destruct (String.eqb k k') eqn:E; simpl; rewrite E; auto.
Qed.

Lemma get_update_neq k k' (f : V -> V) d :
  k <> k' -> PyDict.get k' (PyDict.update k f d) = PyDict.get k' d.
Proof.
  intro Hne. induction d as [|[k0 v] r IH]; simpl; [reflexivity|].
  destruct (String.eqb k k0) eqn:E; simpl.
  - apply String.eqb_eq in E. subst k0.
    rewrite (eqb_of_neq k' k) by congruence. reflexivity.
  - destruct (String.eqb k' k0); auto.
Qed.

Lemma get_set_eq k (v : V) d : PyDict.get k (PyDict.set k v d) = Some v.
Proof.
  induction d as [|[k' v'] r IH]; simpl.
  - rewrite String.eqb_refl. reflexivity.
  - destruct (String.eqb k k') eqn:E; simpl; rewrite E; auto.
Qed.

Lemma get_set_neq k k' (v : V) d :
  k <> k' -> PyDict.get k' (PyDict.set k v d) = PyDict.get k' d.
Proof.
  intro Hne. induction d as [|[k0 v0] r IH]; simpl.
  - rewrite (eqb_of_neq k' k) by congruence. reflexivity.
  - destruct (String.eqb k k0) eqn:E; simpl.
    + apply String.eqb_eq in E. subst k0.
      rewrite (eqb_of_neq k' k) by congruence. reflexivity.
    + destruct (String.eqb k' k0); auto.
Qed.

Lemma keys_update k (f : V -> V) d :
  PyDict.keys (PyDict.update k f d) = PyDict.keys d.
Proof.
  unfold PyDict.keys.
  induction d as [|[k' v] r IH]; simpl; [reflexivity|].
  destruct (String.eqb k k'); simpl; congruence.
Qed.

Lemma get_in_keys k d (v : V) : PyDict.get k d = Some v -> In k (PyDict.keys d).
Proof.
  unfold PyDict.keys.
  induction d as [|[k' v'] r IH]; simpl; [discriminate|].
  destruct (String.eqb k k') eqn:E.
  - apply String.eqb_eq in E. auto.
  - auto.
Qed.

Lemma in_keys_get k d : In k (PyDict.keys d) -> exists v, PyDict.get k d = Some v.
Proof.
  unfold PyDict.keys.
  induction d as [|[k' v'] r IH]; simpl; [contradiction|].
  intros [Hk | Hk]; destruct (String.eqb k k') eqn:E; eauto.
  subst k'. rewrite String.eqb_refl in E. discriminate.
Qed.
End DictFacts.

Lemma fold_left_preserves {A B : Type} (P : A -> Prop) (f : A -> B -> A)
      (l : list B) (a : A) :
  P a -> (forall a b, In b l -> P a -> P (f a b)) -> P (fold_left f l a).
Proof.
  revert a. induction l as [|b l IH]; simpl; intros a Ha Hf; [assumption|].
  apply IH; [apply Hf; auto | intros; apply Hf; auto].
Qed.

(* ------------------------------------------------------------------ *)
(** ** What each operation leaves alone *)

Lemma TaskStatus_eqb_eq (a b : TaskStatus) : TaskStatus_eqb a b = true <-> a = b.
Proof. destruct a, b; simpl; split; intro H; congruence. Qed.

Lemma dependencies_met_iff (self : OrchestratorCore) (task : Task) :
  _dependencies_met self task = true <->
  forall d, In d (t_dependencies task) ->
            exists dt, PyDict.get d (tasks self) = Some dt /\ t_status dt = COMPLETED.
Proof.
  unfold _dependencies_met. rewrite forallb_forall. split; intros H d Hd.
  - specialize (H d Hd). destruct (PyDict.get d (tasks self)) as [dt|]; [|discriminate].
    exists dt. split; [reflexivity | now apply TaskStatus_eqb_eq].
  - destruct (H d Hd) as [dt [-> Hst]]. now apply TaskStatus_eqb_eq.
Qed.

(** [_assign_task] either changes nothing, or the dependencies are met, an
    agent of the right type is ready, and the task, the agent and the loop
    are updated. *)
Lemma assign_task_cases (self : OrchestratorCore) (task : Task) :
  _assign_task self task = self
  \/ exists agent_id agent,
       _dependencies_met self task = true
       /\ find_agent self task = Some (agent_id, agent)
       /\ _assign_task self task =
          mkCore (project_path self) (project_id self)
                 (PyDict.update agent_id (set_agent "working" (Some (t_id task)))
                                (agents self))
                 (PyDict.update (t_id task) (set_assigned agent_id) (tasks self))
                 (signals self) (context self) (execution_log self)
                 (loop self ++ [mkCoroutine (t_id task) agent_id Created]).
Proof.
  unfold _assign_task.
  destruct (_dependencies_met self task); simpl; [|now left].
  destruct (find_agent self task) as [[agent_id agent]|]; [|now left].
  right. exists agent_id, agent. repeat split.
Qed.

Lemma assign_task_blocked_by_dependencies (self : OrchestratorCore) (task : Task) :
  _dependencies_met self task = false -> _assign_task self task = self.
Proof. intro H. unfold _assign_task. rewrite H. reflexivity. Qed.

Lemma assign_task_signals self task :
  signals (_assign_task self task) = signals self.
Proof.
  destruct (assign_task_cases self task) as [-> | (a & ag & _ & _ & ->)]; reflexivity.
Qed.

Lemma check_pending_signals self :
  signals (_check_pending_tasks self) = signals self.
Proof.
  unfold _check_pending_tasks.
  apply (fold_left_preserves (fun s => signals s = signals self)); [reflexivity|].
  intros s k _ Hs.
  destruct (PyDict.get k (tasks s)) as [t|]; [|assumption].
  destruct (TaskStatus_eqb (t_status t) PENDING); [|assumption].
  now rewrite assign_task_signals.
Qed.

(* ------------------------------------------------------------------ *)
(** ** The signal log *)

Lemma resume_signals_eq self task agent r signal_id :
  signals (_execute_task_resume self task agent r signal_id)
  = signals self ++ resume_signals task agent r signal_id.
Proof.
  unfold _execute_task_resume, resume_signals, _log_event. cbn [signals with_execution_log].
  rewrite check_pending_signals.
  destruct (task_output task agent r) as [output|]; cbn [PyRepr.str_output].
  - destruct (PyStr.contains "decisions_needed" (PyRepr.repr (PDict output))).
    + reflexivity.
    + cbn. now rewrite app_nil_r.
  - cbn. now rewrite app_nil_r.
Qed.

Lemma process_requirement_signals self requirement priority req_id ids :
  signals (fst (process_requirement self requirement priority req_id ids))
  = signals self ++ appended_signals self (Submit requirement priority req_id ids).
Proof.
  unfold process_requirement, _log_event. cbn [fst signals with_execution_log].
  match goal with
  | |- signals (fold_left ?f ?l ?a) = _ =>
      apply (fold_left_preserves (fun s => signals s = signals a) f l a)
  end; [reflexivity|].
  intros s t _ Hs. now rewrite assign_task_signals.
Qed.

Lemma make_decision_signals self signal_id decision :
  signals (fst (make_decision self signal_id decision)) = signals self.
Proof.
  unfold make_decision.
  destruct (find _ (signals self)); reflexivity.
Qed.

Lemma step_signals self e self' :
  step self e = Some self' ->
  signals self' = signals self ++ appended_signals self e.
Proof.
  destruct e as [requirement priority req_id ids | task_id | task_id r signal_id
                | signal_id decision]; cbn [step appended_signals].
  - destruct (fresh_ids self requirement ids); [|discriminate].
    intros [= <-]. apply process_requirement_signals.
  - destruct (take_coroutine task_id Created (loop self)) as [[c rest]|]; [|discriminate].
    destruct (PyDict.get task_id (tasks self)) as [task|]; [|discriminate].
    destruct (PyDict.get (co_agent c) (agents self)) as [agent|]; [|discriminate].
    intros [= <-]. cbn. now rewrite app_nil_r.
  - destruct (take_coroutine task_id Awaiting (loop self)) as [[c rest]|]; [|discriminate].
    destruct (PyDict.get task_id (tasks self)) as [task|]; [|discriminate].
    destruct (PyDict.get (co_agent c) (agents self)) as [agent|]; [|discriminate].
    intros [= <-]. now rewrite resume_signals_eq.
  - intros [= <-]. rewrite make_decision_signals. now rewrite app_nil_r.
Qed.

Lemma count_if_app {A} (p : A -> bool) (xs ys : list A) :
  count_if p (xs ++ ys) = (count_if p xs + count_if p ys)%nat.
Proof. unfold count_if. now rewrite filter_app, length_app. Qed.

Lemma run_signals self events self' :
  run self events = Some self' ->
  exists appended, signals self' = signals self ++ appended.
Proof.
  revert self. induction events as [|e rest IH]; simpl; intros self H.
  - injection H as <-. exists []. now rewrite app_nil_r.
  - destruct (step self e) as [mid|] eqn:E; [|discriminate].
    destruct (IH _ H) as [more Hmore].
    exists (appended_signals self e ++ more).
    rewrite Hmore, (step_signals _ _ _ E). now rewrite app_assoc.
Qed.

(** C7. For every signal id that matches no recorded signal,
    [make_decision] returns false and the engine is left exactly as it was:
    signal log, project context with its decisions, task map, worker
    roster and execution log are unchanged. *)
Theorem make_decision_unknown_signal
        (self : OrchestratorCore) (signal_id decision : string) :
  ~ In signal_id (map s_id (signals self)) ->
  make_decision self signal_id decision = (self, false)
  /\ signals (fst (make_decision self signal_id decision)) = signals self
  /\ context (fst (make_decision self signal_id decision)) = context self
  /\ tasks (fst (make_decision self signal_id decision)) = tasks self
  /\ agents (fst (make_decision self signal_id decision)) = agents self.
Proof.
  intro Hunknown.
  assert (E : make_decision self signal_id decision = (self, false)).
  { unfold make_decision.
    destruct (find (fun s => String.eqb (s_id s) signal_id) (signals self))
      as [signal|] eqn:F; [|reflexivity].
    exfalso. apply Hunknown.
    apply find_some in F as [Hin Heq]. apply String.eqb_eq in Heq.
    rewrite <- Heq. now apply in_map. }
  rewrite E. repeat split.
Qed.

(** C9. The [pending_decisions] count of the aggregator is the number of
    [decision_needed] signals in the log; over any run the log only grows at
    its end, so the count is the number of such signals ever appended and
    never decreases; [make_decision], also when it succeeds, leaves the log
    and the count as they are. *)
Theorem pending_decisions_never_decrease
        (self self' : OrchestratorCore) (events : list event) :
  run self events = Some self' ->
  pending_decisions self' = count_if is_decision_needed (signals self')
  /\ (exists appended,
        signals self' = signals self ++ appended
        /\ pending_decisions self' =
           (pending_decisions self + count_if is_decision_needed appended)%nat)
  /\ (pending_decisions self <= pending_decisions self')%nat
  /\ (forall signal_id decision,
        signals (fst (make_decision self' signal_id decision)) = signals self'
        /\ pending_decisions (fst (make_decision self' signal_id decision))
           = pending_decisions self').
Proof.
  intro Hrun.
  destruct (run_signals _ _ _ Hrun) as [appended Happ].
  assert (Hcount : pending_decisions self' =
                   (pending_decisions self + count_if is_decision_needed appended)%nat).
  { unfold pending_decisions, get_project_status. cbn [ps_pending_decisions].
    rewrite Happ. apply count_if_app. }
  split; [reflexivity|].
  split; [exists appended; auto|].
  split; [lia|].
  intros signal_id decision.
  pose proof (make_decision_signals self' signal_id decision) as Hs.
  split; [exact Hs|].
  unfold pending_decisions, get_project_status. cbn [ps_pending_decisions].
  now rewrite Hs.
Qed.

Lemma demo_run : run (init "/project" "p1") demo_events = Some demo_state.
Proof. vm_compute. reflexivity. Qed.

Lemma make_decision_unknown_signal_witness :
  ~ In "s2" (map s_id (signals demo_state))
  /\ make_decision demo_state "s2" "postgres" = (demo_state, false).
Proof.
  assert (H : ~ In "s2" (map s_id (signals demo_state))).
  { vm_compute. intros [H | [H | []]]; discriminate H. }
  split; [exact H|].
  exact (proj1 (make_decision_unknown_signal demo_state "s2" "postgres" H)).
Defined.

Lemma pending_decisions_never_decrease_witness :
  run (init "/project" "p1") demo_events = Some demo_state
  /\ (pending_decisions (init "/project" "p1") <= pending_decisions demo_state)%nat.
Proof.
  split; [exact demo_run|].
  exact (proj1 (proj2 (proj2
           (pending_decisions_never_decrease _ _ _ demo_run)))).
Defined.

Example demo_pending_decisions :
  pending_decisions demo_state = 1%nat
  /\ pending_decisions (fst (make_decision demo_state "s1" "postgres")) = 1%nat
  /\ snd (make_decision demo_state "s1" "postgres") = true.
Proof. vm_compute. repeat split. Qed.

(* ------------------------------------------------------------------ *)
(** ** Decision points *)

Module ReprFacts.
Import PyStr PyRepr.
Local Open Scope string_scope.

Lemma repr_dict (d : list (string * pyval)) :
  repr (PDict d) = "{" ++ dict_items d ++ "}".
Proof.
  destruct d; reflexivity.
Qed.

Lemma append_assoc (a b c : string) : (a ++ b) ++ c = a ++ (b ++ c).
Proof. induction a as [|x a IH]; simpl; congruence. Qed.

Lemma startswith_append (n post : string) : startswith n (n ++ post) = true.
Proof.
  induction n as [|c n IH]; simpl; [reflexivity|].
  now rewrite Ascii.eqb_refl, IH.
Qed.

Lemma contains_unfold (n h : string) :
  contains n h =
  startswith n h || match h with EmptyString => false | String _ r => contains n r end.
Proof. destruct h; reflexivity. Qed.

Lemma contains_append (n pre post : string) :
  contains n (pre ++ n ++ post) = true.
Proof.
  induction pre as [|c pre IH].
  - cbn [append]. rewrite contains_unfold, startswith_append. reflexivity.
  - cbn [append]. rewrite contains_unfold.
    cbn iota. rewrite IH. apply orb_true_r.
Qed.

(** A key of a dict occurs, quoted, in the dict's text. *)
Lemma dict_items_key (k : string) (d : list (string * pyval)) (v : pyval) :
  PyDict.get k d = Some v ->
  exists pre post, dict_items d = pre ++ repr_str k ++ post.
Proof.
  induction d as [|[k' x] r IH]; cbn [PyDict.get]; [discriminate|].
  destruct (String.eqb k k') eqn:E.
  - intros _. apply String.eqb_eq in E. subst k'.
    exists "". eexists. cbn [dict_items append]. reflexivity.
  - intro H. destruct (IH H) as (pre & post & Hitems).
    destruct r as [|kv r']; [discriminate H|].
    exists (repr_str k' ++ ": " ++ repr x ++ ", " ++ pre), post.
    cbn [dict_items] in *. rewrite Hitems.
    now rewrite !append_assoc.
Qed.

Lemma declared_field_in_text (d : list (string * pyval)) :
  PyDict.mem "decisions_needed" d = true ->
  contains "decisions_needed" (repr (PDict d)) = true.
Proof.
  unfold PyDict.mem.
  destruct (PyDict.get "decisions_needed" d) as [v|] eqn:G; [intros _|discriminate].
  destruct (dict_items_key _ _ _ G) as (pre & post & Hitems).
  rewrite repr_dict, Hitems.
  change (repr_str "decisions_needed") with ("'" ++ "decisions_needed" ++ "'").
  replace ("{" ++ (pre ++ ("'" ++ "decisions_needed" ++ "'") ++ post) ++ "}")
    with (("{" ++ pre ++ "'") ++ "decisions_needed" ++ ("'" ++ post ++ "}"))
    by (now rewrite !append_assoc).
  apply contains_append.
Qed.
End ReprFacts.

Lemma resume_signals_cases task agent r signal_id :
  (PyStr.contains "decisions_needed"
     (PyRepr.str_output (task_output task agent r)) = true
   /\ exists d, task_output task agent r = Some d
                /\ resume_signals task agent r signal_id
                   = [decision_signal task d signal_id])
  \/ (PyStr.contains "decisions_needed"
        (PyRepr.str_output (task_output task agent r)) = false
      /\ resume_signals task agent r signal_id = []).
Proof.
  unfold resume_signals.
  destruct (task_output task agent r) as [d|]; cbn [PyRepr.str_output].
  - destruct (PyStr.contains "decisions_needed" (PyRepr.repr (PDict d))).
    + left. split; [reflexivity|]. exists d. split; reflexivity.
    + right. split; reflexivity.
  - right. split; reflexivity.
Qed.

(** C5, as the code has it. When [_execute_task] completes a task, one
    [decision_needed] signal is appended exactly when the text
    [decisions_needed] occurs in [str(task.output)], which is the case
    whenever the output declares a [decisions_needed] field. The signal
    carries the task's id and, as decision items, the value of the
    top-level [decisions_needed] field, or the empty list when there is no
    such field. No other event of the engine appends a [decision_needed]
    signal. *)
Theorem decision_signal_iff_text_in_output
        (self : OrchestratorCore) (task : Task) (agent : Agent)
        (r : bridge_result) (signal_id : string) :
  let output := task_output task agent r in
  let self' := _execute_task_resume self task agent r signal_id in
  (PyStr.contains "decisions_needed" (PyRepr.str_output output) = true ->
   exists d, output = Some d
             /\ signals self' = signals self ++ [decision_signal task d signal_id])
  /\ (PyStr.contains "decisions_needed" (PyRepr.str_output output) = false ->
      signals self' = signals self)
  /\ (forall d, output = Some d -> PyDict.mem "decisions_needed" d = true ->
                PyStr.contains "decisions_needed" (PyRepr.str_output output) = true)
  /\ (forall d,
        s_type (decision_signal task d signal_id) = DECISION_NEEDED
        /\ PyDict.get "task_id" (s_data (decision_signal task d signal_id))
           = Some (PStr (t_id task))
        /\ PyDict.get "decisions" (s_data (decision_signal task d signal_id))
           = Some (get_default "decisions_needed" (PList []) d))
  /\ (forall e after,
        step self e = Some after ->
        (forall task_id r' signal_id', e <> Resume task_id r' signal_id') ->
        count_if is_decision_needed (signals after)
        = count_if is_decision_needed (signals self)).
Proof.
  cbn zeta. repeat split.
  - intro Htext. rewrite resume_signals_eq.
    destruct (resume_signals_cases task agent r signal_id)
      as [(_ & d & Hd & ->) | (Hno & _)]; [eauto | congruence].
  - intro Htext. rewrite resume_signals_eq.
    destruct (resume_signals_cases task agent r signal_id)
      as [(Hyes & _) | (_ & ->)]; [congruence | apply app_nil_r].
  - intros d -> Hmem. cbn [PyRepr.str_output].
    now apply ReprFacts.declared_field_in_text.
  - intros e after Hstep Hother.
    rewrite (step_signals _ _ _ Hstep), count_if_app.
    destruct e; cbn [appended_signals]; try (cbn; lia).
    exfalso. eapply Hother. reflexivity.
Qed.

(** A character that is not printable is written by its code point, and
    the last digit of the code point can begin the word. *)
Example escaped_character_begins_the_word :
  let output := [("response", PStr (Unicode.chr 0x9D ++ "ecisions_needed"))] in
  PyRepr.str_output (Some output) = "{'response': '\x9decisions_needed'}"
  /\ PyStr.contains "decisions_needed" (PyRepr.str_output (Some output)) = true
  /\ PyStr.contains "decisions_needed" (Unicode.chr 0x9D ++ "ecisions_needed") = false.
Proof. repeat split; vm_compute; reflexivity. Qed.

(** C5 as stated fails: an output that declares no [decisions_needed]
    field, but mentions the word in its response text, raises a
    [decision_needed] signal, with an empty list of decision items. *)
Lemma decision_signal_without_declared_field :
  let output := [("success", PBool true);
                 ("response", PStr "There are no decisions_needed here")] in
  PyDict.mem "decisions_needed" output = false
  /\ exists self',
       run (init "/project" "p1")
           [Submit "Build a page" 5 "r1" ["t1"; "t2"; "t3"; "t4"];
            Start "t1";
            Resume "t1" (Returned output) "s1"] = Some self'
       /\ map s_data (filter is_decision_needed (signals self'))
          = [[("task_id", PStr "t1"); ("decisions", PList []);
              ("context", PDict output)]].
Proof.
  cbn zeta. split; [reflexivity|].
  eexists. split; [vm_compute; reflexivity|].
  vm_compute. reflexivity.
Qed.

(* ------------------------------------------------------------------ *)
(** ** The scheduling invariant *)

Section InvariantSteps.
Variables (d : list (string * Task)) (l : list Coroutine).
Hypothesis HI : invariant d l.

(** Updating the task stored under [k] by [f], where [f] keeps id and
    dependencies, never leaves [completed], and moves to a status other
    than [pending] only if the dependencies are completed. *)
Variables (k : string) (t : Task) (f : Task -> Task).
Hypothesis Hget : PyDict.get k d = Some t.
Hypothesis Hf_id : t_id (f t) = t_id t.
Hypothesis Hf_deps : t_dependencies (f t) = t_dependencies t.
Hypothesis Hf_completed : t_status t = COMPLETED -> t_status (f t) = COMPLETED.
Hypothesis Hf_ready : t_status (f t) <> PENDING -> dependencies_completed d t.
Hypothesis Hf_status : t_status (f t) <> BLOCKED /\ t_status (f t) <> REVIEW.

Lemma completed_in_update dep :
  completed_in d dep -> completed_in (PyDict.update k f d) dep.
Proof.
  intros (dt & Hdt & Hst).
  destruct (String.eqb_spec k dep) as [<-|Hne].
  - exists (f t). rewrite get_update_eq, Hget. split; [reflexivity|].
    apply Hf_completed. congruence.
  - exists dt. now rewrite get_update_neq.
Qed.

Lemma update_cases k' t' :
  PyDict.get k' (PyDict.update k f d) = Some t' ->
  (k' = k /\ t' = f t) \/ (k' <> k /\ PyDict.get k' d = Some t').
Proof.
  destruct (String.eqb_spec k k') as [<-|Hne].
  - rewrite get_update_eq, Hget. cbn. intros [= <-]. now left.
  - rewrite get_update_neq by assumption. intro H. right. split; congruence.
Qed.

(** The part of the invariant that speaks of the task map alone. *)
Lemma update_tasks :
  (forall k' t', PyDict.get k' (PyDict.update k f d) = Some t' -> t_id t' = k')
  /\ (forall k' t', PyDict.get k' (PyDict.update k f d) = Some t' ->
                    t_status t' <> PENDING ->
                    dependencies_completed (PyDict.update k f d) t')
  /\ (forall k' t', PyDict.get k' (PyDict.update k f d) = Some t' ->
                    t_status t' <> BLOCKED /\ t_status t' <> REVIEW).
Proof.
  split; [|split].
  - intros k' t' H.
    destruct (update_cases _ _ H) as [[-> ->] | [_ H']].
    + rewrite Hf_id. eapply inv_ids; eauto.
    + eapply inv_ids; eauto.
  - intros k' t' H Hst dep Hdep. apply completed_in_update.
    destruct (update_cases _ _ H) as [[-> ->] | [_ H']].
    + apply Hf_ready; [assumption|]. now rewrite <- Hf_deps.
    + eapply inv_deps; eauto.
  - intros k' t' H.
    destruct (update_cases _ _ H) as [[-> ->] | [_ H']].
    + apply Hf_status.
    + eapply inv_status; eauto.
Qed.

(** Coroutines of other tasks are not concerned. *)
Lemma update_loop_other c :
  In c l -> co_task c <> k ->
  exists t', PyDict.get (co_task c) (PyDict.update k f d) = Some t'
             /\ t_status t' = phase_status (co_phase c).
Proof.
  intros Hin Hne. rewrite get_update_neq by congruence.
  eapply inv_loop; eauto.
Qed.
End InvariantSteps.

Lemma take_coroutine_spec k ph l c rest :
  take_coroutine k ph l = Some (c, rest) ->
  co_task c = k /\ co_phase c = ph /\ Permutation l (c :: rest).
Proof.
  revert c rest. induction l as [|x l IH]; simpl; intros c rest H; [discriminate|].
  destruct (String.eqb (co_task x) k && phase_eqb (co_phase x) ph) eqn:E.
  - injection H as <- <-. apply andb_true_iff in E as [E1 E2].
    apply String.eqb_eq in E1.
    repeat split; auto.
    destruct (co_phase x), ph; simpl in E2; congruence.
  - destruct (take_coroutine k ph l) as [[c' r']|]; [|discriminate].
    injection H as <- <-.
    destruct (IH _ _ eq_refl) as (H1 & H2 & HP).
    repeat split; auto.
    rewrite HP. apply perm_swap.
Qed.

(** The coroutine taken out and the task it runs. *)
Lemma taken_task d l k ph c rest :
  invariant d l -> take_coroutine k ph l = Some (c, rest) ->
  (exists t, PyDict.get k d = Some t /\ t_status t = phase_status ph)
  /\ NoDup (map co_task rest)
  /\ (forall c', In c' rest -> In c' l /\ co_task c' <> k).
Proof.
  intros HI Htake.
  destruct (take_coroutine_spec _ _ _ _ _ Htake) as (Hk & Hph & HP).
  assert (Hnd : NoDup (map co_task (c :: rest))).
  { eapply Permutation_NoDup; [apply Permutation_map; exact HP | apply (inv_nodup _ _ HI)]. }
  simpl in Hnd. inversion Hnd as [|? ? Hnotin Hnd']; subst.
  split; [|split].
  - destruct (inv_loop _ _ HI c) as (t & Ht & Hst).
    { eapply Permutation_in; [symmetry; exact HP | now left]. }
    exists t. split; assumption.
  - assumption.
  - intros c' Hc'. split.
    + eapply Permutation_in; [symmetry; exact HP | now right].
    + intro E. apply Hnotin. rewrite <- E. now apply in_map.
Qed.

Lemma nodup_snoc (xs : list string) (x : string) :
  NoDup xs -> ~ In x xs -> NoDup (xs ++ [x]).
Proof.
  intros Hnd Hx. eapply Permutation_NoDup; [apply Permutation_cons_append|].
  now constructor.
Qed.

(** [_assign_task] on a pending task whose dependencies are completed. *)
Lemma inv_assign d l k t agent_id :
  invariant d l -> PyDict.get k d = Some t -> t_status t = PENDING ->
  dependencies_completed d t ->
  invariant (PyDict.update k (set_assigned agent_id) d)
            (l ++ [mkCoroutine k agent_id Created]).
Proof.
  intros HI Hget Hpending Hdeps.
  destruct (update_tasks d l HI k t (set_assigned agent_id) Hget) as (Hids & Hd & Hs);
    try reflexivity; try (cbn; split; discriminate); try congruence; auto.
  assert (Hother : forall c, In c l -> co_task c <> k).
  { intros c Hc E. destruct (inv_loop _ _ HI c Hc) as (t' & Ht' & Hst).
    rewrite E, Hget in Ht'. injection Ht' as <-.
    rewrite Hpending in Hst. destruct (co_phase c); discriminate. }
  constructor; auto.
  - intros c Hc. apply in_app_or in Hc as [Hc | [<- | []]].
    + eapply update_loop_other; eauto.
    + cbn. exists (set_assigned agent_id t).
      rewrite get_update_eq, Hget. split; reflexivity.
  - rewrite map_app. cbn. apply nodup_snoc; [apply (inv_nodup _ _ HI)|].
    intro Hin. apply in_map_iff in Hin as (c & E & Hc). now apply (Hother c).
Qed.

(** The loop runs a created coroutine up to its [await]. *)
Lemma inv_begin d l k c rest :
  invariant d l -> take_coroutine k Created l = Some (c, rest) ->
  invariant (PyDict.update k (set_status IN_PROGRESS) d)
            (rest ++ [mkCoroutine k (co_agent c) Awaiting]).
Proof.
  intros HI Htake.
  destruct (taken_task _ _ _ _ _ _ HI Htake) as ((t & Hget & Hst) & Hnd & Hrest).
  cbn in Hst.
  destruct (update_tasks d l HI k t (set_status IN_PROGRESS) Hget) as (Hids & Hd & Hs);
    try reflexivity; try (cbn; split; discriminate); try congruence.
  { intros _. eapply inv_deps; eauto. congruence. }
  constructor; auto.
  - intros c' Hc'. apply in_app_or in Hc' as [Hc' | [<- | []]].
    + destruct (Hrest _ Hc'). eapply update_loop_other; eauto.
    + cbn. exists (set_status IN_PROGRESS t).
      rewrite get_update_eq, Hget. split; reflexivity.
  - rewrite map_app. cbn. apply nodup_snoc; [assumption|].
    intro Hin. apply in_map_iff in Hin as (c' & E & Hc').
    now destruct (Hrest _ Hc').
Qed.

(** The coroutine of an in-progress task runs to its end. *)
Lemma inv_complete d l k c rest output :
  invariant d l -> take_coroutine k Awaiting l = Some (c, rest) ->
  invariant (PyDict.update k (set_completed output) d) rest.
Proof.
  intros HI Htake.
  destruct (taken_task _ _ _ _ _ _ HI Htake) as ((t & Hget & Hst) & Hnd & Hrest).
  cbn in Hst.
  destruct (update_tasks d l HI k t (set_completed output) Hget) as (Hids & Hd & Hs);
    try reflexivity; try (cbn; split; discriminate); try congruence.
  { intros _. eapply inv_deps; eauto. congruence. }
  constructor; auto.
  intros c' Hc'. destruct (Hrest _ Hc'). eapply update_loop_other; eauto.
Qed.

(** [self.tasks[task.id] = task] for a new pending task with a fresh id. *)
Lemma inv_insert d l t :
  invariant d l -> PyDict.get (t_id t) d = None -> t_status t = PENDING ->
  invariant (PyDict.set (t_id t) t d) l.
Proof.
  intros HI Hfresh Hpending.
  assert (Hold : forall k' t', PyDict.get k' (PyDict.set (t_id t) t d) = Some t' ->
                   (k' = t_id t /\ t' = t) \/ (k' <> t_id t /\ PyDict.get k' d = Some t')).
  { intros k' t'. destruct (String.eqb_spec (t_id t) k') as [<-|Hne].
    - rewrite get_set_eq. intros [= <-]. now left.
    - rewrite get_set_neq by assumption. intro H. right. split; congruence. }
  assert (Hkeep : forall dep, completed_in d dep ->
                              completed_in (PyDict.set (t_id t) t d) dep).
  { intros dep (dt & Hdt & Hst). exists dt. split; [|assumption].
    rewrite get_set_neq; [assumption | congruence]. }
  constructor.
  - intros k' t' H. destruct (Hold _ _ H) as [[-> ->] | [_ H']];
      [reflexivity | eapply inv_ids; eauto].
  - intros c Hc. destruct (inv_loop _ _ HI c Hc) as (t' & Ht' & Hst).
    exists t'. split; [|assumption].
    rewrite get_set_neq; [assumption | congruence].
  - apply (inv_nodup _ _ HI).
  - intros k' t' H Hst dep Hdep. apply Hkeep.
    destruct (Hold _ _ H) as [[-> ->] | [_ H']]; [congruence|].
    eapply inv_deps; eauto.
  - intros k' t' H. destruct (Hold _ _ H) as [[-> ->] | [_ H']].
    + rewrite Hpending. split; discriminate.
    + eapply inv_status; eauto.
Qed.

(* ------------------------------------------------------------------ *)
(** ** The invariant along a run *)

Lemma assign_task_inv self task :
  Inv self -> PyDict.get (t_id task) (tasks self) = Some task ->
  t_status task = PENDING -> Inv (_assign_task self task).
Proof.
  intros HI Hget Hpending.
  destruct (assign_task_cases self task) as [-> | (aid & ag & Hmet & _ & ->)];
    [assumption|].
  unfold Inv. cbn [tasks loop].
  eapply inv_assign; eauto.
  exact (proj1 (dependencies_met_iff self task) Hmet).
Qed.

Lemma assign_task_get_none self task k :
  PyDict.get k (tasks self) = None ->
  PyDict.get k (tasks (_assign_task self task)) = None.
Proof.
  intro Hnone.
  destruct (assign_task_cases self task) as [-> | (aid & ag & _ & _ & ->)];
    [assumption|].
  cbn [tasks].
  destruct (String.eqb_spec (t_id task) k) as [<-|Hne].
  - now rewrite get_update_eq, Hnone.
  - now rewrite get_update_neq.
Qed.

Lemma check_pending_inv self : Inv self -> Inv (_check_pending_tasks self).
Proof.
  intro HI. unfold _check_pending_tasks.
  apply fold_left_preserves; [assumption|].
  intros s k _ Hs.
  destruct (PyDict.get k (tasks s)) as [t|] eqn:G; [|assumption].
  destruct (TaskStatus_eqb (t_status t) PENDING) eqn:E; [|assumption].
  apply TaskStatus_eqb_eq in E.
  apply assign_task_inv; auto.
  now rewrite (inv_ids _ _ Hs _ _ G).
Qed.

Lemma decompose_ids ids requirement :
  (List.length (_decompose_requirement ids requirement) <= List.length ids)%nat ->
  map t_id (_decompose_requirement ids requirement)
  = firstn (List.length (_decompose_requirement ids requirement)) ids.
Proof.
  rewrite decompose_length. unfold _decompose_requirement.
  destruct (needs_deep_reasoning requirement); intro Hlen.
  - destruct ids as [|a [|b [|c [|d0 [|e [|f ids]]]]]]; simpl in Hlen; try lia.
    reflexivity.
  - destruct ids as [|a [|b [|c [|d0 ids]]]]; simpl in Hlen; try lia.
    reflexivity.
Qed.

Lemma decompose_pending ids requirement t :
  In t (_decompose_requirement ids requirement) -> t_status t = PENDING.
Proof.
  unfold _decompose_requirement.
  destruct (needs_deep_reasoning requirement); simpl; intro H;
    repeat (destruct H as [<- | H]; [reflexivity|]); contradiction.
Qed.

Lemma submit_fold_inv (new_tasks : list Task) (self : OrchestratorCore) :
  Inv self -> NoDup (map t_id new_tasks) ->
  (forall t, In t new_tasks ->
             PyDict.get (t_id t) (tasks self) = None /\ t_status t = PENDING) ->
  Inv (fold_left
         (fun self task =>
            let self := with_tasks self (PyDict.set (t_id task) task (tasks self)) in
            _assign_task self task)
         new_tasks self).
Proof.
  revert self. induction new_tasks as [|t rest IH]; intros self HI Hnd Hnew;
    [assumption|].
  cbn [fold_left]. cbn zeta.
  destruct (Hnew t (or_introl eq_refl)) as [Hfresh Hpending].
  inversion Hnd as [|? ? Hnotin Hnd']; subst.
  apply IH; [| assumption |].
  - apply assign_task_inv; cbn [tasks]; [| apply get_set_eq | assumption].
    unfold Inv. cbn [tasks loop with_tasks]. now apply inv_insert.
  - intros t' Ht'. destruct (Hnew t' (or_intror Ht')) as [Hfresh' Hpending'].
    split; [|assumption].
    apply assign_task_get_none. cbn [tasks with_tasks].
    rewrite get_set_neq; [assumption|].
    intro E. apply Hnotin. rewrite E. now apply in_map.
Qed.

Lemma fresh_ids_spec self requirement ids :
  fresh_ids self requirement ids = true ->
  NoDup ids
  /\ (forall i, In i ids -> PyDict.get i (tasks self) = None)
  /\ map t_id (_decompose_requirement ids requirement) = ids.
Proof.
  unfold fresh_ids. intro H.
  apply andb_true_iff in H as [H Hlen]. apply andb_true_iff in H as [Hnd Hfresh].
  apply Nat.eqb_eq in Hlen.
  split; [now apply nodupb_NoDup | split].
  - intros i Hi. rewrite forallb_forall in Hfresh. specialize (Hfresh i Hi).
    unfold PyDict.mem in Hfresh.
    destruct (PyDict.get i (tasks self)); [discriminate | reflexivity].
  - rewrite decompose_ids by lia. rewrite <- Hlen. apply firstn_all.
Qed.

Lemma process_requirement_inv self requirement priority req_id ids :
  Inv self -> fresh_ids self requirement ids = true ->
  Inv (fst (process_requirement self requirement priority req_id ids)).
Proof.
  intros HI Hfresh.
  destruct (fresh_ids_spec _ _ _ Hfresh) as (Hnd & Hnone & Hids).
  unfold process_requirement, _log_event. cbn [fst].
  unfold Inv. cbn [tasks loop with_execution_log].
  apply submit_fold_inv.
  - exact HI.
  - now rewrite Hids.
  - intros t Ht. split; [|eapply decompose_pending; eauto].
    cbn [tasks with_signals]. apply Hnone. rewrite <- Hids. now apply in_map.
Qed.

Lemma step_inv self e self' : Inv self -> step self e = Some self' -> Inv self'.
Proof.
  intro HI.
  destruct e as [requirement priority req_id ids | task_id | task_id r signal_id
                | signal_id decision]; cbn [step].
  - destruct (fresh_ids self requirement ids) eqn:F; [|discriminate].
    intros [= <-]. now apply process_requirement_inv.
  - destruct (take_coroutine task_id Created (loop self)) as [[c rest]|] eqn:T;
      [|discriminate].
    destruct (PyDict.get task_id (tasks self)) as [task|] eqn:G; [|discriminate].
    destruct (PyDict.get (co_agent c) (agents self)) as [agent|]; [|discriminate].
    intros [= <-]. unfold Inv, _execute_task_begin, _log_event.
    cbn [tasks loop with_execution_log with_tasks with_loop].
    rewrite (inv_ids _ _ HI _ _ G). eapply inv_begin; eauto.
  - destruct (take_coroutine task_id Awaiting (loop self)) as [[c rest]|] eqn:T;
      [|discriminate].
    destruct (PyDict.get task_id (tasks self)) as [task|] eqn:G; [|discriminate].
    destruct (PyDict.get (co_agent c) (agents self)) as [agent|]; [|discriminate].
    intros [= <-]. unfold _execute_task_resume, _log_event.
    unfold Inv. cbn [tasks loop with_execution_log].
    apply check_pending_inv.
    assert (Hdone : Inv (with_agents
                          (with_tasks (with_loop self rest)
                             (PyDict.update (t_id task)
                                (set_completed (task_output task agent r))
                                (tasks (with_loop self rest))))
                          (PyDict.update (a_id agent) (set_agent "ready" None)
                             (agents self)))).
    { unfold Inv. cbn [tasks loop with_agents with_tasks with_loop].
      rewrite (inv_ids _ _ HI _ _ G). eapply inv_complete; eauto. }
    destruct (PyStr.contains "decisions_needed"
                (PyRepr.str_output (task_output task agent r))); exact Hdone.
  - intros [= <-]. unfold make_decision.
    destruct (find _ (signals self)); exact HI.
Qed.

Lemma run_inv self events self' :
  Inv self -> run self events = Some self' -> Inv self'.
Proof.
  revert self. induction events as [|e rest IH]; simpl; intros self HI H.
  - now injection H as <-.
  - destruct (step self e) as [mid|] eqn:E; [|discriminate].
    eapply IH; [eapply step_inv; eauto | exact H].
Qed.

Lemma init_inv path pid : Inv (init path pid).
Proof.
  constructor; cbn; try discriminate; try contradiction. constructor.
Qed.

Lemma reachable_inv self : reachable self -> Inv self.
Proof.
  intros (path & pid & events & Hrun).
  eapply run_inv; [apply init_inv | exact Hrun].
Qed.

Lemma run_snoc self events e mid self' :
  run self events = Some mid -> step mid e = Some self' ->
  run self (events ++ [e]) = Some self'.
Proof.
  revert self. induction events as [|x rest IH]; simpl; intros self H Hstep.
  - injection H as ->. now rewrite Hstep.
  - destruct (step self x); [eauto | discriminate].
Qed.

Lemma reachable_step self e self' :
  reachable self -> step self e = Some self' -> reachable self'.
Proof.
  intros (path & pid & events & Hrun) Hstep.
  exists path, pid, (events ++ [e]). eapply run_snoc; eauto.
Qed.

Lemma dependencies_unmet self task dep :
  In dep (t_dependencies task) -> ~ completed_in (tasks self) dep ->
  _dependencies_met self task = false.
Proof.
  intros Hdep Hnot.
  destruct (_dependencies_met self task) eqn:E; [|reflexivity].
  exfalso. apply Hnot. exact (proj1 (dependencies_met_iff self task) E dep Hdep).
Qed.

(** C2. In every state an engine can reach, every task that has left
    [pending] (it is assigned, in progress or completed) has each id of its
    dependency list in the task map, with status completed; so has every
    task after any further event. [_assign_task] changes nothing for a task
    one of whose dependency ids is missing from the map or names a task
    that is not completed. *)
Theorem no_assignment_before_dependencies (self : OrchestratorCore) :
  reachable self ->
  (forall k t, PyDict.get k (tasks self) = Some t -> t_status t <> PENDING ->
     forall dep, In dep (t_dependencies t) ->
       exists dt, PyDict.get dep (tasks self) = Some dt /\ t_status dt = COMPLETED)
  /\ (forall e self' k t',
        step self e = Some self' ->
        PyDict.get k (tasks self') = Some t' ->
        t_status t' = ASSIGNED \/ t_status t' = IN_PROGRESS ->
        forall dep, In dep (t_dependencies t') ->
          exists dt, PyDict.get dep (tasks self') = Some dt /\ t_status dt = COMPLETED)
  /\ (forall task dep,
        In dep (t_dependencies task) ->
        (PyDict.get dep (tasks self) = None
         \/ exists dt, PyDict.get dep (tasks self) = Some dt
                       /\ t_status dt <> COMPLETED) ->
        _assign_task self task = self).
Proof.
  intro Hreach. split; [|split].
  - intros k t Hget Hst dep Hdep.
    exact (inv_deps _ _ (reachable_inv _ Hreach) k t Hget Hst dep Hdep).
  - intros e self' k t' Hstep Hget Hst dep Hdep.
    assert (HI : Inv self') by (eapply reachable_inv, reachable_step; eauto).
    apply (inv_deps _ _ HI k t' Hget); [|assumption].
    destruct Hst as [-> | ->]; discriminate.
  - intros task dep Hdep Hbad.
    apply assign_task_blocked_by_dependencies.
    apply (dependencies_unmet self task dep Hdep).
    intros (dt & Hdt & Hst).
    destruct Hbad as [Hnone | (dt' & Hdt' & Hst')]; congruence.
Qed.

Lemma demo_started_reachable : reachable demo_started.
Proof.
  exists "/project", "p1", (firstn 2 demo_events). vm_compute. reflexivity.
Qed.

Lemma demo_state_reachable : reachable demo_state.
Proof. exists "/project", "p1", demo_events. exact demo_run. Qed.

Lemma no_assignment_before_dependencies_witness :
  reachable demo_state
  /\ t_status demo_planning = ASSIGNED
  /\ forall dep, In dep (t_dependencies demo_planning) ->
       exists dt, PyDict.get dep (tasks demo_state) = Some dt
                  /\ t_status dt = COMPLETED.
Proof.
  split; [exact demo_state_reachable|].
  split; [vm_compute; reflexivity|].
  refine (proj1 (no_assignment_before_dependencies demo_state demo_state_reachable)
                "t2" demo_planning _ _).
  - vm_compute. reflexivity.
  - vm_compute. discriminate.
Defined.

(* ------------------------------------------------------------------ *)
(** ** Failed executions *)

Lemma assign_task_get_other self task k t :
  PyDict.get k (tasks self) = Some t -> k <> t_id task ->
  PyDict.get k (tasks (_assign_task self task)) = Some t.
Proof.
  intros Hget Hne.
  destruct (assign_task_cases self task) as [-> | (aid & ag & _ & _ & ->)];
    [assumption|].
  cbn [tasks]. rewrite get_update_neq; [assumption | congruence].
Qed.

(** The cascade does not touch a task that is no longer pending. *)
Lemma check_pending_keeps self k t :
  Inv self -> PyDict.get k (tasks self) = Some t -> t_status t <> PENDING ->
  PyDict.get k (tasks (_check_pending_tasks self)) = Some t.
Proof.
  intros HI Hget Hst. unfold _check_pending_tasks.
  apply (fold_left_preserves
           (fun s => Inv s /\ PyDict.get k (tasks s) = Some t)); [auto|].
  intros s k' _ [Hs Hk].
  destruct (PyDict.get k' (tasks s)) as [t'|] eqn:G; [|auto].
  destruct (TaskStatus_eqb (t_status t') PENDING) eqn:E; [|auto].
  apply TaskStatus_eqb_eq in E.
  pose proof (inv_ids _ _ Hs _ _ G) as Hid.
  split.
  - apply assign_task_inv; auto. now rewrite Hid.
  - apply assign_task_get_other; [assumption|].
    rewrite Hid. intros ->. congruence.
Qed.

Lemma appended_no_quality_issue self e :
  count_if is_quality_issue (appended_signals self e) = 0%nat.
Proof.
  destruct e as [requirement priority req_id ids | task_id | task_id r signal_id
                | signal_id decision]; cbn [appended_signals]; try reflexivity.
  destruct (take_coroutine task_id Awaiting (loop self)) as [[c rest]|]; [|reflexivity].
  destruct (PyDict.get task_id (tasks self)) as [task|]; [|reflexivity].
  destruct (PyDict.get (co_agent c) (agents self)) as [agent|]; [|reflexivity].
  destruct (resume_signals_cases task agent r signal_id)
    as [(_ & d & _ & ->) | (_ & ->)]; reflexivity.
Qed.

Lemma run_no_quality_issue self events self' :
  run self events = Some self' ->
  count_if is_quality_issue (signals self) = 0%nat ->
  count_if is_quality_issue (signals self') = 0%nat.
Proof.
  revert self. induction events as [|e rest IH]; simpl; intros self H H0.
  - now injection H as <-.
  - destruct (step self e) as [mid|] eqn:E; [|discriminate].
    apply (IH mid H).
    rewrite (step_signals _ _ _ E), count_if_app, H0.
    apply appended_no_quality_issue.
Qed.

Lemma reachable_no_quality_issue self :
  reachable self -> count_if is_quality_issue (signals self) = 0%nat.
Proof.
  intros (path & pid & events & Hrun).
  eapply run_no_quality_issue; [exact Hrun | reflexivity].
Qed.

(** C1, as the code has it. Whenever [_execute_task] comes back from the
    bridge call of an in-progress task, whether the call raised, returned a
    result with success = false or succeeded, the task is marked completed:
    it is not blocked and not left pending. When the call raised, the
    output is the simulated output of the agent's type, and no output at
    all for an integrator or creative agent; a non-empty result, success =
    false included, is kept as the output. No task of a reachable state is
    blocked and no quality_issue signal is in its log. *)
Theorem failed_execution_is_marked_completed
        (self self' : OrchestratorCore) (task_id signal_id : string)
        (r : bridge_result) :
  reachable self ->
  step self (Resume task_id r signal_id) = Some self' ->
  exists task agent,
    PyDict.get task_id (tasks self) = Some task
    /\ t_status task = IN_PROGRESS
    /\ PyDict.get task_id (tasks self')
       = Some (set_completed (task_output task agent r) task)
    /\ t_status (set_completed (task_output task agent r) task) = COMPLETED
    /\ (r = Raised ->
        task_output task agent r
        = simulated_output (a_type agent) (t_description task))
    /\ (forall result, r = Returned result -> result <> [] ->
        task_output task agent r = Some result)
    /\ count_if is_quality_issue (signals self') = 0%nat
    /\ (forall k t, PyDict.get k (tasks self') = Some t -> t_status t <> BLOCKED).
Proof.
  intros Hreach Hstep.
  pose proof (reachable_inv _ Hreach) as HI.
  pose proof (reachable_step _ _ _ Hreach Hstep) as Hreach'.
  cbn [step] in Hstep.
  destruct (take_coroutine task_id Awaiting (loop self)) as [[c rest]|] eqn:T;
    [|discriminate].
  destruct (taken_task _ _ _ _ _ _ HI T) as ((task & G & Hst) & _ & _).
  rewrite G in Hstep.
  destruct (PyDict.get (co_agent c) (agents self)) as [agent|]; [|discriminate].
  injection Hstep as <-.
  exists task, agent.
  split; [exact G|]. split; [exact Hst|].
  split; [|split; [reflexivity|split; [|split; [|split]]]].
  - unfold _execute_task_resume, _log_event. cbn [tasks with_execution_log].
    assert (Hdone : Inv (with_agents
                          (with_tasks (with_loop self rest)
                             (PyDict.update (t_id task)
                                (set_completed (task_output task agent r))
                                (tasks (with_loop self rest))))
                          (PyDict.update (a_id agent) (set_agent "ready" None)
                             (agents self)))).
    { unfold Inv. cbn [tasks loop with_agents with_tasks with_loop].
      rewrite (inv_ids _ _ HI _ _ G). eapply inv_complete; eauto. }
    assert (Hget : forall s, tasks s = PyDict.update (t_id task)
                     (set_completed (task_output task agent r)) (tasks self) ->
                   PyDict.get task_id (tasks s)
                   = Some (set_completed (task_output task agent r) task)).
    { intros s ->. rewrite (inv_ids _ _ HI _ _ G), get_update_eq, G. reflexivity. }
    destruct (PyStr.contains "decisions_needed"
                (PyRepr.str_output (task_output task agent r)));
      (apply check_pending_keeps; [exact Hdone | now apply Hget | discriminate]).
  - intros ->. unfold task_output. cbn [truthy negb].
    destruct (simulated_output (a_type agent) (t_description task)); reflexivity.
  - intros result -> Hne. unfold task_output.
    destruct result as [|kv result]; [congruence | reflexivity].
  - now apply reachable_no_quality_issue.
  - intros k t Hk. exact (proj1 (inv_status _ _ (reachable_inv _ Hreach') k t Hk)).
Qed.

Lemma failed_execution_is_marked_completed_witness :
  reachable demo_started
  /\ step demo_started (Resume "t1" (Returned failed_result) "s1") = Some demo_failed
  /\ count_if is_quality_issue (signals demo_failed) = 0%nat.
Proof.
  assert (H1 : reachable demo_started) by exact demo_started_reachable.
  assert (H2 : step demo_started (Resume "t1" (Returned failed_result) "s1")
               = Some demo_failed) by (vm_compute; reflexivity).
  split; [exact H1 | split; [exact H2|]].
  destruct (failed_execution_is_marked_completed _ _ _ _ _ H1 H2)
    as (task & agent & _ & _ & _ & _ & _ & _ & Hq & _).
  exact Hq.
Defined.

(** C1 as stated fails. A worker call that returns success = false leaves
    the task completed, with the failed result as its output and no
    quality_issue signal; a worker call that raises for an integrator
    task, for which no simulated output exists, leaves the task completed
    with no output at all and no quality_issue signal. *)
Lemma failed_task_is_not_blocked :
  (exists self',
     run (init "/project" "p1")
         [Submit "Build a REST API for user management" 8 "r1"
                 ["t1"; "t2"; "t3"; "t4"];
          Start "t1";
          Resume "t1" (Returned failed_result) "s1"] = Some self'
     /\ option_map t_status (PyDict.get "t1" (tasks self')) = Some COMPLETED
     /\ option_map t_output (PyDict.get "t1" (tasks self')) = Some (Some failed_result)
     /\ count_if is_quality_issue (signals self') = 0%nat)
  /\ (let self' := _execute_task integrator_state integrator_task
                                 integrator_agent Raised "s1" in
      option_map t_status (PyDict.get "t9" (tasks self')) = Some COMPLETED
      /\ option_map t_output (PyDict.get "t9" (tasks self')) = Some None
      /\ count_if is_quality_issue (signals self') = 0%nat).
Proof.
  split.
  - eexists. split; [vm_compute; reflexivity|]. vm_compute. repeat split.
  - vm_compute. repeat split.
Qed.

(* ------------------------------------------------------------------ *)
(** ** Context propagation *)

(** The context dict a connector receives from [_execute_task] of the
    engine: the request has no ["context"] key, so it is the default
    [{}]. *)
Lemma engine_context_is_empty (task : Task) (agent : Agent) :
  worker_context (bridge_request task agent) = PDict [].
Proof. reflexivity. Qed.

(** No agent id of the roster contains the word the API server looks for. *)
Lemma roster_has_no_implementer_id :
  forallb (fun agent_id => negb (PyStr.contains "implementer" agent_id))
          (PyDict.keys _initialize_agents) = true.
Proof. reflexivity. Qed.

Lemma implementer_tasks_of_roster (requirement_tasks : list Task) :
  (forall t, In t requirement_tasks -> assigned_in_roster t) ->
  implementer_tasks requirement_tasks = None
  \/ implementer_tasks requirement_tasks = Some [].
Proof.
  induction requirement_tasks as [|t r IH]; intro H; [now right|].
  cbn [implementer_tasks]. unfold assigned_contains.
  destruct (t_assigned_to t) as [agent_id|] eqn:A; [|now left].
  assert (Hno : PyStr.contains "implementer" agent_id = false).
  { pose proof roster_has_no_implementer_id as R.
    rewrite forallb_forall in R.
    apply negb_true_iff, R, (H t (or_introl eq_refl)), A. }
  rewrite Hno.
  destruct IH as [-> | ->]; [intros; apply H; now right | now left | now right].
Qed.

(** For tasks assigned by the engine, the context built by the API server
    never holds the implementer's result. *)
Lemma api_context_without_implementer_result
      (requirement_id : string) (task : Task) (requirement_tasks : list Task)
      (task_results : list (string * pydict)) (context : pydict) :
  (forall t, In t requirement_tasks -> assigned_in_roster t) ->
  build_context requirement_id task requirement_tasks task_results = Some context ->
  PyDict.get "implementer_result" context = None.
Proof.
  intros Hroster. unfold build_context.
  destruct (assigned_contains "validator" task) as [[|]|]; [| |discriminate].
  - destruct (implementer_tasks_of_roster _ Hroster) as [-> | ->]; [discriminate|].
    intros [= <-]. reflexivity.
  - intros [= <-]. reflexivity.
Qed.

(** C6 fails on the code. For the validation task of a requirement whose
    implementation task has been completed by [codex_impl], the engine
    hands the validator an empty context, and the API server a context
    with the requirement id and the priority only: the key
    [implementer_result] the validator reads is in neither. *)
Theorem validator_context_lacks_implementer_result :
  worker_context (bridge_request validation_task validator_agent) = PDict []
  /\ build_context "r1" validation_task requirement_tasks_r1 task_results_r1
     = Some [("requirement_id", PStr "r1"); ("priority", PInt 6)]
  /\ PyDict.get "t3" task_results_r1 = Some implementer_result
  /\ implementer_tasks requirement_tasks_r1 = Some []
  /\ worker_context
       (api_request validation_task
          [("requirement_id", PStr "r1"); ("priority", PInt 6)])
     = PDict [("requirement_id", PStr "r1"); ("priority", PInt 6)].
Proof. repeat split. Qed.

(* ------------------------------------------------------------------ *)
(** ** A task map with a blocked task *)


Example health_scores :
  (_calculate_health_score one_pending == 85)%Q
  /\ (_calculate_health_score one_blocked == 75)%Q.
Proof. split; vm_compute; reflexivity. Qed.

(* ------------------------------------------------------------------ *)
(** ** The life cycle of a task *)

Lemma assign_task_moves self task k t :
  PyDict.get (t_id task) (tasks self) = Some task -> t_status task = PENDING ->
  PyDict.get k (tasks self) = Some t ->
  exists t', PyDict.get k (tasks (_assign_task self task)) = Some t'
             /\ (t' = t \/ (t_status t = PENDING
                            /\ exists agent_id, t' = set_assigned agent_id t)).
Proof.
  intros Htask Hpending Hget.
  destruct (assign_task_cases self task) as [-> | (aid & ag & _ & _ & ->)];
    [exists t; auto|].
  cbn [tasks].
  destruct (String.eqb_spec (t_id task) k) as [E|Hne].
  - rewrite E in *. rewrite get_update_eq, Hget. cbn.
    assert (t = task) by congruence. subst t.
    exists (set_assigned aid task). split; [reflexivity|]. right. eauto.
  - rewrite get_update_neq by assumption. exists t. auto.
Qed.

Lemma check_pending_moves self k t :
  Inv self -> PyDict.get k (tasks self) = Some t ->
  exists t', PyDict.get k (tasks (_check_pending_tasks self)) = Some t'
             /\ (t' = t \/ (t_status t = PENDING
                            /\ exists agent_id, t' = set_assigned agent_id t)).
Proof.
  intros HI Hget. unfold _check_pending_tasks.
  apply (fold_left_preserves
           (fun s => Inv s
                     /\ exists t', PyDict.get k (tasks s) = Some t'
                          /\ (t' = t \/ (t_status t = PENDING
                                         /\ exists agent_id, t' = set_assigned agent_id t)))).
  { split; [assumption|]. exists t. auto. }
  intros s k1 _ (Hs & t' & Ht' & Hmove).
  destruct (PyDict.get k1 (tasks s)) as [t1|] eqn:G; [|eauto].
  destruct (TaskStatus_eqb (t_status t1) PENDING) eqn:E; [|eauto].
  apply TaskStatus_eqb_eq in E.
  pose proof (inv_ids _ _ Hs _ _ G) as Hid.
  assert (G1 : PyDict.get (t_id t1) (tasks s) = Some t1) by now rewrite Hid.
  split; [now apply assign_task_inv|].
  destruct (String.eqb_spec k1 k) as [<-|Hne].
  - assert (t' = t1) by congruence. subst t'.
    destruct Hmove as [-> | (_ & a & ->)]; [|discriminate E].
    rewrite <- Hid. apply assign_task_moves; auto.
  - exists t'. split; [|assumption].
    apply assign_task_get_other; [assumption | congruence].
Qed.

(** Submitting a requirement leaves the tasks already in the map alone. *)
Lemma process_requirement_keeps self requirement priority req_id ids k t :
  fresh_ids self requirement ids = true ->
  PyDict.get k (tasks self) = Some t ->
  PyDict.get k (tasks (fst (process_requirement self requirement priority req_id ids)))
  = Some t.
Proof.
  intros Hfresh Hget.
  destruct (fresh_ids_spec _ _ _ Hfresh) as (_ & Hnone & Hids).
  unfold process_requirement, _log_event. cbn [fst tasks with_execution_log].
  apply (fold_left_preserves (fun s => PyDict.get k (tasks s) = Some t)).
  { exact Hget. }
  intros s task Hin Hs.
  assert (Hne : t_id task <> k).
  { intros E. assert (Hi : In (t_id task) ids) by (rewrite <- Hids; now apply in_map).
    specialize (Hnone _ Hi). congruence. }
  apply assign_task_get_other; [|congruence].
  cbn [tasks with_tasks]. now rewrite get_set_neq.
Qed.

Lemma step_moves self e self' k t :
  reachable self -> step self e = Some self' ->
  PyDict.get k (tasks self) = Some t ->
  exists t', PyDict.get k (tasks self') = Some t' /\ task_moves t t'.
Proof.
  intros Hreach Hstep Hget.
  pose proof (reachable_inv _ Hreach) as HI.
  destruct e as [requirement priority req_id ids | task_id | task_id r signal_id
                | signal_id decision]; cbn [step] in Hstep.
  - destruct (fresh_ids self requirement ids) eqn:F; [|discriminate].
    injection Hstep as <-. exists t. split; [|constructor].
    now apply process_requirement_keeps.
  - destruct (take_coroutine task_id Created (loop self)) as [[c rest]|] eqn:T;
      [|discriminate].
    destruct (taken_task _ _ _ _ _ _ HI T) as ((task & G & Hst) & _ & _).
    rewrite G in Hstep.
    destruct (PyDict.get (co_agent c) (agents self)) as [agent|]; [|discriminate].
    injection Hstep as <-.
    unfold _execute_task_begin, _log_event.
    cbn [tasks with_execution_log with_tasks with_loop].
    rewrite (inv_ids _ _ HI _ _ G).
    destruct (String.eqb_spec task_id k) as [<-|Hne].
    + rewrite get_update_eq, G. cbn. assert (t = task) by congruence. subst t.
      eexists. split; [reflexivity|]. now constructor.
    + rewrite get_update_neq by assumption. exists t. split; [assumption | constructor].
  - destruct (take_coroutine task_id Awaiting (loop self)) as [[c rest]|] eqn:T;
      [|discriminate].
    destruct (taken_task _ _ _ _ _ _ HI T) as ((task & G & Hst) & _ & _).
    rewrite G in Hstep.
    destruct (PyDict.get (co_agent c) (agents self)) as [agent|]; [|discriminate].
    injection Hstep as <-.
    unfold _execute_task_resume, _log_event. cbn [tasks with_execution_log].
    set (done := with_agents
                   (with_tasks (with_loop self rest)
                      (PyDict.update (t_id task)
                         (set_completed (task_output task agent r))
                         (tasks (with_loop self rest))))
                   (PyDict.update (a_id agent) (set_agent "ready" None)
                      (agents (with_tasks (with_loop self rest)
                                 (PyDict.update (t_id task)
                                    (set_completed (task_output task agent r))
                                    (tasks (with_loop self rest))))))).
    assert (Hdone : Inv done).
    { unfold Inv, done. cbn [tasks loop with_agents with_tasks with_loop].
      rewrite (inv_ids _ _ HI _ _ G). eapply inv_complete; eauto. }
    assert (Htasks : tasks done = PyDict.update task_id
                       (set_completed (task_output task agent r)) (tasks self)).
    { unfold done. cbn [tasks with_agents with_tasks with_loop].
      now rewrite (inv_ids _ _ HI _ _ G). }
    assert (Hsame : forall s, tasks s = tasks done -> loop s = loop done ->
              exists t', PyDict.get k (tasks (_check_pending_tasks s)) = Some t'
                         /\ task_moves t t').
    { intros s Ht Hl.
      assert (Hs : Inv s) by (unfold Inv; rewrite Ht, Hl; exact Hdone).
      destruct (String.eqb_spec task_id k) as [<-|Hne].
      - assert (t = task) by congruence. subst t.
        exists (set_completed (task_output task agent r) task).
        split; [|now constructor].
        apply check_pending_keeps; [assumption | | discriminate].
        rewrite Ht, Htasks, get_update_eq, G. reflexivity.
      - assert (Hk : PyDict.get k (tasks s) = Some t).
        { rewrite Ht, Htasks. now rewrite get_update_neq. }
        destruct (check_pending_moves s k t Hs Hk) as (t' & Ht' & [-> | (Hp & a & ->)]).
        + exists t. split; [assumption | constructor].
        + eexists. split; [eassumption | now constructor]. }
    fold done.
    destruct (PyStr.contains "decisions_needed"
                (PyRepr.str_output (task_output task agent r)));
      apply Hsame; reflexivity.
  - injection Hstep as <-. exists t. split; [|constructor].
    unfold make_decision. destruct (find _ (signals self)); exact Hget.
Qed.

(** Every event moves each task of the map at most one stage along
    pending, assigned, in progress, completed; no task leaves the map, and
    a completed task is left exactly as it is. *)
Theorem task_life_cycle (self self' : OrchestratorCore) (e : event)
        (k : string) (t : Task) :
  reachable self -> step self e = Some self' ->
  PyDict.get k (tasks self) = Some t ->
  exists t', PyDict.get k (tasks self') = Some t'
             /\ task_moves t t'
             /\ t_id t' = t_id t
             /\ t_description t' = t_description t
             /\ t_agent_type t' = t_agent_type t
             /\ t_priority t' = t_priority t
             /\ t_dependencies t' = t_dependencies t
             /\ (t_status t = COMPLETED -> t' = t).
Proof.
  intros Hreach Hstep Hget.
  destruct (step_moves _ _ _ _ _ Hreach Hstep Hget) as (t' & Ht' & Hmove).
  exists t'. split; [assumption|]. split; [assumption|].
  destruct Hmove; repeat split; intros; try reflexivity; congruence.
Qed.

Lemma task_life_cycle_witness :
  reachable demo_started
  /\ step demo_started (Resume "t1" Raised "s1") = Some demo_resumed
  /\ exists t', PyDict.get "t2" (tasks demo_resumed) = Some t'
                /\ t_status t' = ASSIGNED.
Proof.
  assert (H1 : reachable demo_started) by exact demo_started_reachable.
  assert (H2 : step demo_started (Resume "t1" Raised "s1") = Some demo_resumed)
    by (vm_compute; reflexivity).
  split; [exact H1 | split; [exact H2|]].
  destruct (task_life_cycle demo_started demo_resumed _ "t2"
              (new_Task "t2" "Create implementation plan for: Build a REST API for user management"
                        ANALYST 8 ["t1"]) H1 H2)
    as (t' & Hget & _).
  { vm_compute. reflexivity. }
  exists t'. split; [exact Hget|].
  vm_compute in Hget. injection Hget as <-. reflexivity.
Defined.

Lemma run_keeps_completed self events self' k t :
  reachable self -> run self events = Some self' ->
  PyDict.get k (tasks self) = Some t -> t_status t = COMPLETED ->
  PyDict.get k (tasks self') = Some t.
Proof.
  revert self. induction events as [|e rest IH]; simpl; intros self Hreach Hrun Hget Hst.
  - now injection Hrun as <-.
  - destruct (step self e) as [mid|] eqn:E; [|discriminate].
    destruct (step_moves _ _ _ _ _ Hreach E Hget) as (t' & Ht' & Hmove).
    assert (t' = t) by (destruct Hmove; congruence). subst t'.
    apply (IH mid); [eapply reachable_step; eauto | assumption..].
Qed.

(** Completed is final: over any run, a completed task keeps its status,
    its output and its assigned worker. *)
Theorem completed_is_final (self self' : OrchestratorCore) (events : list event)
        (k : string) (t : Task) :
  reachable self -> run self events = Some self' ->
  PyDict.get k (tasks self) = Some t -> t_status t = COMPLETED ->
  PyDict.get k (tasks self') = Some t.
Proof. apply run_keeps_completed. Qed.

Lemma completed_is_final_witness :
  reachable demo_state
  /\ run demo_state [Start "t2"; Resume "t2" Raised "s2"; Decide "s1" "postgres"]
     <> None
  /\ option_map t_status
       (PyDict.get "t1"
          (tasks match run demo_state [Start "t2"; Resume "t2" Raised "s2";
                                       Decide "s1" "postgres"] with
                 | Some s => s | None => demo_state end))
     = Some COMPLETED.
Proof.
  split; [exact demo_state_reachable|]. split; [vm_compute; discriminate|].
  destruct (run demo_state [Start "t2"; Resume "t2" Raised "s2"; Decide "s1" "postgres"])
    as [s|] eqn:R; [|vm_compute in R; discriminate R].
  destruct (PyDict.get "t1" (tasks demo_state)) as [t|] eqn:G;
    [|vm_compute in G; discriminate G].
  assert (Hst : t_status t = COMPLETED).
  { vm_compute in G. injection G as <-. reflexivity. }
  rewrite (completed_is_final demo_state s _ "t1" t demo_state_reachable R G Hst).
  cbn. now rewrite Hst.
Defined.

(* ------------------------------------------------------------------ *)
(** ** The task map as a dict: keys are unique *)

Lemma keys_set {V : Type} (k : string) (v : V) (d : list (string * V)) :
  PyDict.keys (PyDict.set k v d)
  = if PyDict.mem k d then PyDict.keys d else PyDict.keys d ++ [k].
Proof.
  unfold PyDict.keys, PyDict.mem.
  induction d as [|[k' v'] r IH]; cbn; [reflexivity|].
  destruct (String.eqb k k') eqn:E; cbn; [reflexivity|].
  rewrite IH. destruct (PyDict.get k r); reflexivity.
Qed.

Lemma get_none_not_in_keys {V : Type} (k : string) (d : list (string * V)) :
  PyDict.get k d = None -> ~ In k (PyDict.keys d).
Proof.
  intros Hnone Hin. destruct (in_keys_get k d Hin) as [v Hv]. congruence.
Qed.

Lemma nodup_keys_set {V : Type} (k : string) (v : V) (d : list (string * V)) :
  NoDup (PyDict.keys d) -> NoDup (PyDict.keys (PyDict.set k v d)).
Proof.
  intro Hnd. rewrite keys_set. unfold PyDict.mem.
  destruct (PyDict.get k d) eqn:G; [assumption|].
  apply nodup_snoc; [assumption | now apply get_none_not_in_keys].
Qed.

Lemma in_get {V : Type} (k : string) (v : V) (d : list (string * V)) :
  NoDup (PyDict.keys d) -> In (k, v) d -> PyDict.get k d = Some v.
Proof.
  unfold PyDict.keys.
  induction d as [|[k' v'] r IH]; cbn; intros Hnd Hin; [contradiction|].
  inversion Hnd as [|? ? Hnotin Hnd']; subst.
  destruct Hin as [[= -> ->] | Hin].
  - now rewrite String.eqb_refl.
  - destruct (String.eqb_spec k k') as [->|_]; [|auto].
    exfalso. apply Hnotin. apply in_map_iff. exists (k', v). auto.
Qed.

Lemma assign_task_keys self task :
  PyDict.keys (tasks (_assign_task self task)) = PyDict.keys (tasks self).
Proof.
  destruct (assign_task_cases self task) as [-> | (a & ag & _ & _ & ->)];
    [reflexivity | apply keys_update].
Qed.

Lemma check_pending_keys self :
  PyDict.keys (tasks (_check_pending_tasks self)) = PyDict.keys (tasks self).
Proof.
  unfold _check_pending_tasks.
  apply (fold_left_preserves
           (fun s => PyDict.keys (tasks s) = PyDict.keys (tasks self)));
    [reflexivity|].
  intros s k _ Hs.
  destruct (PyDict.get k (tasks s)) as [t|]; [|assumption].
  destruct (TaskStatus_eqb (t_status t) PENDING); [|assumption].
  now rewrite assign_task_keys.
Qed.

Lemma step_nodup_keys self e self' :
  NoDup (PyDict.keys (tasks self)) -> step self e = Some self' ->
  NoDup (PyDict.keys (tasks self')).
Proof.
  intro Hnd.
  destruct e as [requirement priority req_id ids | task_id | task_id r signal_id
                | signal_id decision]; cbn [step].
  - destruct (fresh_ids self requirement ids); [|discriminate].
    intros [= <-].
    unfold process_requirement, _log_event. cbn [fst tasks with_execution_log].
    apply (fold_left_preserves (fun s => NoDup (PyDict.keys (tasks s))));
      [exact Hnd|].
    intros s t _ Hs. rewrite assign_task_keys. cbn [tasks with_tasks].
    now apply nodup_keys_set.
  - destruct (take_coroutine task_id Created (loop self)) as [[c rest]|]; [|discriminate].
    destruct (PyDict.get task_id (tasks self)) as [task|]; [|discriminate].
    destruct (PyDict.get (co_agent c) (agents self)) as [agent|]; [|discriminate].
    intros [= <-]. unfold _execute_task_begin, _log_event.
    cbn [tasks with_execution_log with_tasks with_loop].
    now rewrite keys_update.
  - destruct (take_coroutine task_id Awaiting (loop self)) as [[c rest]|]; [|discriminate].
    destruct (PyDict.get task_id (tasks self)) as [task|]; [|discriminate].
    destruct (PyDict.get (co_agent c) (agents self)) as [agent|]; [|discriminate].
    intros [= <-]. unfold _execute_task_resume, _log_event.
    cbn [tasks with_execution_log]. rewrite check_pending_keys.
    destruct (PyStr.contains "decisions_needed"
                (PyRepr.str_output (task_output task agent r)));
      cbn [tasks _create_decision_signal with_signals with_agents with_tasks with_loop];
      now rewrite keys_update.
  - intros [= <-]. unfold make_decision.
    destruct (find _ (signals self)); exact Hnd.
Qed.

Lemma reachable_nodup_keys self :
  reachable self -> NoDup (PyDict.keys (tasks self)).
Proof.
  intros (path & pid & events & Hrun).
  assert (H0 : NoDup (PyDict.keys (tasks (init path pid)))) by constructor.
  revert H0 Hrun. generalize (init path pid).
  induction events as [|e rest IH]; simpl; intros s Hs Hrun.
  - now injection Hrun as <-.
  - destruct (step s e) as [mid|] eqn:E; [|discriminate].
    eapply IH; [eapply step_nodup_keys; eauto | exact Hrun].
Qed.

Lemma count_if_none {A : Type} (p : A -> bool) (xs : list A) :
  (forall x, In x xs -> p x = false) -> count_if p xs = 0%nat.
Proof.
  unfold count_if. induction xs as [|x r IH]; cbn; intro H; [reflexivity|].
  rewrite (H x (or_introl eq_refl)). apply IH. intros; apply H; now right.
Qed.

(** In every state an engine can reach, no task is blocked or in review,
    so the aggregator reports zero blocked tasks and the health score is
    85, whatever the workers returned. *)
Theorem reachable_health_is_baseline (self : OrchestratorCore) :
  reachable self ->
  (forall t, In t (PyDict.values (tasks self)) ->
             t_status t = PENDING \/ t_status t = ASSIGNED
             \/ t_status t = IN_PROGRESS \/ t_status t = COMPLETED)
  /\ ps_blocked (get_project_status self) = 0%nat
  /\ (ps_health_score (get_project_status self) == 85)%Q.
Proof.
  intro Hreach.
  pose proof (reachable_inv _ Hreach) as HI.
  pose proof (reachable_nodup_keys _ Hreach) as Hnd.
  assert (Hall : forall t, In t (PyDict.values (tasks self)) ->
                   t_status t <> BLOCKED /\ t_status t <> REVIEW).
  { intros t Hin. unfold PyDict.values in Hin.
    apply in_map_iff in Hin as ([k t'] & E & Hin). cbn in E. subst t'.
    apply (inv_status _ _ HI k). now apply in_get. }
  assert (Hblocked : blocked_count self = 0%nat).
  { unfold blocked_count. apply count_if_none. intros t Hin.
    destruct (Hall t Hin) as [Hb _]. unfold has_status.
    destruct (t_status t); try reflexivity. congruence. }
  split; [|split].
  - intros t Hin. destruct (Hall t Hin) as [Hb Hr].
    destruct (t_status t); auto; congruence.
  - exact Hblocked.
  - cbn [get_project_status ps_health_score]. rewrite health_score_raw.
    unfold raw_score. rewrite Hblocked.
    unfold of_nat at 1. cbn [Z.of_nat]. unfold Qdiv. rewrite Qmult_0_l.
    reflexivity.
Qed.

Lemma reachable_health_is_baseline_witness :
  reachable demo_state
  /\ (ps_health_score (get_project_status demo_state) == 85)%Q.
Proof.
  split; [exact demo_state_reachable|].
  exact (proj2 (proj2 (reachable_health_is_baseline demo_state demo_state_reachable))).
Defined.

(* ------------------------------------------------------------------ *)
(** ** Counts and progress *)



(* ------------------------------------------------------------------ *)
(** ** Workers and the tasks they run *)

Lemma AgentType_eqb_eq (a b : AgentType) : AgentType_eqb a b = true <-> a = b.
Proof. destruct a, b; simpl; split; intro H; congruence. Qed.

Lemma roster_keys_nodup : NoDup (PyDict.keys _initialize_agents).
Proof. apply nodupb_NoDup. reflexivity. Qed.

Lemma roster_agent_id k a :
  PyDict.get k _initialize_agents = Some a -> a_id a = k.
Proof.
  unfold _initialize_agents. cbn [PyDict.get].
  repeat match goal with
         | |- context [String.eqb k ?s] =>
             destruct (String.eqb_spec k s) as [->|_];
             [intros [= <-]; reflexivity|]
         end.
  discriminate.
Qed.

Lemma find_agent_spec self task agent_id agent :
  NoDup (PyDict.keys (agents self)) ->
  find_agent self task = Some (agent_id, agent) ->
  PyDict.get agent_id (agents self) = Some agent
  /\ a_type agent = t_agent_type task
  /\ a_status agent = "ready".
Proof.
  intros Hnd Hfind. unfold find_agent in Hfind.
  apply find_some in Hfind as [Hin Hp].
  apply andb_true_iff in Hp as [Ht Hs].
  split; [now apply in_get|].
  split; [now apply AgentType_eqb_eq | now apply String.eqb_eq].
Qed.

Lemma roster_agents_nodup self :
  roster_invariant self -> NoDup (PyDict.keys (agents self)).
Proof. intro HR. rewrite (ri_keys _ HR). apply roster_keys_nodup. Qed.

Lemma roster_agent_key self k a :
  roster_invariant self -> PyDict.get k (agents self) = Some a -> a_id a = k.
Proof.
  intros HR Hk. apply (roster_agent_id k (set_agent "ready" None a)).
  now apply (ri_static _ HR).
Qed.

Lemma loop_task_not_pending self c task :
  Inv self -> In c (loop self) ->
  PyDict.get (co_task c) (tasks self) = Some task -> t_status task <> PENDING.
Proof.
  intros HI Hc Hget. destruct (inv_loop _ _ HI c Hc) as (t' & Ht' & Hst).
  assert (t' = task) by congruence. subst t'.
  rewrite Hst. destruct (co_phase c); discriminate.
Qed.

Lemma assign_task_roster self task :
  Inv self -> roster_invariant self ->
  PyDict.get (t_id task) (tasks self) = Some task -> t_status task = PENDING ->
  roster_invariant (_assign_task self task).
Proof.
  intros HI HR Hget Hpending.
  destruct (assign_task_cases self task) as [-> | (aid & ag & _ & Hfind & ->)];
    [assumption|].
  destruct (find_agent_spec _ _ _ _ (roster_agents_nodup _ HR) Hfind)
    as (Hag & Htype & Hready).
  assert (Hfree : forall c, In c (loop self) -> co_agent c <> aid).
  { intros c Hc E. destruct (ri_busy _ HR c Hc) as (t' & a' & _ & Ha' & Hw & _).
    rewrite E, Hag in Ha'. injection Ha' as <-. rewrite Hready in Hw. discriminate. }
  assert (Hother : forall c, In c (loop self) -> co_task c <> t_id task).
  { intros c Hc E. rewrite <- E in Hget.
    now apply (loop_task_not_pending self c task HI Hc Hget). }
  constructor; cbn [agents tasks loop].
  - rewrite keys_update. apply (ri_keys _ HR).
  - intros k a Hk. destruct (String.eqb_spec aid k) as [<-|Hne].
    + rewrite get_update_eq, Hag in Hk. injection Hk as <-.
      exact (ri_static _ HR aid ag Hag).
    + rewrite get_update_neq in Hk by assumption. now apply (ri_static _ HR).
  - intros c Hc. apply in_app_or in Hc as [Hc | [<- | []]].
    + destruct (ri_busy _ HR c Hc) as (t' & a' & Ht' & Ha' & Hrest).
      exists t', a'.
      rewrite !get_update_neq by (apply not_eq_sym; auto). auto.
    + cbn [co_task co_agent].
      exists (set_assigned aid task), (set_agent "working" (Some (t_id task)) ag).
      rewrite !get_update_eq, Hget, Hag. cbn. repeat split; auto.
  - intros k a Hk Hnone.
    assert (Hne : aid <> k).
    { intros <-. apply (Hnone (mkCoroutine (t_id task) aid Created));
        [apply in_or_app; right; now left | reflexivity]. }
    rewrite get_update_neq in Hk by assumption.
    apply (ri_idle _ HR k a Hk). intros c Hc. apply Hnone, in_or_app. now left.
  - rewrite map_app. cbn. apply nodup_snoc; [apply (ri_one _ HR)|].
    intro Hin. apply in_map_iff in Hin as (c & E & Hc). now apply (Hfree c).
Qed.

Lemma check_pending_roster self :
  Inv self -> roster_invariant self ->
  roster_invariant (_check_pending_tasks self).
Proof.
  intros HI HR. unfold _check_pending_tasks.
  apply (fold_left_preserves (fun s => Inv s /\ roster_invariant s)); [auto|].
  intros s k _ [Hs Hr].
  destruct (PyDict.get k (tasks s)) as [t|] eqn:G; [|auto].
  destruct (TaskStatus_eqb (t_status t) PENDING) eqn:E; [|auto].
  apply TaskStatus_eqb_eq in E.
  assert (G1 : PyDict.get (t_id t) (tasks s) = Some t)
    by now rewrite (inv_ids _ _ Hs _ _ G).
  split; [now apply assign_task_inv | now apply assign_task_roster].
Qed.

Lemma insert_roster self t :
  roster_invariant self -> PyDict.get (t_id t) (tasks self) = None ->
  roster_invariant (with_tasks self (PyDict.set (t_id t) t (tasks self))).
Proof.
  intros HR Hfresh.
  constructor; cbn [agents tasks loop with_tasks];
    try (apply HR; fail).
  intros c Hc. destruct (ri_busy _ HR c Hc) as (t' & a' & Ht' & Hrest).
  exists t', a'. split; [|exact Hrest].
  rewrite get_set_neq; [assumption | congruence].
Qed.

Lemma submit_fold_roster (new_tasks : list Task) (self : OrchestratorCore) :
  Inv self -> roster_invariant self -> NoDup (map t_id new_tasks) ->
  (forall t, In t new_tasks ->
             PyDict.get (t_id t) (tasks self) = None /\ t_status t = PENDING) ->
  roster_invariant
    (fold_left
       (fun self task =>
          let self := with_tasks self (PyDict.set (t_id task) task (tasks self)) in
          _assign_task self task)
       new_tasks self).
Proof.
  revert self. induction new_tasks as [|t rest IH]; intros self HI HR Hnd Hnew;
    [assumption|].
  cbn [fold_left]. cbn zeta.
  destruct (Hnew t (or_introl eq_refl)) as [Hfresh Hpending].
  inversion Hnd as [|? ? Hnotin Hnd']; subst.
  assert (HI1 : Inv (with_tasks self (PyDict.set (t_id t) t (tasks self)))).
  { unfold Inv. cbn [tasks loop with_tasks]. now apply inv_insert. }
  assert (G1 : PyDict.get (t_id t)
                 (tasks (with_tasks self (PyDict.set (t_id t) t (tasks self))))
               = Some t) by (cbn [tasks with_tasks]; apply get_set_eq).
  apply IH; [| | assumption |].
  - now apply assign_task_inv.
  - apply assign_task_roster; auto. now apply insert_roster.
  - intros t' Ht'. destruct (Hnew t' (or_intror Ht')) as [Hfresh' Hpending'].
    split; [|assumption].
    apply assign_task_get_none. cbn [tasks with_tasks].
    rewrite get_set_neq; [assumption|].
    intro E. apply Hnotin. rewrite E. now apply in_map.
Qed.

Lemma taken_agent self k ph c rest :
  roster_invariant self -> take_coroutine k ph (loop self) = Some (c, rest) ->
  NoDup (map co_agent rest)
  /\ (forall c', In c' rest -> In c' (loop self) /\ co_agent c' <> co_agent c)
  /\ In c (loop self)
  /\ (forall c', In c' (loop self) -> c' = c \/ In c' rest).
Proof.
  intros HR Htake.
  destruct (take_coroutine_spec _ _ _ _ _ Htake) as (_ & _ & HP).
  assert (Hnd : NoDup (map co_agent (c :: rest))).
  { eapply Permutation_NoDup; [apply Permutation_map; exact HP | apply (ri_one _ HR)]. }
  simpl in Hnd. inversion Hnd as [|? ? Hnotin Hnd']; subst.
  split; [assumption|]. split; [|split].
  - intros c' Hc'. split.
    + eapply Permutation_in; [symmetry; exact HP | now right].
    + intro E. apply Hnotin. rewrite <- E. now apply in_map.
  - eapply Permutation_in; [symmetry; exact HP | now left].
  - intros c' Hc'. apply (Permutation_in _ HP) in Hc'.
    destruct Hc' as [<- | Hc']; auto.
Qed.

Lemma begin_roster self task_id c rest task :
  Inv self -> roster_invariant self ->
  take_coroutine task_id Created (loop self) = Some (c, rest) ->
  PyDict.get task_id (tasks self) = Some task ->
  roster_invariant
    (with_tasks (with_loop self (rest ++ [mkCoroutine task_id (co_agent c) Awaiting]))
       (PyDict.update task_id (set_status IN_PROGRESS) (tasks self))).
Proof.
  intros HI HR Htake Hget.
  destruct (take_coroutine_spec _ _ _ _ _ Htake) as (Hk & _ & _).
  destruct (taken_task _ _ _ _ _ _ HI Htake) as (_ & _ & Htasks).
  destruct (taken_agent _ _ _ _ _ HR Htake) as (Hnd & Hagents & Hc & Hall).
  constructor; cbn [agents tasks loop with_tasks with_loop].
  - apply (ri_keys _ HR).
  - apply (ri_static _ HR).
  - intros c' Hc'. apply in_app_or in Hc' as [Hc' | [<- | []]].
    + destruct (Hagents _ Hc') as [Hin _]. destruct (Htasks _ Hc') as [_ Hne].
      destruct (ri_busy _ HR c' Hin) as (t' & a' & Ht' & Hrest).
      exists t', a'. split; [|exact Hrest].
      rewrite get_update_neq; [assumption | congruence].
    + cbn [co_task co_agent].
      destruct (ri_busy _ HR c Hc) as (t' & a' & Ht' & Ha' & Hw & Hcur & Has & Hty).
      rewrite Hk in Ht', Hcur. assert (t' = task) by congruence. subst t'.
      exists (set_status IN_PROGRESS task), a'.
      rewrite get_update_eq, Hget. cbn. repeat split; auto.
  - intros k a Hka Hnone. apply (ri_idle _ HR k a Hka).
    intros c' Hc'. destruct (Hall _ Hc') as [-> | Hr].
    + apply (Hnone (mkCoroutine task_id (co_agent c) Awaiting)).
      apply in_or_app. right. now left.
    + apply Hnone, in_or_app. now left.
  - rewrite map_app. cbn. apply nodup_snoc; [assumption|].
    intro Hin. apply in_map_iff in Hin as (c' & E & Hc').
    now destruct (Hagents _ Hc').
Qed.

Lemma complete_roster self task_id c rest task agent output :
  Inv self -> roster_invariant self ->
  take_coroutine task_id Awaiting (loop self) = Some (c, rest) ->
  PyDict.get task_id (tasks self) = Some task ->
  PyDict.get (co_agent c) (agents self) = Some agent ->
  roster_invariant
    (with_agents
       (with_tasks (with_loop self rest)
          (PyDict.update task_id (set_completed output) (tasks self)))
       (PyDict.update (a_id agent) (set_agent "ready" None) (agents self))).
Proof.
  intros HI HR Htake Hget Hag.
  destruct (taken_task _ _ _ _ _ _ HI Htake) as (_ & _ & Htasks).
  destruct (taken_agent _ _ _ _ _ HR Htake) as (Hnd & Hagents & Hc & Hall).
  rewrite (roster_agent_key _ _ _ HR Hag).
  constructor; cbn [agents tasks loop with_agents with_tasks with_loop].
  - rewrite keys_update. apply (ri_keys _ HR).
  - intros k a Hk. destruct (String.eqb_spec (co_agent c) k) as [<-|Hne].
    + rewrite get_update_eq, Hag in Hk. injection Hk as <-.
      exact (ri_static _ HR _ _ Hag).
    + rewrite get_update_neq in Hk by assumption. now apply (ri_static _ HR).
  - intros c' Hc'.
    destruct (Hagents _ Hc') as [Hin Hne]. destruct (Htasks _ Hc') as [_ Hne'].
    destruct (ri_busy _ HR c' Hin) as (t' & a' & Ht' & Ha' & Hrest).
    exists t', a'.
    rewrite !get_update_neq by congruence. auto.
  - intros k a Hk Hnone. destruct (String.eqb_spec (co_agent c) k) as [<-|Hne].
    + rewrite get_update_eq, Hag in Hk. injection Hk as <-. split; reflexivity.
    + rewrite get_update_neq in Hk by assumption.
      apply (ri_idle _ HR k a Hk).
      intros c' Hc'. destruct (Hall _ Hc') as [-> | Hr]; auto.
  - assumption.
Qed.

Lemma roster_same self other :
  agents other = agents self -> tasks other = tasks self -> loop other = loop self ->
  roster_invariant self -> roster_invariant other.
Proof.
  intros Ha Ht Hl HR.
  constructor; rewrite ?Ha, ?Ht, ?Hl; apply HR.
Qed.

Lemma inv_same self other :
  tasks other = tasks self -> loop other = loop self -> Inv self -> Inv other.
Proof. intros Ht Hl HI. unfold Inv. now rewrite Ht, Hl. Qed.

Lemma step_roster self e self' :
  Inv self -> roster_invariant self -> step self e = Some self' ->
  roster_invariant self'.
Proof.
  intros HI HR.
  destruct e as [requirement priority req_id ids | task_id | task_id r signal_id
                | signal_id decision]; cbn [step].
  - destruct (fresh_ids self requirement ids) eqn:F; [|discriminate].
    intros [= <-].
    destruct (fresh_ids_spec _ _ _ F) as (Hnd & Hnone & Hids).
    unfold process_requirement, _log_event. cbn [fst].
    match goal with
    | |- roster_invariant (with_execution_log ?s _) =>
        apply (roster_same s); [reflexivity..|]
    end.
    apply submit_fold_roster.
    + eapply inv_same; [| |exact HI]; reflexivity.
    + eapply roster_same; [| | |exact HR]; reflexivity.
    + now rewrite Hids.
    + intros t Ht. split; [|eapply decompose_pending; eauto].
      cbn [tasks with_signals]. apply Hnone. rewrite <- Hids. now apply in_map.
  - destruct (take_coroutine task_id Created (loop self)) as [[c rest]|] eqn:T;
      [|discriminate].
    destruct (PyDict.get task_id (tasks self)) as [task|] eqn:G; [|discriminate].
    destruct (PyDict.get (co_agent c) (agents self)) as [agent|]; [|discriminate].
    intros [= <-]. unfold _execute_task_begin, _log_event.
    eapply roster_same; [..|eapply (begin_roster self task_id c rest task); eauto];
      cbn [agents tasks loop with_execution_log with_tasks with_loop];
      rewrite ?(inv_ids _ _ HI _ _ G); reflexivity.
  - destruct (take_coroutine task_id Awaiting (loop self)) as [[c rest]|] eqn:T;
      [|discriminate].
    destruct (PyDict.get task_id (tasks self)) as [task|] eqn:G; [|discriminate].
    destruct (PyDict.get (co_agent c) (agents self)) as [agent|] eqn:A; [|discriminate].
    intros [= <-]. unfold _execute_task_resume, _log_event.
    pose proof (complete_roster self task_id c rest task agent
                  (task_output task agent r) HI HR T G A) as Hdone.
    assert (Hinv : Inv (with_agents
                          (with_tasks (with_loop self rest)
                             (PyDict.update task_id
                                (set_completed (task_output task agent r))
                                (tasks self)))
                          (PyDict.update (a_id agent) (set_agent "ready" None)
                             (agents self)))).
    { unfold Inv. cbn [tasks loop with_agents with_tasks with_loop].
      eapply inv_complete; eauto. }
    match goal with
    | |- roster_invariant (with_execution_log ?s _) =>
        apply (roster_same s); [reflexivity..|]
    end.
    destruct (PyStr.contains "decisions_needed"
                (PyRepr.str_output (task_output task agent r)));
      (apply check_pending_roster;
       [eapply inv_same; [| |exact Hinv] | eapply roster_same; [| | |exact Hdone]];
       cbn [agents tasks loop _create_decision_signal with_signals with_agents
              with_tasks with_loop];
       rewrite ?(inv_ids _ _ HI _ _ G); reflexivity).
  - intros [= <-]. unfold make_decision.
    destruct (find _ (signals self)); [|exact HR].
    eapply roster_same; [| | |exact HR]; reflexivity.
Qed.

Lemma init_roster path pid : roster_invariant (init path pid).
Proof.
  constructor; cbn [agents tasks loop init]; try contradiction.
  - reflexivity.
  - intros k a. unfold _initialize_agents. cbn [PyDict.get].
    repeat match goal with
           | |- context [String.eqb k ?s] =>
               destruct (String.eqb_spec k s) as [->|_];
               [intros [= <-]; reflexivity|]
           end.
    discriminate.
  - intros k a. unfold _initialize_agents. cbn [PyDict.get].
    repeat match goal with
           | |- context [String.eqb k ?s] =>
               destruct (String.eqb_spec k s) as [->|_];
               [intros [= <-] _; split; reflexivity|]
           end.
    discriminate.
  - constructor.
Qed.

Lemma reachable_roster self : reachable self -> roster_invariant self.
Proof.
  intros (path & pid & events & Hrun).
  pose proof (init_inv path pid) as HI. pose proof (init_roster path pid) as HR.
  revert HI HR Hrun. generalize (init path pid).
  induction events as [|e rest IH]; simpl; intros s HI HR Hrun.
  - now injection Hrun as <-.
  - destruct (step s e) as [mid|] eqn:E; [|discriminate].
    eapply IH; [eapply step_inv; eauto | eapply step_roster; eauto | exact Hrun].
Qed.

(* ------------------------------------------------------------------ *)
(** ** Properties kept by every event *)

Section Preservation.
Variable P : OrchestratorCore -> Prop.

Hypothesis P_same :
  forall s s', agents s' = agents s -> tasks s' = tasks s -> loop s' = loop s ->
               P s -> P s'.
Hypothesis P_insert :
  forall s t, Inv s -> P s -> PyDict.get (t_id t) (tasks s) = None ->
              t_status t = PENDING -> decomposed_type (t_agent_type t) = true ->
              P (with_tasks s (PyDict.set (t_id t) t (tasks s))).
Hypothesis P_assign :
  forall s t, Inv s -> P s -> PyDict.get (t_id t) (tasks s) = Some t ->
              t_status t = PENDING -> P (_assign_task s t).
Hypothesis P_begin :
  forall s task_id c rest task,
    Inv s -> P s ->
    take_coroutine task_id Created (loop s) = Some (c, rest) ->
    PyDict.get task_id (tasks s) = Some task ->
    P (with_tasks (with_loop s (rest ++ [mkCoroutine task_id (co_agent c) Awaiting]))
         (PyDict.update task_id (set_status IN_PROGRESS) (tasks s))).
Hypothesis P_complete :
  forall s task_id c rest task agent r,
    Inv s -> P s ->
    take_coroutine task_id Awaiting (loop s) = Some (c, rest) ->
    PyDict.get task_id (tasks s) = Some task ->
    PyDict.get (co_agent c) (agents s) = Some agent ->
    P (with_agents
         (with_tasks (with_loop s rest)
            (PyDict.update task_id (set_completed (task_output task agent r))
               (tasks s)))
         (PyDict.update (a_id agent) (set_agent "ready" None) (agents s))).

Lemma check_pending_preserves self :
  Inv self -> P self -> Inv (_check_pending_tasks self) /\ P (_check_pending_tasks self).
Proof.
  intros HI HP. unfold _check_pending_tasks.
  apply (fold_left_preserves (fun s => Inv s /\ P s)); [auto|].
  intros s k _ [Hs Hp].
  destruct (PyDict.get k (tasks s)) as [t|] eqn:G; [|auto].
  destruct (TaskStatus_eqb (t_status t) PENDING) eqn:E; [|auto].
  apply TaskStatus_eqb_eq in E.
  assert (G1 : PyDict.get (t_id t) (tasks s) = Some t)
    by now rewrite (inv_ids _ _ Hs _ _ G).
  split; [now apply assign_task_inv | now apply P_assign].
Qed.

Lemma submit_fold_preserves (new_tasks : list Task) (self : OrchestratorCore) :
  Inv self -> P self -> NoDup (map t_id new_tasks) ->
  (forall t, In t new_tasks ->
             PyDict.get (t_id t) (tasks self) = None /\ t_status t = PENDING
             /\ decomposed_type (t_agent_type t) = true) ->
  P (fold_left
       (fun self task =>
          let self := with_tasks self (PyDict.set (t_id task) task (tasks self)) in
          _assign_task self task)
       new_tasks self).
Proof.
  revert self. induction new_tasks as [|t rest IH]; intros self HI HP Hnd Hnew;
    [assumption|].
  cbn [fold_left]. cbn zeta.
  destruct (Hnew t (or_introl eq_refl)) as (Hfresh & Hpending & Htype).
  inversion Hnd as [|? ? Hnotin Hnd']; subst.
  assert (HI1 : Inv (with_tasks self (PyDict.set (t_id t) t (tasks self)))).
  { unfold Inv. cbn [tasks loop with_tasks]. now apply inv_insert. }
  assert (G1 : PyDict.get (t_id t)
                 (tasks (with_tasks self (PyDict.set (t_id t) t (tasks self))))
               = Some t) by (cbn [tasks with_tasks]; apply get_set_eq).
  apply IH; [| | assumption |].
  - now apply assign_task_inv.
  - apply P_assign; auto.
  - intros t' Ht'. destruct (Hnew t' (or_intror Ht')) as (Hfresh' & Hpending' & Htype').
    split; [|split; assumption].
    apply assign_task_get_none. cbn [tasks with_tasks].
    rewrite get_set_neq; [assumption|].
    intro E. apply Hnotin. rewrite E. now apply in_map.
Qed.

Lemma decompose_types ids requirement t :
  In t (_decompose_requirement ids requirement) ->
  decomposed_type (t_agent_type t) = true.
Proof.
  unfold _decompose_requirement.
  destruct (needs_deep_reasoning requirement); simpl; intro H;
    repeat (destruct H as [<- | H]; [reflexivity|]); contradiction.
Qed.

Lemma step_preserves self e self' :
  Inv self -> P self -> step self e = Some self' -> P self'.
Proof.
  intros HI HP.
  destruct e as [requirement priority req_id ids | task_id | task_id r signal_id
                | signal_id decision]; cbn [step].
  - destruct (fresh_ids self requirement ids) eqn:F; [|discriminate].
    intros [= <-].
    destruct (fresh_ids_spec _ _ _ F) as (Hnd & Hnone & Hids).
    unfold process_requirement, _log_event. cbn [fst].
    match goal with
    | |- P (with_execution_log ?s _) => apply (P_same s); [reflexivity..|]
    end.
    apply submit_fold_preserves.
    + eapply inv_same; [| |exact HI]; reflexivity.
    + eapply P_same; [| | |exact HP]; reflexivity.
    + now rewrite Hids.
    + intros t Ht. split; [|split].
      * cbn [tasks with_signals]. apply Hnone. rewrite <- Hids. now apply in_map.
      * eapply decompose_pending; eauto.
      * eapply decompose_types; eauto.
  - destruct (take_coroutine task_id Created (loop self)) as [[c rest]|] eqn:T;
      [|discriminate].
    destruct (PyDict.get task_id (tasks self)) as [task|] eqn:G; [|discriminate].
    destruct (PyDict.get (co_agent c) (agents self)) as [agent|]; [|discriminate].
    intros [= <-]. unfold _execute_task_begin, _log_event.
    eapply P_same; [..|eapply (P_begin self task_id c rest task); eauto];
      cbn [agents tasks loop with_execution_log with_tasks with_loop];
      rewrite ?(inv_ids _ _ HI _ _ G); reflexivity.
  - destruct (take_coroutine task_id Awaiting (loop self)) as [[c rest]|] eqn:T;
      [|discriminate].
    destruct (PyDict.get task_id (tasks self)) as [task|] eqn:G; [|discriminate].
    destruct (PyDict.get (co_agent c) (agents self)) as [agent|] eqn:A; [|discriminate].
    intros [= <-]. unfold _execute_task_resume, _log_event.
    pose proof (P_complete self task_id c rest task agent r HI HP T G A) as Hdone.
    assert (Hinv : Inv (with_agents
                          (with_tasks (with_loop self rest)
                             (PyDict.update task_id
                                (set_completed (task_output task agent r))
                                (tasks self)))
                          (PyDict.update (a_id agent) (set_agent "ready" None)
                             (agents self)))).
    { unfold Inv. cbn [tasks loop with_agents with_tasks with_loop].
      eapply inv_complete; eauto. }
    match goal with
    | |- P (with_execution_log ?s _) => apply (P_same s); [reflexivity..|]
    end.
    destruct (PyStr.contains "decisions_needed"
                (PyRepr.str_output (task_output task agent r)));
      (apply check_pending_preserves;
       [eapply inv_same; [| |exact Hinv] | eapply P_same; [| | |exact Hdone]];
       cbn [agents tasks loop _create_decision_signal with_signals with_agents
              with_tasks with_loop];
       rewrite ?(inv_ids _ _ HI _ _ G); reflexivity).
  - intros [= <-]. unfold make_decision.
    destruct (find _ (signals self)); [|exact HP].
    eapply P_same; [| | |exact HP]; reflexivity.
Qed.

Lemma reachable_preserves self :
  (forall path pid, P (init path pid)) -> reachable self -> P self.
Proof.
  intros Hinit (path & pid & events & Hrun).
  pose proof (init_inv path pid) as HI. pose proof (Hinit path pid) as HP.
  revert HI HP Hrun. generalize (init path pid).
  induction events as [|e rest IH]; simpl; intros s HI HP Hrun.
  - now injection Hrun as <-.
  - destruct (step s e) as [mid|] eqn:E; [|discriminate].
    eapply IH; [eapply step_inv; eauto | eapply step_preserves; eauto | exact Hrun].
Qed.
End Preservation.

(* ------------------------------------------------------------------ *)
(** ** Active tasks and their workers *)

Lemma reachable_active self : reachable self -> active_invariant self.
Proof.
  apply (reachable_preserves active_invariant).
  - intros s s' _ Ht Hl H. unfold active_invariant. rewrite Ht, Hl. exact H.
  - intros s t _ H Hfresh Hpending _ k t' Hget Hact.
    cbn [tasks loop with_tasks] in *.
    destruct (String.eqb_spec (t_id t) k) as [<-|Hne].
    + rewrite get_set_eq in Hget. injection Hget as <-.
      rewrite Hpending in Hact. destruct Hact; discriminate.
    + rewrite get_set_neq in Hget by assumption. eauto.
  - intros s t _ H Hget Hpending.
    destruct (assign_task_cases s t) as [-> | (aid & ag & _ & _ & ->)];
      [assumption|].
    intros k t' Hk Hact. cbn [tasks loop] in *.
    destruct (String.eqb_spec (t_id t) k) as [<-|Hne].
    + eexists. split; [apply in_or_app; right; now left | reflexivity].
    + rewrite get_update_neq in Hk by assumption.
      destruct (H k t' Hk Hact) as (c & Hc & E).
      exists c. split; [apply in_or_app; now left | assumption].
  - intros s task_id c rest task HI H Htake Hget k t' Hk Hact.
    cbn [tasks loop with_tasks with_loop] in *.
    destruct (String.eqb_spec task_id k) as [<-|Hne].
    + eexists. split; [apply in_or_app; right; now left | reflexivity].
    + rewrite get_update_neq in Hk by assumption.
      destruct (H k t' Hk Hact) as (c' & Hc' & E).
      destruct (take_coroutine_spec _ _ _ _ _ Htake) as (Hc & _ & HP).
      apply (Permutation_in _ HP) in Hc'. destruct Hc' as [<- | Hc']; [congruence|].
      exists c'. split; [apply in_or_app; now left | assumption].
  - intros s task_id c rest task agent r HI H Htake Hget Hag k t' Hk Hact.
    cbn [tasks loop with_agents with_tasks with_loop] in *.
    destruct (String.eqb_spec task_id k) as [<-|Hne].
    + rewrite get_update_eq, Hget in Hk. injection Hk as <-.
      destruct Hact; discriminate.
    + rewrite get_update_neq in Hk by assumption.
      destruct (H k t' Hk Hact) as (c' & Hc' & E).
      destruct (take_coroutine_spec _ _ _ _ _ Htake) as (Hc & _ & HP).
      apply (Permutation_in _ HP) in Hc'. destruct Hc' as [<- | Hc']; [congruence|].
      exists c'. split; assumption.
  - intros path pid k t Hget. discriminate Hget.
Qed.

Lemma nodup_map_eq {A B : Type} (f : A -> B) (l : list A) (x y : A) :
  NoDup (map f l) -> In x l -> In y l -> f x = f y -> x = y.
Proof.
  induction l as [|a l IH]; cbn; intros Hnd Hx Hy E; [contradiction|].
  inversion Hnd as [|? ? Hnotin Hnd']; subst.
  destruct Hx as [-> | Hx], Hy as [-> | Hy]; auto.
  - exfalso. apply Hnotin. rewrite E. now apply in_map.
  - exfalso. apply Hnotin. rewrite <- E. now apply in_map.
Qed.

(** The worker of an active task. *)
Lemma active_task_worker self k t :
  reachable self -> PyDict.get k (tasks self) = Some t -> active t ->
  exists c agent,
    In c (loop self) /\ co_task c = k
    /\ t_assigned_to t = Some (co_agent c)
    /\ PyDict.get (co_agent c) (agents self) = Some agent
    /\ a_status agent = "working"
    /\ a_current_task agent = Some k
    /\ a_type agent = t_agent_type t.
Proof.
  intros Hreach Hget Hact.
  destruct (reachable_active _ Hreach k t Hget Hact) as (c & Hc & E).
  destruct (ri_busy _ (reachable_roster _ Hreach) c Hc)
    as (t' & a' & Ht' & Ha' & Hw & Hcur & Has & Hty).
  rewrite E in Ht', Hcur. assert (t' = t) by congruence. subst t'.
  exists c, a'. repeat split; auto.
Qed.

(** In every state an engine can reach, a worker runs one task at a
    time: two active (assigned or in progress) tasks never have the same
    worker; the worker of an active task is working, with that task as its
    current task, and is of the task's type; a working agent's current task
    is an active task assigned to it, and a ready agent has no current
    task. *)
Theorem one_task_per_worker (self : OrchestratorCore) :
  reachable self ->
  (forall k1 t1 k2 t2,
     PyDict.get k1 (tasks self) = Some t1 -> PyDict.get k2 (tasks self) = Some t2 ->
     active t1 -> active t2 -> t_assigned_to t1 = t_assigned_to t2 -> k1 = k2)
  /\ (forall k t,
        PyDict.get k (tasks self) = Some t -> active t ->
        exists agent_id agent,
          t_assigned_to t = Some agent_id
          /\ PyDict.get agent_id (agents self) = Some agent
          /\ a_status agent = "working"
          /\ a_current_task agent = Some k
          /\ a_type agent = t_agent_type t)
  /\ (forall agent_id agent,
        PyDict.get agent_id (agents self) = Some agent ->
        (a_status agent = "ready" /\ a_current_task agent = None)
        \/ (a_status agent = "working"
            /\ exists k t, a_current_task agent = Some k
                           /\ PyDict.get k (tasks self) = Some t
                           /\ active t
                           /\ t_assigned_to t = Some agent_id)).
Proof.
  intro Hreach.
  pose proof (reachable_roster _ Hreach) as HR.
  pose proof (reachable_inv _ Hreach) as HI.
  split; [|split].
  - intros k1 t1 k2 t2 H1 H2 A1 A2 E.
    destruct (active_task_worker _ _ _ Hreach H1 A1) as (c1 & a1 & Hc1 & E1 & W1 & _).
    destruct (active_task_worker _ _ _ Hreach H2 A2) as (c2 & a2 & Hc2 & E2 & W2 & _).
    assert (Hag : co_agent c1 = co_agent c2) by congruence.
    assert (c1 = c2) by (eapply nodup_map_eq; eauto; apply (ri_one _ HR)).
    congruence.
  - intros k t Hget Hact.
    destruct (active_task_worker _ _ _ Hreach Hget Hact)
      as (c & a & _ & _ & Has & Ha & Hw & Hcur & Hty).
    exists (co_agent c), a. repeat split; auto.
  - intros agent_id agent Hag.
    destruct (in_dec string_dec agent_id (map co_agent (loop self))) as [Hin | Hnot].
    + right. apply in_map_iff in Hin as (c & E & Hc).
      destruct (ri_busy _ HR c Hc) as (t & a & Ht & Ha & Hw & Hcur & Has & Hty).
      rewrite E in Ha, Has. assert (a = agent) by congruence. subst a.
      split; [assumption|]. exists (co_task c), t. repeat split; auto.
      destruct (inv_loop _ _ HI c Hc) as (t' & Ht' & Hst).
      assert (t' = t) by congruence. subst t'.
      unfold active. rewrite Hst. destruct (co_phase c); auto.
    + left. apply (ri_idle _ HR agent_id agent Hag).
      intros c Hc E. apply Hnot. rewrite <- E. now apply in_map.
Qed.

Lemma one_task_per_worker_witness :
  reachable demo_state
  /\ exists agent,
       PyDict.get "claude_analyst" (agents demo_state) = Some agent
       /\ a_current_task agent = Some "t2".
Proof.
  split; [exact demo_state_reachable|].
  destruct (proj1 (proj2 (one_task_per_worker demo_state demo_state_reachable))
              "t2" demo_planning) as (aid & agent & Has & Hag & _ & Hcur & _).
  - vm_compute. reflexivity.
  - left. vm_compute. reflexivity.
  - exists agent. vm_compute in Has. injection Has as <-. split; assumption.
Defined.

Lemma roster_agent_type k a :
  PyDict.get k _initialize_agents = Some a -> a_type a <> CREATIVE.
Proof.
  unfold _initialize_agents. cbn [PyDict.get].
  repeat match goal with
         | |- context [String.eqb k ?s] =>
             destruct (String.eqb_spec k s) as [->|_];
             [intros [= <-]; discriminate|]
         end.
  discriminate.
Qed.

(** The roster has no creative worker, and the roster never changes: in
    every state an engine can reach, [_assign_task] leaves a task of type
    creative as it is, so such a task stays pending for ever. *)
Theorem creative_task_is_never_assigned (self : OrchestratorCore) (task : Task) :
  reachable self -> t_agent_type task = CREATIVE ->
  _assign_task self task = self.
Proof.
  intros Hreach Htype.
  pose proof (reachable_roster _ Hreach) as HR.
  destruct (assign_task_cases self task) as [E | (aid & ag & _ & Hfind & _)];
    [exact E|].
  exfalso.
  destruct (find_agent_spec _ _ _ _ (roster_agents_nodup _ HR) Hfind)
    as (Hag & Hty & _).
  apply (roster_agent_type aid (set_agent "ready" None ag)).
  - now apply (ri_static _ HR).
  - cbn. congruence.
Qed.

Lemma creative_task_is_never_assigned_witness :
  reachable demo_state
  /\ _assign_task demo_state (new_Task "t9" "Design a logo" CREATIVE 5 []) = demo_state.
Proof.
  split; [exact demo_state_reachable|].
  exact (creative_task_is_never_assigned demo_state
           (new_Task "t9" "Design a logo" CREATIVE 5 []) demo_state_reachable eq_refl).
Defined.

(* ------------------------------------------------------------------ *)
(** ** Outputs of completed tasks *)

Lemma task_output_truthy task agent r :
  decomposed_type (a_type agent) = true ->
  truthy (task_output task agent r) = true.
Proof.
  intro Hty. unfold task_output.
  destruct r as [|result]; cbn [truthy negb].
  - unfold simulated_output. destruct (a_type agent); try discriminate Hty;
      try reflexivity.
    destruct (_ || _); reflexivity.
  - destruct result as [|kv result]; cbn [truthy negb]; [|reflexivity].
    unfold simulated_output. destruct (a_type agent); try discriminate Hty;
      try reflexivity.
    destruct (_ || _); reflexivity.
Qed.

Lemma reachable_outputs self :
  reachable self -> roster_invariant self /\ outputs_invariant self.
Proof.
  apply (reachable_preserves (fun s => roster_invariant s /\ outputs_invariant s)).
  - intros s s' Ha Ht Hl [HR HO]. split; [now apply (roster_same s)|].
    unfold outputs_invariant. rewrite Ht. exact HO.
  - intros s t _ [HR HO] Hfresh Hpending Htype.
    split; [now apply insert_roster|].
    intros k t' Hget. cbn [tasks with_tasks] in Hget.
    destruct (String.eqb_spec (t_id t) k) as [<-|Hne].
    + rewrite get_set_eq in Hget. injection Hget as <-.
      split; [assumption | congruence].
    + rewrite get_set_neq in Hget by assumption. eauto.
  - intros s t HI [HR HO] Hget Hpending.
    split; [now apply assign_task_roster|].
    destruct (assign_task_cases s t) as [-> | (aid & ag & _ & _ & ->)];
      [assumption|].
    intros k t' Hk. cbn [tasks] in Hk.
    destruct (String.eqb_spec (t_id t) k) as [<-|Hne].
    + rewrite get_update_eq, Hget in Hk. injection Hk as <-.
      split; [apply (HO _ _ Hget) | discriminate].
    + rewrite get_update_neq in Hk by assumption. eauto.
  - intros s task_id c rest task HI [HR HO] Htake Hget.
    split; [eapply begin_roster; eauto|].
    intros k t' Hk. cbn [tasks with_tasks with_loop] in Hk.
    destruct (String.eqb_spec task_id k) as [<-|Hne].
    + rewrite get_update_eq, Hget in Hk. injection Hk as <-.
      split; [apply (HO _ _ Hget) | discriminate].
    + rewrite get_update_neq in Hk by assumption. eauto.
  - intros s task_id c rest task agent r HI [HR HO] Htake Hget Hag.
    split; [eapply complete_roster; eauto|].
    intros k t' Hk. cbn [tasks with_agents with_tasks with_loop] in Hk.
    destruct (String.eqb_spec task_id k) as [<-|Hne].
    + rewrite get_update_eq, Hget in Hk. injection Hk as <-.
      split; [apply (HO _ _ Hget)|]. intros _. cbn [t_output set_completed].
      apply task_output_truthy.
      destruct (take_coroutine_spec _ _ _ _ _ Htake) as (Hc & _ & _).
      destruct (taken_agent _ _ _ _ _ HR Htake) as (_ & _ & Hin & _).
      destruct (ri_busy _ HR c Hin) as (t' & a' & Ht' & Ha' & _ & _ & _ & Hty).
      rewrite Hc in Ht'. assert (t' = task) by congruence.
      assert (a' = agent) by congruence. subst t' a'.
      rewrite Hty. apply (HO _ _ Hget).
    + rewrite get_update_neq in Hk by assumption. eauto.
  - intros path pid. split; [apply init_roster|].
    intros k t Hget. discriminate Hget.
Qed.

(** In every state an engine can reach, every task is of one of the four
    types the decomposer uses (analysis, deep reasoning, implementation,
    validation), and every completed task has an output that is a
    non-empty dict: the worker's result, or the simulated output when the
    call raised or returned an empty result. *)
Theorem completed_task_has_output (self : OrchestratorCore) (k : string) (t : Task) :
  reachable self -> PyDict.get k (tasks self) = Some t ->
  decomposed_type (t_agent_type t) = true
  /\ (t_status t = COMPLETED ->
      exists kv rest, t_output t = Some (kv :: rest)).
Proof.
  intros Hreach Hget.
  destruct (reachable_outputs _ Hreach) as [_ HO].
  destruct (HO k t Hget) as [Hty Hout].
  split; [assumption|]. intro Hst. specialize (Hout Hst).
  destruct (t_output t) as [[|kv rest]|]; try discriminate Hout. eauto.
Qed.

Lemma completed_task_has_output_witness :
  reachable demo_state
  /\ exists t, PyDict.get "t1" (tasks demo_state) = Some t
               /\ decomposed_type (t_agent_type t) = true.
Proof.
  split; [exact demo_state_reachable|].
  destruct (PyDict.get "t1" (tasks demo_state)) as [t|] eqn:G;
    [|vm_compute in G; discriminate G].
  exists t. split; [reflexivity|].
  exact (proj1 (completed_task_has_output demo_state "t1" t demo_state_reachable G)).
Defined.

(* ------------------------------------------------------------------ *)
(** ** Recording a decision *)

(** For a signal id of the log, [make_decision] returns true, creates the
    project context if there is none, and records the decision text with
    the payload of the first signal of that id under the signal id; the
    decisions recorded for other signals, the signal log, the tasks, the
    roster and the loop are unchanged, and one [decision_made] entry is
    appended to the execution log. A later decision for the same signal
    replaces the earlier one. *)
Theorem make_decision_records
        (self : OrchestratorCore) (signal_id decision : string) :
  In signal_id (map s_id (signals self)) ->
  let after := fst (make_decision self signal_id decision) in
  snd (make_decision self signal_id decision) = true
  /\ (exists signal,
        find (fun s => String.eqb (s_id s) signal_id) (signals self) = Some signal
        /\ In signal (signals self) /\ s_id signal = signal_id
        /\ PyDict.get signal_id (decisions after)
           = Some (mkDecision decision (s_data signal)))
  /\ (forall other, other <> signal_id ->
        PyDict.get other (decisions after) = PyDict.get other (decisions self))
  /\ (exists c, context after = Some c
                /\ c_project_id c = match context self with
                                    | Some c0 => c_project_id c0
                                    | None => project_id self
                                    end)
  /\ signals after = signals self /\ tasks after = tasks self
  /\ agents after = agents self /\ loop after = loop self
  /\ execution_log after
     = execution_log self
       ++ [mkLog "decision_made"
             [("signal_id", PStr signal_id); ("decision", PStr decision)]]
  /\ (forall decision2,
        exists signal,
          PyDict.get signal_id
            (decisions (fst (make_decision after signal_id decision2)))
          = Some (mkDecision decision2 (s_data signal))).
Proof.
  intros Hknown after.
  assert (Hfind : exists signal,
             find (fun s => String.eqb (s_id s) signal_id) (signals self) = Some signal).
  { destruct (find (fun s => String.eqb (s_id s) signal_id) (signals self))
      as [signal|] eqn:F; [eauto|].
    exfalso. apply in_map_iff in Hknown as (s & E & Hin).
    pose proof (find_none _ _ F s Hin) as Hn. cbn in Hn.
    rewrite E, String.eqb_refl in Hn. discriminate. }
  destruct Hfind as [signal F].
  assert (Hsig : signals after = signals self) by apply make_decision_signals.
  subst after. unfold make_decision in *. rewrite F in *.
  cbn [fst snd context signals tasks agents loop execution_log decisions
         with_context with_execution_log _log_event c_decisions c_project_id].
  split; [reflexivity|]. split; [|split; [|split; [|repeat split]]].
  - exists signal. split; [reflexivity|].
    destruct (find_some _ _ F) as [Hin Heq]. apply String.eqb_eq in Heq.
    repeat split; auto. apply get_set_eq.
  - intros other Hne. rewrite get_set_neq by congruence.
    unfold decisions. destruct (context self); reflexivity.
  - eexists. split; [reflexivity|]. cbn. destruct (context self); reflexivity.
  - intro decision2. exists signal. rewrite F.
    cbn [fst context decisions with_context with_execution_log _log_event c_decisions].
    apply get_set_eq.
Qed.

Lemma make_decision_records_witness :
  In "s1" (map s_id (signals demo_state))
  /\ snd (make_decision demo_state "s1" "postgres") = true.
Proof.
  assert (H : In "s1" (map s_id (signals demo_state)))
    by (vm_compute; right; left; reflexivity).
  split; [exact H|].
  exact (proj1 (make_decision_records demo_state "s1" "postgres" H)).
Defined.

(* ------------------------------------------------------------------ *)
(** ** Submitting a requirement *)

Lemma decompose_chained ids requirement :
  exists first rest,
    _decompose_requirement ids requirement = first :: rest
    /\ t_dependencies first = [] /\ t_status first = PENDING
    /\ t_agent_type first = ANALYST
    /\ chained (t_id first) rest.
Proof.
  unfold _decompose_requirement, last_id, first_id.
  destruct (needs_deep_reasoning requirement); cbn;
    eexists; eexists; (split; [reflexivity|]); cbn; repeat split.
Qed.

(** The tasks after the first of a chain stay as they are: the one before
    each of them is not completed. *)
Lemma submit_chain_stays (ts : list Task) :
  forall (self : OrchestratorCore) (prev : string) (p : Task),
    chained prev ts -> NoDup (prev :: map t_id ts) ->
    PyDict.get prev (tasks self) = Some p -> t_status p <> COMPLETED ->
    let self' :=
      fold_left
        (fun self task =>
           let self := with_tasks self (PyDict.set (t_id task) task (tasks self)) in
           _assign_task self task)
        ts self in
    (forall t, In t ts -> PyDict.get (t_id t) (tasks self') = Some t)
    /\ (forall k, ~ In k (map t_id ts) ->
                  PyDict.get k (tasks self') = PyDict.get k (tasks self))
    /\ loop self' = loop self /\ agents self' = agents self
    /\ signals self' = signals self.
Proof.
  induction ts as [|t rest IH]; intros self prev p Hchain Hnd Hprev Hp self'.
  - subst self'. cbn. repeat split; auto. contradiction.
  - destruct Hchain as (Hdeps & Hpending & Hchain).
    inversion Hnd as [|? ? Hnotin Hnd']; subst.
    assert (Hne : t_id t <> prev) by (intro E; apply Hnotin; left; exact E).
    set (s0 := with_tasks self (PyDict.set (t_id t) t (tasks self))).
    assert (Hs1 : _assign_task s0 t = s0).
    { apply assign_task_blocked_by_dependencies.
      apply (dependencies_unmet s0 t prev).
      - rewrite Hdeps. now left.
      - intros (dt & Hdt & Hst). unfold s0 in Hdt. cbn [tasks with_tasks] in Hdt.
        rewrite get_set_neq in Hdt by assumption. congruence. }
    subst self'. cbn [fold_left]. cbn zeta. fold s0. rewrite Hs1.
    assert (G0 : PyDict.get (t_id t) (tasks s0) = Some t)
      by (unfold s0; cbn [tasks with_tasks]; apply get_set_eq).
    assert (Hnc : t_status t <> COMPLETED) by congruence.
    pose proof (IH s0 (t_id t) t Hchain Hnd' G0 Hnc) as H.
    cbv zeta in H. destruct H as (Hin & Hout & Hl & Ha & Hs).
    inversion Hnd' as [|? ? Hnotin' _]; subst.
    split; [|split; [|split; [|split]]].
    + intros t' [<- | Ht']; [|now apply Hin].
      rewrite Hout by assumption. unfold s0. cbn [tasks with_tasks]. apply get_set_eq.
    + intros k Hk. cbn [map] in Hk.
      rewrite Hout by (intro; apply Hk; now right).
      unfold s0. cbn [tasks with_tasks]. apply get_set_neq.
      intro E. apply Hk. now left.
    + rewrite Hl. reflexivity.
    + rewrite Ha. reflexivity.
    + rewrite Hs. reflexivity.
Qed.

(** Submitting a requirement starts at most the analysis task: every
    other task of the batch is in the map exactly as the decomposer made it
    (pending, unassigned), the analysis task is assigned exactly when an
    analyst is ready, the loop gets at most that one coroutine, and the
    call returns the requirement id. *)
Theorem submit_starts_only_analysis
        (self : OrchestratorCore) (requirement : string) (priority : Z)
        (req_id : string) (ids : list string) :
  fresh_ids self requirement ids = true ->
  let after := fst (process_requirement self requirement priority req_id ids) in
  snd (process_requirement self requirement priority req_id ids) = req_id
  /\ exists first rest,
       _decompose_requirement ids requirement = first :: rest
       /\ (forall t, In t rest -> PyDict.get (t_id t) (tasks after) = Some t)
       /\ (forall k t, PyDict.get k (tasks self) = Some t ->
                       PyDict.get k (tasks after) = Some t)
       /\ match find_agent self first with
          | Some (agent_id, _) =>
              PyDict.get (t_id first) (tasks after)
              = Some (set_assigned agent_id first)
              /\ loop after = loop self ++ [mkCoroutine (t_id first) agent_id Created]
          | None =>
              PyDict.get (t_id first) (tasks after) = Some first
              /\ loop after = loop self
          end.
Proof.
  intros Hfresh after. split; [reflexivity|].
  destruct (fresh_ids_spec _ _ _ Hfresh) as (Hnd & Hnone & Hids).
  destruct (decompose_chained ids requirement)
    as (first & rest & Hdec & Hdeps & Hpending & _ & Hchain).
  exists first, rest. split; [exact Hdec|].
  rewrite Hdec in Hids. cbn [map] in Hids.
  assert (Hnd' : NoDup (t_id first :: map t_id rest)) by now rewrite Hids.
  subst after. unfold process_requirement, _log_event.
  cbn [fst tasks loop with_execution_log]. rewrite Hdec. cbn [fold_left]. cbn zeta.
  set (s0 := with_tasks
               (with_signals self
                  (signals self ++
                   [mkSignal req_id REQUIREMENT (Some "user")
                      [("content", PStr requirement); ("priority", PInt priority)]]))
               (PyDict.set (t_id first) first (tasks self))).
  assert (Hmet : _dependencies_met s0 first = true).
  { unfold _dependencies_met. now rewrite Hdeps. }
  assert (Hfa : find_agent s0 first = find_agent self first) by reflexivity.
  assert (Hfirst0 : PyDict.get (t_id first) (tasks s0) = Some first).
  { unfold s0. cbn [tasks with_tasks]. apply get_set_eq. }
  set (s1 := _assign_task s0 first).
  assert (Hs1 : match find_agent self first with
                | Some (agent_id, _) =>
                    PyDict.get (t_id first) (tasks s1) = Some (set_assigned agent_id first)
                    /\ loop s1 = loop self ++ [mkCoroutine (t_id first) agent_id Created]
                | None =>
                    PyDict.get (t_id first) (tasks s1) = Some first
                    /\ loop s1 = loop self
                end
                /\ (forall k, k <> t_id first ->
                              PyDict.get k (tasks s1) = PyDict.get k (tasks s0))).
  { unfold s1, _assign_task. rewrite Hmet, Hfa. cbn [negb].
    destruct (find_agent self first) as [[aid ag]|].
    - cbn [tasks loop with_tasks with_agents with_loop].
      split; [split|].
      + now rewrite get_update_eq, Hfirst0.
      + reflexivity.
      + intros k Hk. apply get_update_neq. congruence.
    - split; [split; [exact Hfirst0 | reflexivity] | reflexivity]. }
  destruct Hs1 as [Hfirst1 Hother1].
  assert (Hp : exists p, PyDict.get (t_id first) (tasks s1) = Some p
                         /\ t_status p <> COMPLETED).
  { destruct (find_agent self first) as [[aid ag]|]; destruct Hfirst1 as [G _];
      eexists; (split; [exact G|]); cbn; congruence. }
  destruct Hp as (p & Hp & Hpst).
  pose proof (submit_chain_stays rest s1 (t_id first) p Hchain Hnd' Hp Hpst) as H.
  cbv zeta in H. destruct H as (Hin & Hout & Hl & _ & _).
  assert (Hnotin : ~ In (t_id first) (map t_id rest))
    by (inversion Hnd'; assumption).
  match goal with
  | |- context [fold_left _ rest ?s] => change s with s1
  end.
  split; [exact Hin|]. split.
  - intros k t Hk.
    assert (Hki : ~ In k ids).
    { intro Hi. specialize (Hnone k Hi). congruence. }
    rewrite <- Hids in Hki. cbn in Hki.
    rewrite Hout by tauto. rewrite Hother1 by (intro; subst; tauto).
    unfold s0. cbn [tasks with_tasks]. rewrite get_set_neq by tauto. exact Hk.
  - rewrite Hl, (Hout (t_id first) Hnotin).
    destruct (find_agent self first) as [[aid ag]|]; exact Hfirst1.
Qed.

Lemma submit_starts_only_analysis_witness :
  fresh_ids (init "/project" "p1") "Build a page" ["t1"; "t2"; "t3"; "t4"] = true
  /\ snd (process_requirement (init "/project" "p1") "Build a page" 5 "r1"
            ["t1"; "t2"; "t3"; "t4"]) = "r1".
Proof.
  assert (H : fresh_ids (init "/project" "p1") "Build a page"
                ["t1"; "t2"; "t3"; "t4"] = true) by (vm_compute; reflexivity).
  split; [exact H|].
  exact (proj1 (submit_starts_only_analysis _ _ 5%Z "r1" _ H)).
Defined.

(* ------------------------------------------------------------------ *)
(** ** One scheduling pass is enough *)

Lemma cannot_assign_id s t : cannot_assign s t -> _assign_task s t = s.
Proof.
  unfold cannot_assign, _assign_task. intros [-> | H]; [reflexivity|].
  rewrite H. destruct (_dependencies_met s t); reflexivity.
Qed.

Lemma later_refl s : later_in_pass s s.
Proof. repeat split; auto. Qed.

Lemma later_trans s1 s2 s3 :
  later_in_pass s1 s2 -> later_in_pass s2 s3 -> later_in_pass s1 s3.
Proof.
  intros (D1 & F1 & P1) (D2 & F2 & P2). split; [|split].
  - intro task. now rewrite D2, D1.
  - auto.
  - intros k t H Hp. apply P1; auto.
Qed.

Lemma forallb_eq {A : Type} (f g : A -> bool) (l : list A) :
  (forall x, In x l -> f x = g x) -> forallb f l = forallb g l.
Proof.
  induction l as [|x r IH]; cbn; intro H; [reflexivity|].
  rewrite (H x (or_introl eq_refl)), IH; [reflexivity|].
  intros; apply H; now right.
Qed.

Lemma find_update_none {V : Type} (p : string * V -> bool) (k : string)
      (f : V -> V) (d : list (string * V)) :
  (forall v, p (k, f v) = false) -> find p d = None ->
  find p (PyDict.update k f d) = None.
Proof.
  intros Hp. induction d as [|[k' v] r IH]; cbn; [reflexivity|].
  destruct (p (k', v)) eqn:E; [discriminate|]. intro H.
  destruct (String.eqb_spec k k') as [<-|_]; cbn.
  - now rewrite Hp.
  - rewrite E. auto.
Qed.

Lemma assign_later s t :
  PyDict.get (t_id t) (tasks s) = Some t -> t_status t = PENDING ->
  later_in_pass s (_assign_task s t).
Proof.
  intros Hget Hpending.
  destruct (assign_task_cases s t) as [-> | (aid & ag & _ & _ & ->)];
    [apply later_refl|].
  split; [|split].
  - intro task. unfold _dependencies_met. cbn [tasks].
    apply forallb_eq. intros d _.
    destruct (String.eqb_spec (t_id t) d) as [<-|Hne].
    + rewrite get_update_eq, Hget. cbn. now rewrite Hpending.
    + now rewrite get_update_neq.
  - intros task. unfold find_agent. cbn [agents].
    apply find_update_none. intro v. cbn. apply andb_false_r.
  - intros k t' Hk Hp. cbn [tasks] in Hk.
    destruct (String.eqb_spec (t_id t) k) as [<-|Hne].
    + rewrite get_update_eq, Hget in Hk. injection Hk as <-. discriminate Hp.
    + now rewrite get_update_neq in Hk.
Qed.

Lemma pending_after_assign s t :
  PyDict.get (t_id t) (tasks s) = Some t ->
  PyDict.get (t_id t) (tasks (_assign_task s t)) = Some t ->
  t_status t = PENDING -> cannot_assign s t.
Proof.
  intros Hget Hafter Hpending. unfold cannot_assign.
  unfold _assign_task in Hafter.
  destruct (_dependencies_met s t); [|now left]. cbn [negb] in Hafter.
  destruct (find_agent s t) as [[aid ag]|]; [|now right].
  exfalso. cbn [tasks with_tasks with_agents with_loop] in Hafter.
  rewrite get_update_eq, Hget in Hafter. injection Hafter as E.
  rewrite <- E in Hpending. discriminate Hpending.
Qed.

Lemma cannot_assign_later s s' t :
  later_in_pass s s' -> cannot_assign s t -> cannot_assign s' t.
Proof.
  intros (D & F & _) [H | H]; [left; now rewrite D | right; auto].
Qed.

Lemma pass_settles (ks : list string) :
  forall s, Inv s ->
    let s' := fold_left
                (fun self task_id =>
                   match PyDict.get task_id (tasks self) with
                   | Some task =>
                       if TaskStatus_eqb (t_status task) PENDING
                       then _assign_task self task else self
                   | None => self
                   end) ks s in
    Inv s' /\ later_in_pass s s'
    /\ (forall k t, In k ks -> PyDict.get k (tasks s') = Some t ->
                    t_status t = PENDING -> cannot_assign s' t).
Proof.
  induction ks as [|k0 r IH]; intros s HI; cbn [fold_left].
  - split; [assumption|]. split; [apply later_refl|]. intros k t [].
  - set (s1 := match PyDict.get k0 (tasks s) with
               | Some task => if TaskStatus_eqb (t_status task) PENDING
                              then _assign_task s task else s
               | None => s
               end).
    assert (H1 : Inv s1 /\ later_in_pass s s1
                 /\ (forall t, PyDict.get k0 (tasks s1) = Some t ->
                               t_status t = PENDING -> cannot_assign s t)).
    { unfold s1. destruct (PyDict.get k0 (tasks s)) as [t0|] eqn:G.
      - pose proof (inv_ids _ _ HI _ _ G) as Hid.
        destruct (TaskStatus_eqb (t_status t0) PENDING) eqn:E.
        + apply TaskStatus_eqb_eq in E.
          assert (G0 : PyDict.get (t_id t0) (tasks s) = Some t0) by now rewrite Hid.
          split; [now apply assign_task_inv|]. split; [now apply assign_later|].
          intros t Ht Hp.
          destruct (assign_later s t0 G0 E) as (_ & _ & Hback).
          pose proof (Hback k0 t Ht Hp) as Hk. assert (t = t0) by congruence. subst t.
          apply pending_after_assign; auto. now rewrite Hid.
        + split; [assumption|]. split; [apply later_refl|].
          intros t Ht Hp. assert (t = t0) by congruence. subst t.
          rewrite Hp in E. discriminate E.
      - split; [assumption|]. split; [apply later_refl|].
        intros t Ht. congruence. }
    destruct H1 as (HI1 & L1 & Hk0).
    destruct (IH s1 HI1) as (HI' & L' & Hrest).
    split; [exact HI'|]. split; [eapply later_trans; eauto|].
    intros k t [<- | Hk] Hget Hp.
    + destruct L' as (D' & F' & P').
      apply (cannot_assign_later s1); [repeat split; auto|].
      apply (cannot_assign_later s); [exact L1|].
      apply Hk0; auto.
    + now apply (Hrest k t).
Qed.

Lemma check_pending_settled self k t :
  Inv self -> PyDict.get k (tasks (_check_pending_tasks self)) = Some t ->
  t_status t = PENDING -> cannot_assign (_check_pending_tasks self) t.
Proof.
  intros HI Hget Hp.
  pose proof (pass_settles (PyDict.keys (tasks self)) self HI) as H.
  cbv zeta in H. destruct H as (_ & _ & Hall).
  apply (Hall k t); auto.
  rewrite <- check_pending_keys. eapply get_in_keys; eauto.
Qed.

Lemma settled_fixpoint s :
  (forall k t, PyDict.get k (tasks s) = Some t -> t_status t = PENDING ->
               cannot_assign s t) ->
  _check_pending_tasks s = s.
Proof.
  intro Hsettled. unfold _check_pending_tasks.
  apply (fold_left_preserves (fun s' => s' = s)); [reflexivity|].
  intros s' k _ ->.
  destruct (PyDict.get k (tasks s)) as [t|] eqn:G; [|reflexivity].
  destruct (TaskStatus_eqb (t_status t) PENDING) eqn:E; [|reflexivity].
  apply TaskStatus_eqb_eq in E. apply cannot_assign_id. eauto.
Qed.

(** One pass of [_check_pending_tasks] assigns everything that can be
    assigned: after it, every pending task has a dependency that is not
    completed or no ready agent of its type, and a second pass changes
    nothing. *)
Theorem check_pending_is_idempotent (self : OrchestratorCore) :
  reachable self ->
  _check_pending_tasks (_check_pending_tasks self) = _check_pending_tasks self
  /\ (forall k t,
        PyDict.get k (tasks (_check_pending_tasks self)) = Some t ->
        t_status t = PENDING ->
        _dependencies_met (_check_pending_tasks self) t = false
        \/ find_agent (_check_pending_tasks self) t = None).
Proof.
  intro Hreach. pose proof (reachable_inv _ Hreach) as HI.
  split.
  - apply settled_fixpoint. intros k t. now apply check_pending_settled.
  - intros k t. now apply check_pending_settled.
Qed.

Lemma check_pending_is_idempotent_witness :
  reachable demo_state
  /\ _check_pending_tasks (_check_pending_tasks demo_state)
     = _check_pending_tasks demo_state.
Proof.
  split; [exact demo_state_reachable|].
  exact (proj1 (check_pending_is_idempotent demo_state demo_state_reachable)).
Defined.

(* ------------------------------------------------------------------ *)
(** ** Saving the implementer's response *)

Lemma implementation_filename_cases (description response : string) :
  (is_html response = true
   /\ In (implementation_filename description response) html_filenames)
  \/ (is_html response = false
      /\ In (implementation_filename description response) python_filenames).
Proof.
  unfold implementation_filename, html_filenames, python_filenames.
  destruct (is_html response); [left | right]; (split; [reflexivity|]);
    repeat match goal with
           | |- context [if ?b then _ else _] => destruct b
           end; cbn; tauto.
Qed.

(** A file is opened for writing only for an implementer whose result has
    a true ["success"] and a non-empty string as ["response"]. Its content
    is that response, unchanged, when UTF-8 can encode it, and nothing
    otherwise. Its name is the one chosen from the description and the
    response: one of nine fixed names, with no path separator, an [.html]
    name exactly when the response looks like HTML. The simulated output,
    which has no ["success"], is never saved. *)
Theorem saved_file_is_confined
        (task : Task) (agent : Agent) (r : bridge_result) (name content : string) :
  saved_implementation task agent r = Some (name, content) ->
  a_type agent = IMPLEMENTER
  /\ (exists result response,
        r = Returned result
        /\ PyDict.get "response" result = Some (PStr response)
        /\ response <> ""
        /\ py_bool (get_default "success" PNone result) = true
        /\ content = (if Unicode.encodable response then response else "")
        /\ name = implementation_filename (t_description task) response
        /\ (is_html response = true <-> In name html_filenames))
  /\ In name (html_filenames ++ python_filenames)
  /\ PyStr.contains "/" name = false.
Proof.
  unfold saved_implementation. intro H.
  destruct (AgentType_eqb (a_type agent) IMPLEMENTER) eqn:Ety; [|discriminate].
  apply AgentType_eqb_eq in Ety.
  destruct (truthy (task_output task agent r)) eqn:Etr; [|discriminate].
  cbn [andb] in H.
  assert (Hout : exists result, r = Returned result
                                /\ task_output task agent r = Some result).
  { unfold task_output in *. rewrite Ety in *. cbn [simulated_output] in *.
    destruct r as [|result]; cbn [truthy negb] in *.
    - exfalso. cbn in H. discriminate H.
    - destruct result as [|kv result]; cbn [truthy negb] in *.
      + exfalso. cbn in H. discriminate H.
      + eauto. }
  destruct Hout as (result & -> & Hout). rewrite Hout in H.
  destruct (py_bool (get_default "success" PNone result)) eqn:Esucc; [|discriminate].
  unfold _save_implementation_to_workspace in H. cbn [t_output t_description] in H.
  unfold get_default in H at 1.
  destruct (PyDict.get "response" result) as [v|] eqn:Eresp; [|discriminate H].
  destruct v as [| | |response| |]; try discriminate H.
  destruct (String.eqb_spec response "") as [|Hne]; [discriminate H|].
  injection H as <- <-.
  split; [assumption|].
  destruct (implementation_filename_cases (t_description task) response)
    as [[Hh Hin] | [Hh Hin]].
  - split; [exists result, response; repeat split; auto|].
    split; [apply in_or_app; now left|].
    unfold html_filenames in Hin. cbn in Hin.
    repeat (destruct Hin as [<- | Hin]; [reflexivity|]). contradiction.
  - split.
    + exists result, response. repeat split; auto; [congruence|].
      intro Hin'. exfalso.
      unfold python_filenames, html_filenames in *. cbn in Hin, Hin'.
      repeat (destruct Hin as [E | Hin]; [rewrite <- E in Hin'; cbn in Hin';
        repeat (destruct Hin' as [E' | Hin']; [discriminate E'|]); contradiction|]).
      contradiction.
    + split; [apply in_or_app; now right|].
      unfold python_filenames in Hin. cbn in Hin.
      repeat (destruct Hin as [<- | Hin]; [reflexivity|]). contradiction.
Qed.

Lemma saved_file_is_confined_witness :
  let task := mkTask "t3" "Generate code implementation for: a Hello World webpage"
                     IMPLEMENTER IN_PROGRESS 7 ["t2"] None (Some "codex_impl") in
  let agent := mkAgent "codex_impl" "Codex Implementation Engine" IMPLEMENTER []
                       "working" (Some "t3") [] in
  let r := Returned [("success", PBool true);
                     ("response", PStr "  <!DOCTYPE html><html></html>")] in
  saved_implementation task agent r
  = Some ("hello_world.html", "  <!DOCTYPE html><html></html>")
  /\ a_type agent = IMPLEMENTER.
Proof.
  intros task agent r.
  assert (H : saved_implementation task agent r
              = Some ("hello_world.html", "  <!DOCTYPE html><html></html>"))
    by (vm_compute; reflexivity).
  split; [exact H|].
  exact (proj1 (saved_file_is_confined task agent r _ _ H)).
Defined.

(** A no-break space before the doctype is stripped like a space; the
    capital I with a dot above is lowered to an i, so [APİ] names an API; a
    response with a lone surrogate leaves the file empty. *)
Example unicode_responses :
  implementation_filename "Generate code implementation for: a page"
    (Unicode.chr 0xA0 ++ "<!DOCTYPE html>") = "index.html"
  /\ implementation_filename ("AP" ++ Unicode.chr 0x0130 ++ " gateway") "print(1)"
     = "server.py"
  /\ _save_implementation_to_workspace
       (mkTask "t3" "Generate code implementation for: a tool" IMPLEMENTER
               IN_PROGRESS 7 ["t2"]
               (Some [("success", PBool true);
                      ("response", PStr ("x = 1" ++ Unicode.chr 0xD800))])
               (Some "codex_impl"))
     = Some ("app.py", "").
Proof. repeat split; vm_compute; reflexivity. Qed.

Example simulated_implementation_is_not_saved (task : Task) (agent : Agent) :
  saved_implementation task agent Raised = None.
Proof.
  unfold saved_implementation, task_output. cbn [truthy negb].
  destruct (a_type agent); reflexivity.
Qed.

(* ------------------------------------------------------------------ *)
(** ** The agent bridge *)

(** [AgentBridge.execute_task] answers for an unknown agent id with a
    failure result that names the id; for a known agent it passes on what
    the connector raises, and adds the request's id as ["task_id"] and the
    agent id as ["agent_id"] to what the connector returns, leaving every
    other key of the result as it is. *)
Theorem bridge_names_task_and_agent
        (bridge_agents : list (string * connector)) (agent_id : string)
        (task : pydict) :
  (PyDict.get agent_id bridge_agents = None ->
   execute_task bridge_agents agent_id task = Returned (unknown_agent agent_id))
  /\ (forall agent,
        PyDict.get agent_id bridge_agents = Some agent ->
        match agent (get_default "description" (PStr "") task)
                    (get_default "context" (PDict []) task) with
        | Raised => execute_task bridge_agents agent_id task = Raised
        | Returned result =>
            exists result',
              execute_task bridge_agents agent_id task = Returned result'
              /\ PyDict.get "task_id" result' = Some (get_default "id" PNone task)
              /\ PyDict.get "agent_id" result' = Some (PStr agent_id)
              /\ (forall k, k <> "task_id" -> k <> "agent_id" ->
                            PyDict.get k result' = PyDict.get k result)
        end).
Proof.
  unfold execute_task. split.
  - intros ->. reflexivity.
  - intros agent ->.
    destruct (agent _ _) as [|result]; [reflexivity|].
    eexists. split; [reflexivity|]. cbn zeta. split; [|split].
    + rewrite get_set_neq by discriminate. apply get_set_eq.
    + apply get_set_eq.
    + intros k H1 H2. rewrite !get_set_neq by congruence. reflexivity.
Qed.

(** The roster's integrator is not an agent of the bridge (the bridge has
    [vscode_ide] and [cursor_ide]): whatever the connectors do, the bridge
    call of [_execute_task] for the agent [ide_integrator] returns the
    unknown-agent failure, the task is completed with that failure as its
    output, and no signal is raised. The other agents of the roster are
    agents of the bridge. *)
Theorem integrator_is_unknown_to_bridge
        (claude codex claude2 deepseek vscode cursor : connector)
        (self : OrchestratorCore) (task : Task) (agent : Agent) (signal_id : string) :
  a_id agent = "ide_integrator" ->
  let bridge_agents :=
    _initialize_connectors claude codex claude2 deepseek vscode cursor in
  let r := engine_bridge_call bridge_agents task agent in
  r = Returned (unknown_agent "ide_integrator")
  /\ task_output task agent r = Some (unknown_agent "ide_integrator")
  /\ signals (_execute_task_resume self task agent r signal_id) = signals self
  /\ map (fun k => PyDict.mem k bridge_agents) (PyDict.keys _initialize_agents)
     = [true; true; true; false; true].
Proof.
  intros Hid bridge_agents r.
  assert (Hr : r = Returned (unknown_agent "ide_integrator")).
  { subst r. unfold engine_bridge_call. rewrite Hid. reflexivity. }
  split; [exact Hr|]. rewrite Hr. split; [reflexivity|]. split; [|reflexivity].
  rewrite resume_signals_eq. unfold resume_signals.
  change (task_output task agent (Returned (unknown_agent "ide_integrator")))
    with (Some (unknown_agent "ide_integrator")).
  cbv beta iota.
  assert (E : PyStr.contains "decisions_needed"
                (PyRepr.repr (PDict (unknown_agent "ide_integrator"))) = false)
    by (vm_compute; reflexivity).
  rewrite E. apply app_nil_r.
Qed.

Lemma integrator_is_unknown_to_bridge_witness :
  let c : connector := fun _ _ => Raised in
  a_id integrator_agent = "ide_integrator"
  /\ engine_bridge_call (_initialize_connectors c c c c c c)
                        integrator_task integrator_agent
     = Returned (unknown_agent "ide_integrator").
Proof.
  intro c. split; [reflexivity|].
  exact (proj1 (integrator_is_unknown_to_bridge c c c c c c integrator_state
                  integrator_task integrator_agent "s1" eq_refl)).
Defined.

(* ------------------------------------------------------------------ *)
(** ** Decisions raised by the simulated outputs *)

Lemma simulated_decision_texts :
  PyStr.contains "decisions_needed" (PyRepr.repr (PDict generic_analysis)) = true
  /\ forall agent_type description d,
       simulated_output agent_type description = Some d ->
       d <> generic_analysis ->
       PyStr.contains "decisions_needed" (PyRepr.repr (PDict d)) = false.
Proof.
  split; [vm_compute; reflexivity|].
  intros agent_type description d H Hne.
  unfold simulated_output in H.
  destruct agent_type; try discriminate H;
    try (injection H as <-; vm_compute; reflexivity).
  destruct (_ || _); injection H as <-; [vm_compute; reflexivity|].
  exfalso. apply Hne. reflexivity.
Qed.

(** When the worker call raises, [_execute_task] asks for a human decision
    exactly for an analyst whose task description mentions neither a hello
    world page nor a webpage: the simulated analysis declares the decisions
    [database_choice] and [deployment_platform]. For every other agent
    type, and for the simple pages, no signal is raised. *)
Theorem raised_call_decisions
        (self : OrchestratorCore) (task : Task) (agent : Agent) (signal_id : string) :
  let after := _execute_task_resume self task agent Raised signal_id in
  (a_type agent = ANALYST -> simple_page (t_description task) = false ->
   signals after = signals self ++ [decision_signal task generic_analysis signal_id]
   /\ PyDict.get "decisions" (s_data (decision_signal task generic_analysis signal_id))
      = Some (PList [PStr "database_choice"; PStr "deployment_platform"]))
  /\ (a_type agent <> ANALYST \/ simple_page (t_description task) = true ->
      signals after = signals self).
Proof.
  cbn zeta. rewrite resume_signals_eq.
  destruct simulated_decision_texts as [Hyes Hno].
  split.
  - intros Hty Hsimple.
    assert (Hout : task_output task agent Raised = Some generic_analysis).
    { unfold task_output, simulated_output. cbn [truthy negb]. rewrite Hty.
      unfold simple_page in Hsimple. rewrite Hsimple. reflexivity. }
    unfold resume_signals. rewrite Hout, Hyes. split; reflexivity.
  - intros Hcase. unfold resume_signals, task_output. cbn [truthy negb].
    destruct (simulated_output (a_type agent) (t_description task)) as [d|] eqn:S;
      [|apply app_nil_r].
    rewrite (Hno _ _ _ S); [apply app_nil_r|].
    intros ->. unfold simulated_output in S.
    destruct (a_type agent); try discriminate S.
    destruct Hcase as [Hc | Hc]; [congruence|].
    unfold simple_page in Hc. rewrite Hc in S. discriminate S.
Qed.

(* ------------------------------------------------------------------ *)
(** ** The task list of the API server *)

Lemma TaskStatus_value_inj (a b : TaskStatus) :
  TaskStatus_value a = TaskStatus_value b -> a = b.
Proof. destruct a, b; cbn; intro H; try reflexivity; discriminate H. Qed.

Lemma skipped_by_value (st : TaskStatus) (task : Task) :
  negb (skipped (Some (TaskStatus_value st)) task) = has_status st task.
Proof.
  unfold skipped, has_status.
  assert (Hne : String.eqb (TaskStatus_value st) "" = false) by (destruct st; reflexivity).
  rewrite Hne. cbn [negb andb]. rewrite negb_involutive.
  destruct (String.eqb_spec (TaskStatus_value (t_status task)) (TaskStatus_value st))
    as [E|Hn].
  - apply TaskStatus_value_inj in E. rewrite E. symmetry. now apply TaskStatus_eqb_eq.
  - destruct (TaskStatus_eqb (t_status task) st) eqn:E; [|reflexivity].
    apply TaskStatus_eqb_eq in E. congruence.
Qed.

Lemma filter_eq {A : Type} (f g : A -> bool) (l : list A) :
  (forall x, f x = g x) -> filter f l = filter g l.
Proof.
  intro H. induction l as [|x r IH]; cbn; [reflexivity|].
  rewrite H, IH. reflexivity.
Qed.

(** [get_tasks] without a status, or with the empty string, lists every
    task in map order; with the value of a status it lists exactly the
    tasks of that status, each with the progress figure of the status, and
    as many as the status aggregator counts; with any other text it lists
    nothing. *)
Theorem get_tasks_filters_by_status (self : OrchestratorCore) :
  get_tasks self None = map task_response (PyDict.values (tasks self))
  /\ get_tasks self (Some "") = get_tasks self None
  /\ (forall st,
        get_tasks self (Some (TaskStatus_value st))
        = map task_response (filter (has_status st) (PyDict.values (tasks self)))
        /\ (forall v, In v (get_tasks self (Some (TaskStatus_value st))) ->
                      tr_status v = TaskStatus_value st
                      /\ tr_progress v = task_progress st))
  /\ List.length (get_tasks self (Some "completed"))
     = ps_completed (get_project_status self)
  /\ List.length (get_tasks self (Some "in_progress"))
     = ps_in_progress (get_project_status self)
  /\ List.length (get_tasks self (Some "blocked"))
     = ps_blocked (get_project_status self)
  /\ (forall s, s <> "" -> (forall st, TaskStatus_value st <> s) ->
                get_tasks self (Some s) = []).
Proof.
  assert (Hall : forall l : list Task, filter (fun _ => true) l = l).
  { induction l as [|x r IH]; cbn; congruence. }
  assert (Hst : forall st,
             get_tasks self (Some (TaskStatus_value st))
             = map task_response (filter (has_status st) (PyDict.values (tasks self)))).
  { intro st. unfold get_tasks. f_equal. apply filter_eq. intro task.
    apply skipped_by_value. }
  split; [|split; [|split; [|split; [|split; [|split]]]]].
  - unfold get_tasks. cbn [skipped negb]. now rewrite Hall.
  - unfold get_tasks. f_equal.
  - intro st. split; [apply Hst|].
    intros v Hv. rewrite Hst in Hv. apply in_map_iff in Hv as (task & <- & Hin).
    apply filter_In in Hin as [_ Hs]. apply TaskStatus_eqb_eq in Hs.
    cbn. now rewrite Hs.
  - pose proof (Hst COMPLETED) as H. cbn [TaskStatus_value] in H.
    rewrite H, length_map. reflexivity.
  - pose proof (Hst IN_PROGRESS) as H. cbn [TaskStatus_value] in H.
    rewrite H, length_map. reflexivity.
  - pose proof (Hst BLOCKED) as H. cbn [TaskStatus_value] in H.
    rewrite H, length_map. reflexivity.
  - intros s Hne Hno. unfold get_tasks.
    assert (Hnone : forall l : list Task,
               filter (fun task => negb (skipped (Some s) task)) l = []).
    { induction l as [|x r IH]; cbn [filter]; [reflexivity|].
      unfold skipped at 1.
      rewrite (eqb_of_neq s "" Hne), (eqb_of_neq _ s (Hno (t_status x))).
      cbn. exact IH. }
    now rewrite Hnone.
Qed.

(* ------------------------------------------------------------------ *)
(** ** Resetting the project *)

Lemma reset_agents_ready (l : list (string * Agent)) :
  count_if (fun a => String.eqb (a_status a) "working")
           (PyDict.values
              (map (fun '(agent_id, agent) => (agent_id, set_agent "ready" None agent)) l))
  = 0%nat
  /\ PyDict.keys
       (map (fun '(agent_id, agent) => (agent_id, set_agent "ready" None agent)) l)
     = PyDict.keys l.
Proof.
  unfold count_if, PyDict.values, PyDict.keys.
  induction l as [|[k a] r [IH1 IH2]]; cbn; [split; reflexivity|].
  split; [exact IH1 | now rewrite IH2].
Qed.

(** After [reset_project], whether or not the workspace could be archived,
    the aggregator reports an empty project: no task, progress 0, health
    score 85, no active agent, no pending decision; the roster keeps its
    agents, all ready with no current task. The context and the project id
    are reset only when the archiving went through, and the coroutines in
    flight stay in the loop. *)
Theorem reset_gives_empty_status
        (self : OrchestratorCore) (archived : bool) (new_id : string) :
  let after := reset_project self archived new_id in
  let st := get_project_status after in
  ps_total st = 0%nat /\ ps_completed st = 0%nat /\ ps_in_progress st = 0%nat
  /\ ps_blocked st = 0%nat /\ ps_progress st = 0%Q
  /\ (ps_health_score st == 85)%Q
  /\ ps_active_agents st = 0%nat /\ ps_pending_decisions st = 0%nat
  /\ tasks after = [] /\ signals after = [] /\ execution_log after = []
  /\ PyDict.keys (agents after) = PyDict.keys (agents self)
  /\ (forall k a, PyDict.get k (agents after) = Some a ->
                  a_status a = "ready" /\ a_current_task a = None)
  /\ loop after = loop self
  /\ (if archived
      then context after = None /\ project_id after = new_id
      else context after = context self /\ project_id after = project_id self).
Proof.
  cbn zeta.
  destruct (reset_agents_ready (agents self)) as [Hcount Hkeys].
  assert (Hready : forall (l : list (string * Agent)) k a,
             PyDict.get k (map (fun '(agent_id, agent) =>
                                  (agent_id, set_agent "ready" None agent)) l)
             = Some a -> a_status a = "ready" /\ a_current_task a = None).
  { induction l as [|[k' a'] r IH]; cbn; intros k a H; [discriminate|].
    destruct (String.eqb k k'); [injection H as <-; split; reflexivity | eauto]. }
  destruct archived; unfold reset_project, get_project_status;
    cbn [ps_total ps_completed ps_in_progress ps_blocked ps_progress ps_health_score
           ps_active_agents ps_pending_decisions tasks signals agents context
           execution_log loop project_id project_path
           with_tasks with_signals with_agents with_execution_log];
    (repeat split; try reflexivity; try exact Hcount; try exact Hkeys;
     try match goal with
         | Hg : PyDict.get _ _ = Some _ |- _ =>
             first [exact (proj1 (Hready _ _ _ Hg)) | exact (proj2 (Hready _ _ _ Hg))]
         end).
Qed.

(* ------------------------------------------------------------------ *)
(** ** The background processing of a requirement *)

Lemma startswith_in_prefix (a n b : string) :
  a <> "" -> has_char " " a = true -> has_char "-" a = false ->
  (forall x y, a = (x ++ y)%string -> y <> "" -> has_char " " y = true) ->
  PyStr.startswith n (a ++ b)%string = true ->
  has_char "-" n = true -> has_char " " n = false -> False.
Proof.
  revert n. induction a as [|x a IH]; intros n Hne Hsp Hdash Htail Hsw Hnd Hns;
    [congruence|].
  destruct n as [|c n]; [discriminate Hnd|].
  cbn in Hsw. apply andb_true_iff in Hsw as [Ec Hsw].
  apply Ascii.eqb_eq in Ec. subst c.
  cbn in Hdash, Hnd, Hns. apply orb_false_iff in Hdash as [Hx Hdash].
  apply orb_false_iff in Hns as [Hxs Hns].
  rewrite Hx in Hnd. cbn in Hnd.
  destruct a as [|y a'].
  - cbn in Hsp. rewrite Hxs in Hsp. discriminate Hsp.
  - apply (IH n); auto; try discriminate.
    + apply (Htail (String x EmptyString) (String y a')); [reflexivity | discriminate].
    + intros x' y' E Hy'. apply (Htail (String x x') y'); [|assumption].
      cbn. now rewrite E.
Qed.

Lemma contains_after_prefix (a n b : string) :
  has_char "-" a = false ->
  (forall x y, a = (x ++ y)%string -> y <> "" -> has_char " " y = true
                                               /\ has_char "-" y = false) ->
  has_char "-" n = true -> has_char " " n = false ->
  PyStr.contains n (a ++ b)%string = true -> PyStr.contains n b = true.
Proof.
  induction a as [|x a IH]; intros Hdash Htail Hnd Hns H; [exact H|].
  cbn [append] in H. rewrite ReprFacts.contains_unfold in H.
  apply orb_true_iff in H as [Hsw | Hc].
  - exfalso.
    apply (startswith_in_prefix (String x a) n b); auto; try discriminate.
    + apply (Htail EmptyString (String x a)); [reflexivity | discriminate].
    + intros x' y' E Hy'. now apply (Htail x' y').
  - apply IH; auto.
    + cbn in Hdash. now apply orb_false_iff in Hdash as [_ ?].
    + intros x' y' E Hy'. apply (Htail (String x x') y'); [|assumption].
      cbn. now rewrite E.
Qed.

Lemma ends_with_has_char (c : ascii) (s : string) :
  ends_with c s = true -> has_char c s = true.
Proof.
  induction s as [|x r IH]; cbn; [discriminate|].
  destruct r as [|y r'].
  - intros ->. reflexivity.
  - intro H. rewrite (IH H). apply orb_true_r.
Qed.

Lemma prefix_tails (p : string) :
  In p description_prefixes ->
  has_char "-" p = false
  /\ forall x y, p = (x ++ y)%string -> y <> "" ->
                 has_char " " y = true /\ has_char "-" y = false.
Proof.
  assert (Hgen : forall x q y : string,
             has_char "-" q = false -> ends_with " " q = true ->
             q = (x ++ y)%string -> y <> "" ->
             has_char " " y = true /\ has_char "-" y = false).
  { induction x as [|c x IH]; intros q y Hd He E Hy.
    - cbn in E. subst y. split; [now apply ends_with_has_char | assumption].
    - cbn in E. subst q. cbn in Hd. apply orb_false_iff in Hd as [_ Hd].
      apply (IH (x ++ y)%string y); auto.
      cbn in He. destruct (x ++ y)%string as [|z r] eqn:Exy; [|exact He].
      destruct x; cbn in Exy; [congruence | discriminate Exy]. }
  intro Hin. unfold description_prefixes in Hin. cbn in Hin.
  repeat (destruct Hin as [<- | Hin];
          [split; [reflexivity|]; intros x y; apply Hgen; reflexivity |]).
  contradiction.
Qed.

Lemma decompose_descriptions ids requirement t :
  In t (_decompose_requirement ids requirement) ->
  exists p, In p description_prefixes /\ t_description t = (p ++ requirement)%string.
Proof.
  unfold _decompose_requirement, description_prefixes.
  destruct (needs_deep_reasoning requirement); cbn [In app];
    intro H;
    repeat (destruct H as [<- | H];
            [eexists; split; [|reflexivity]; cbn; tauto|]);
    contradiction.
Qed.

(** The background processing of the API server looks for the tasks of a
    requirement by searching the requirement id in the task descriptions,
    but the decomposer never writes the id there: for an id with a dash and
    no space, as [uuid4] makes them, that does not occur in the requirement
    text itself, no task of the requirement is selected, and the loop has
    nothing to wait for. *)
Theorem requirement_id_selects_no_task
        (ids : list string) (requirement requirement_id : string) :
  has_char "-" requirement_id = true -> has_char " " requirement_id = false ->
  PyStr.contains requirement_id requirement = false ->
  requirement_tasks requirement_id (_decompose_requirement ids requirement) = []
  /\ work_left
       (requirement_tasks requirement_id (_decompose_requirement ids requirement))
     = false.
Proof.
  intros Hd Hs Hnot.
  assert (E : requirement_tasks requirement_id
                (_decompose_requirement ids requirement) = []).
  { unfold requirement_tasks.
    assert (Hnone : forall l : list Task,
               (forall t, In t l ->
                  PyStr.contains requirement_id (t_description t) = false) ->
               filter (fun task => PyStr.contains requirement_id (t_description task)) l
               = []).
    { induction l as [|x r IH]; cbn; intro H; [reflexivity|].
      rewrite (H x (or_introl eq_refl)). apply IH. intros; apply H; now right. }
    apply Hnone. intros t Ht.
    destruct (decompose_descriptions _ _ _ Ht) as (p & Hp & ->).
    destruct (prefix_tails p Hp) as [Hpd Htails].
    destruct (PyStr.contains requirement_id (p ++ requirement)%string) eqn:C;
      [|reflexivity].
    rewrite (contains_after_prefix p requirement_id requirement Hpd Htails Hd Hs C)
      in Hnot. discriminate Hnot. }
  rewrite E. split; reflexivity.
Qed.

Lemma requirement_id_selects_no_task_witness :
  let requirement_id := "3f2b8c1e-7a4d-4e9b-9c55-0d1f2a3b4c5d" in
  has_char "-" requirement_id = true
  /\ has_char " " requirement_id = false
  /\ PyStr.contains requirement_id "Build a page" = false
  /\ requirement_tasks requirement_id
       (_decompose_requirement ["t1"; "t2"; "t3"; "t4"] "Build a page") = [].
Proof.
  intro requirement_id.
  assert (H1 : has_char "-" requirement_id = true) by reflexivity.
  assert (H2 : has_char " " requirement_id = false) by reflexivity.
  assert (H3 : PyStr.contains requirement_id "Build a page" = false) by reflexivity.
  split; [exact H1 | split; [exact H2 | split; [exact H3|]]].
  exact (proj1 (requirement_id_selects_no_task ["t1"; "t2"; "t3"; "t4"]
                  "Build a page" requirement_id H1 H2 H3)).
Defined.

(* ------------------------------------------------------------------ *)
(** ** The context the API server builds *)

Lemma implementer_tasks_unassigned (requirement_tasks : list Task) :
  (exists t, In t requirement_tasks /\ t_assigned_to t = None) ->
  implementer_tasks requirement_tasks = None.
Proof.
  induction requirement_tasks as [|t r IH]; intros (t0 & Hin & Hnone);
    [contradiction|].
  cbn [implementer_tasks]. unfold assigned_contains.
  destruct Hin as [<- | Hin].
  - now rewrite Hnone.
  - destruct (t_assigned_to t); [|reflexivity].
    rewrite IH; [reflexivity | eauto].
Qed.

(** For the tasks of a requirement that the engine has assigned (each to
    an agent of the roster), the execution context that
    [process_requirement_tasks] builds holds the requirement id and the
    priority and nothing else, also for a validation task. When the task is
    the validator's and some task of the requirement is not assigned yet,
    building the context raises ([None] stands for the [TypeError]). *)
Theorem api_context_of_engine_tasks
        (requirement_id : string) (task : Task) (requirement_tasks : list Task)
        (task_results : list (string * pydict)) :
  (forall t, In t requirement_tasks -> assigned_in_roster t) ->
  (forall context,
     build_context requirement_id task requirement_tasks task_results = Some context ->
     context = [("requirement_id", PStr requirement_id);
                ("priority", PInt (t_priority task))])
  /\ (assigned_contains "validator" task = Some true ->
      (exists t, In t requirement_tasks /\ t_assigned_to t = None) ->
      build_context requirement_id task requirement_tasks task_results = None).
Proof.
  intro Hroster. split.
  - intro context. unfold build_context.
    destruct (assigned_contains "validator" task) as [[|]|]; [| |discriminate].
    + destruct (implementer_tasks_of_roster _ Hroster) as [-> | ->]; [discriminate|].
      now intros [= <-].
    + now intros [= <-].
  - intros Hval Hun. unfold build_context. rewrite Hval.
    now rewrite (implementer_tasks_unassigned _ Hun).
Qed.

Lemma api_context_of_engine_tasks_witness :
  (forall t, In t requirement_tasks_r1 -> assigned_in_roster t)
  /\ build_context "r1" validation_task requirement_tasks_r1 task_results_r1
     = Some [("requirement_id", PStr "r1"); ("priority", PInt 6)].
Proof.
  assert (H : forall t, In t requirement_tasks_r1 -> assigned_in_roster t).
  { intros t Hin agent_id Ha. unfold requirement_tasks_r1 in Hin. cbn in Hin.
    repeat (destruct Hin as [<- | Hin];
            [cbn in Ha; injection Ha as <-; cbn; tauto|]).
    contradiction. }
  split; [exact H|].
  destruct (build_context "r1" validation_task requirement_tasks_r1 task_results_r1)
    as [context|] eqn:B; [|vm_compute in B; discriminate B].
  f_equal.
  exact (proj1 (api_context_of_engine_tasks "r1" validation_task
                  requirement_tasks_r1 task_results_r1 H) context B).
Defined.

(* ------------------------------------------------------------------ *)
(** ** Counting the active agents *)

Lemma remove_length (k : string) (ks : list string) :
  NoDup ks -> In k ks ->
  List.length ks = S (List.length (remove string_dec k ks)).
Proof.
  induction ks as [|x r IH]; cbn; intros Hnd Hin; [contradiction|].
  inversion Hnd as [|? ? Hnotin Hnd']; subst.
  destruct (string_dec k x) as [->|Hne].
  - rewrite notin_remove by assumption. reflexivity.
  - destruct Hin as [E | Hin]; [congruence|]. cbn. now rewrite <- IH.
Qed.

Lemma nodup_remove (k : string) (ks : list string) :
  NoDup ks -> NoDup (remove string_dec k ks).
Proof.
  induction ks as [|x r IH]; cbn; intro Hnd; [constructor|].
  inversion Hnd as [|? ? Hnotin Hnd']; subst.
  destruct (string_dec k x); [auto|].
  constructor; [|auto]. intro Hin. apply in_remove in Hin as [Hin _]. auto.
Qed.

(** In a dict with unique keys, the values that satisfy [p] are as many as
    the keys of [ks], when [p] holds exactly of the values stored under a
    key of [ks]. *)
Lemma count_by_keys {V : Type} (p : V -> bool) (d : list (string * V)) :
  forall ks : list string,
    NoDup (PyDict.keys d) -> NoDup ks ->
    (forall k, In k ks -> In k (PyDict.keys d)) ->
    (forall k v, In (k, v) d -> (p v = true <-> In k ks)) ->
    count_if p (PyDict.values d) = List.length ks.
Proof.
  unfold count_if, PyDict.values, PyDict.keys.
  induction d as [|[k v] r IH]; intros ks Hd Hks Hsub Hp.
  - destruct ks as [|k ks]; [reflexivity|].
    destruct (Hsub k (or_introl eq_refl)).
  - cbn [map fst snd filter] in *. inversion Hd as [|? ? Hnotin Hd']; subst.
    assert (Hrest : forall ks', NoDup ks' ->
               (forall k', In k' ks' <-> In k' ks /\ k' <> k) ->
               List.length (filter p (map snd r)) = List.length ks').
    { intros ks' Hnd' Hks'. apply IH; auto.
      - intros k' Hk'. apply Hks' in Hk' as [Hk' Hne].
        destruct (Hsub k' Hk') as [E | Hin]; [congruence | assumption].
      - intros k' v' Hin. rewrite (Hp k' v' (or_intror Hin)).
        rewrite Hks'. split; [|tauto]. intro Hk'. split; [assumption|].
        intros ->. apply Hnotin. apply in_map_iff. exists (k, v'). auto. }
    destruct (p v) eqn:E.
    + assert (Hin : In k ks) by exact (proj1 (Hp k v (or_introl eq_refl)) E).
      cbn [List.length]. rewrite (remove_length k ks Hks Hin). f_equal.
      apply Hrest.
      * now apply nodup_remove.
      * intro k'. split.
        -- intro H. now apply in_remove in H.
        -- intros [H1 H2]. now apply in_in_remove.
    + apply Hrest; [assumption|].
      intro k'. split; [|tauto]. intro Hk'. split; [assumption|].
      intros ->. apply (proj2 (Hp k v (or_introl eq_refl))) in Hk'. congruence.
Qed.

Lemma get_in {V : Type} (k : string) (v : V) (d : list (string * V)) :
  PyDict.get k d = Some v -> In (k, v) d.
Proof.
  induction d as [|[k' v'] r IH]; cbn; [discriminate|].
  destruct (String.eqb_spec k k') as [->|_]; [intros [= ->]; now left | auto].
Qed.

Lemma in_progress_le_active (ts : list Task) :
  (count_if (has_status IN_PROGRESS) ts <= count_if is_active ts)%nat.
Proof.
  unfold count_if, is_active, has_status.
  induction ts as [|t r IH]; cbn; [lia|].
  destruct (t_status t); cbn; lia.
Qed.

(** In every state an engine can reach, the number of active agents
    that the aggregator reports is the number of tasks that are assigned or
    in progress (one coroutine each); it is at least the number of tasks in
    progress and at most five, the size of the roster. *)
Theorem active_agents_count (self : OrchestratorCore) :
  reachable self ->
  let st := get_project_status self in
  ps_active_agents st = List.length (loop self)
  /\ ps_active_agents st = count_if is_active (PyDict.values (tasks self))
  /\ (ps_in_progress st <= ps_active_agents st)%nat
  /\ (ps_active_agents st <= 5)%nat.
Proof.
  intros Hreach st.
  pose proof (reachable_inv _ Hreach) as HI.
  pose proof (reachable_roster _ Hreach) as HR.
  pose proof (reachable_active _ Hreach) as HA.
  pose proof (reachable_nodup_keys _ Hreach) as Hkeys.
  assert (Hagents : ps_active_agents st = List.length (loop self)).
  { subst st. cbn [get_project_status ps_active_agents].
    rewrite <- (length_map co_agent (loop self)).
    apply count_by_keys.
    - now apply roster_agents_nodup.
    - apply (ri_one _ HR).
    - intros k Hk. apply in_map_iff in Hk as (c & <- & Hc).
      destruct (ri_busy _ HR c Hc) as (_ & a & _ & Ha & _).
      eapply get_in_keys; eauto.
    - intros k a Hin.
      pose proof (in_get k a _ (roster_agents_nodup _ HR) Hin) as Hget.
      split.
      + intro Hw. apply String.eqb_eq in Hw.
        destruct (in_dec string_dec k (map co_agent (loop self))) as [|Hnot];
          [assumption|].
        destruct (ri_idle _ HR k a Hget) as [Hready _].
        { intros c Hc E. apply Hnot. rewrite <- E. now apply in_map. }
        rewrite Hready in Hw. discriminate Hw.
      + intro Hk. apply in_map_iff in Hk as (c & <- & Hc).
        destruct (ri_busy _ HR c Hc) as (_ & a' & _ & Ha' & Hw & _).
        assert (a' = a) by congruence. subst a'.
        now apply String.eqb_eq. }
  assert (Htasks : count_if is_active (PyDict.values (tasks self))
                   = List.length (loop self)).
  { rewrite <- (length_map co_task (loop self)).
    apply count_by_keys.
    - exact Hkeys.
    - apply (inv_nodup _ _ HI).
    - intros k Hk. apply in_map_iff in Hk as (c & <- & Hc).
      destruct (inv_loop _ _ HI c Hc) as (t & Ht & _).
      eapply get_in_keys; eauto.
    - intros k t Hin.
      pose proof (in_get k t _ Hkeys Hin) as Hget.
      unfold is_active, has_status. rewrite orb_true_iff, !TaskStatus_eqb_eq.
      split.
      + intro Hact. destruct (HA k t Hget Hact) as (c & Hc & <-).
        now apply in_map.
      + intro Hk. apply in_map_iff in Hk as (c & <- & Hc).
        destruct (inv_loop _ _ HI c Hc) as (t' & Ht' & Hst).
        assert (t' = t) by congruence. subst t'.
        rewrite Hst. destruct (co_phase c); auto. }
  split; [exact Hagents|]. split; [congruence|]. split.
  - rewrite Hagents, <- Htasks. subst st. cbn [get_project_status ps_in_progress].
    apply in_progress_le_active.
  - subst st. cbn [get_project_status ps_active_agents].
    etransitivity; [apply count_if_le|].
    unfold PyDict.values. rewrite length_map.
    rewrite <- (length_map fst (agents self)).
    change (map fst (agents self)) with (PyDict.keys (agents self)).
    rewrite (ri_keys _ HR). cbn. lia.
Qed.

Lemma active_agents_count_witness :
  reachable demo_state
  /\ ps_active_agents (get_project_status demo_state)
     = List.length (loop demo_state).
Proof.
  split; [exact demo_state_reachable|].
  exact (proj1 (active_agents_count demo_state demo_state_reachable)).
Defined.

(* ------------------------------------------------------------------ *)
(** ** No assignable task is left waiting *)

Lemma no_new_chance_trans s1 s2 s3 :
  no_new_chance s1 s2 -> no_new_chance s2 s3 -> no_new_chance s1 s3.
Proof.
  intros (D1 & F1) (D2 & F2). split; [intro task; now rewrite D2, D1 | auto].
Qed.

Lemma cannot_assign_kept s s' t :
  no_new_chance s s' -> cannot_assign s t -> cannot_assign s' t.
Proof.
  intros (D & F) [H | H]; [left; now rewrite D | right; auto].
Qed.

Lemma assign_no_new_chance s t :
  PyDict.get (t_id t) (tasks s) = Some t -> t_status t = PENDING ->
  no_new_chance s (_assign_task s t).
Proof.
  intros Hget Hp. destruct (assign_later s t Hget Hp) as (D & F & _).
  split; assumption.
Qed.

(** Changing, or adding, a task that is not completed before and after
    gives no task a new chance. *)
Lemma tasks_no_new_chance s d :
  agents s = agents s ->
  (forall k, (exists t, PyDict.get k d = Some t /\ t_status t = COMPLETED)
             <-> (exists t, PyDict.get k (tasks s) = Some t /\ t_status t = COMPLETED)) ->
  no_new_chance s (with_tasks s d).
Proof.
  intros _ Hsame. split; [|auto].
  intro task. unfold _dependencies_met. cbn [tasks with_tasks].
  apply forallb_eq. intros dep _.
  destruct (PyDict.get dep d) as [t1|] eqn:G1,
           (PyDict.get dep (tasks s)) as [t2|] eqn:G2; try reflexivity.
  - destruct (TaskStatus_eqb (t_status t1) COMPLETED) eqn:E1,
             (TaskStatus_eqb (t_status t2) COMPLETED) eqn:E2; try reflexivity.
    + apply TaskStatus_eqb_eq in E1.
      destruct (proj1 (Hsame dep)) as (t & Ht & Hst); [eauto|].
      rewrite G2 in Ht. injection Ht as <-. apply TaskStatus_eqb_eq in Hst. congruence.
    + apply TaskStatus_eqb_eq in E2.
      destruct (proj2 (Hsame dep)) as (t & Ht & Hst); [eauto|].
      rewrite G1 in Ht. injection Ht as <-. apply TaskStatus_eqb_eq in Hst. congruence.
  - destruct (TaskStatus_eqb (t_status t1) COMPLETED) eqn:E1; [|reflexivity].
    apply TaskStatus_eqb_eq in E1.
    destruct (proj1 (Hsame dep)) as (t & Ht & _); [eauto|]. congruence.
  - destruct (TaskStatus_eqb (t_status t2) COMPLETED) eqn:E2; [|reflexivity].
    apply TaskStatus_eqb_eq in E2.
    destruct (proj2 (Hsame dep)) as (t & Ht & _); [eauto|]. congruence.
Qed.

Lemma insert_no_new_chance s t :
  PyDict.get (t_id t) (tasks s) = None -> t_status t = PENDING ->
  no_new_chance s (with_tasks s (PyDict.set (t_id t) t (tasks s))).
Proof.
  intros Hfresh Hp. apply tasks_no_new_chance; [reflexivity|].
  intro k. destruct (String.eqb_spec (t_id t) k) as [<-|Hne].
  - rewrite get_set_eq, Hfresh. split; intros (t' & H & Hst); [|discriminate H].
    injection H as <-. congruence.
  - now rewrite get_set_neq.
Qed.

Lemma update_no_new_chance s k t f :
  PyDict.get k (tasks s) = Some t ->
  t_status t <> COMPLETED -> t_status (f t) <> COMPLETED ->
  no_new_chance s (with_tasks s (PyDict.update k f (tasks s))).
Proof.
  intros Hget H1 H2. apply tasks_no_new_chance; [reflexivity|].
  intro k'. destruct (String.eqb_spec k k') as [<-|Hne].
  - rewrite get_update_eq, Hget. cbn.
    split; intros (t' & H & Hst); injection H as <-; congruence.
  - now rewrite get_update_neq.
Qed.

Lemma cannot_assign_same s s' t :
  agents s' = agents s -> tasks s' = tasks s ->
  cannot_assign s t -> cannot_assign s' t.
Proof.
  intros Ha Ht. unfold cannot_assign, _dependencies_met, find_agent.
  now rewrite Ha, Ht.
Qed.

Lemma saturated_same s s' :
  agents s' = agents s -> tasks s' = tasks s -> saturated s -> saturated s'.
Proof.
  intros Ha Ht H k t Hget Hp. rewrite Ht in Hget.
  apply (cannot_assign_same s); auto. now apply (H k).
Qed.

Lemma submit_fold_saturated (new_tasks : list Task) (self : OrchestratorCore) :
  Inv self -> saturated self -> NoDup (map t_id new_tasks) ->
  (forall t, In t new_tasks ->
             PyDict.get (t_id t) (tasks self) = None /\ t_status t = PENDING) ->
  saturated
    (fold_left
       (fun self task =>
          let self := with_tasks self (PyDict.set (t_id task) task (tasks self)) in
          _assign_task self task)
       new_tasks self).
Proof.
  revert self. induction new_tasks as [|t rest IH]; intros self HI HS Hnd Hnew;
    [assumption|].
  cbn [fold_left]. cbn zeta.
  destruct (Hnew t (or_introl eq_refl)) as [Hfresh Hpending].
  inversion Hnd as [|? ? Hnotin Hnd']; subst.
  set (s0 := with_tasks self (PyDict.set (t_id t) t (tasks self))).
  assert (HI0 : Inv s0).
  { unfold Inv, s0. cbn [tasks loop with_tasks]. now apply inv_insert. }
  assert (G0 : PyDict.get (t_id t) (tasks s0) = Some t)
    by (unfold s0; cbn [tasks with_tasks]; apply get_set_eq).
  apply IH; [now apply assign_task_inv | | assumption |].
  - intros k t' Hget Hp.
    destruct (assign_later s0 t G0 Hpending) as (_ & _ & Hback).
    pose proof (Hback k t' Hget Hp) as Hk0.
    destruct (String.eqb_spec (t_id t) k) as [<-|Hne].
    + assert (t' = t) by congruence. subst t'.
      pose proof (pending_after_assign s0 t G0 Hget Hpending) as Hc.
      now rewrite (cannot_assign_id s0 t Hc).
    + unfold s0 in Hk0. cbn [tasks with_tasks] in Hk0.
      rewrite get_set_neq in Hk0 by assumption.
      apply (cannot_assign_kept s0); [now apply assign_no_new_chance|].
      apply (cannot_assign_kept self); [now apply insert_no_new_chance|].
      now apply (HS k).
  - intros t' Ht'. destruct (Hnew t' (or_intror Ht')) as [Hfresh' Hpending'].
    split; [|assumption].
    apply assign_task_get_none. unfold s0. cbn [tasks with_tasks].
    rewrite get_set_neq; [assumption|].
    intro E. apply Hnotin. rewrite E. now apply in_map.
Qed.

Lemma step_saturated self e self' :
  Inv self -> saturated self -> step self e = Some self' -> saturated self'.
Proof.
  intros HI HS.
  destruct e as [requirement priority req_id ids | task_id | task_id r signal_id
                | signal_id decision]; cbn [step].
  - destruct (fresh_ids self requirement ids) eqn:F; [|discriminate].
    intros [= <-].
    destruct (fresh_ids_spec _ _ _ F) as (Hnd & Hnone & Hids).
    unfold process_requirement, _log_event. cbn [fst].
    match goal with
    | |- saturated (with_execution_log ?s _) =>
        apply (saturated_same s); [reflexivity..|]
    end.
    apply submit_fold_saturated.
    + eapply inv_same; [| |exact HI]; reflexivity.
    + eapply saturated_same; [| |exact HS]; reflexivity.
    + now rewrite Hids.
    + intros t Ht. split; [|eapply decompose_pending; eauto].
      cbn [tasks with_signals]. apply Hnone. rewrite <- Hids. now apply in_map.
  - destruct (take_coroutine task_id Created (loop self)) as [[c rest]|] eqn:T;
      [|discriminate].
    destruct (taken_task _ _ _ _ _ _ HI T) as ((task & G & Hst) & _ & _).
    rewrite G.
    destruct (PyDict.get (co_agent c) (agents self)) as [agent|]; [|discriminate].
    intros [= <-]. unfold _execute_task_begin, _log_event.
    intros k t Hget Hp.
    cbn [tasks with_execution_log with_tasks with_loop] in Hget.
    rewrite (inv_ids _ _ HI _ _ G) in Hget.
    assert (Hk : PyDict.get k (tasks self) = Some t).
    { destruct (String.eqb_spec task_id k) as [<-|Hne].
      - rewrite get_update_eq, G in Hget. injection Hget as <-. discriminate Hp.
      - now rewrite get_update_neq in Hget. }
    cbn in Hst.
    apply (cannot_assign_same
             (with_tasks self (PyDict.update task_id (set_status IN_PROGRESS)
                                             (tasks self))));
      [reflexivity | cbn [tasks with_execution_log with_tasks with_loop];
                     now rewrite (inv_ids _ _ HI _ _ G) |].
    apply (cannot_assign_kept self); [|now apply (HS k)].
    apply (update_no_new_chance self task_id task); auto; cbn; congruence.
  - destruct (take_coroutine task_id Awaiting (loop self)) as [[c rest]|] eqn:T;
      [|discriminate].
    destruct (PyDict.get task_id (tasks self)) as [task|] eqn:G; [|discriminate].
    destruct (PyDict.get (co_agent c) (agents self)) as [agent|] eqn:A; [|discriminate].
    intros [= <-]. unfold _execute_task_resume, _log_event.
    assert (Hinv : Inv (with_agents
                          (with_tasks (with_loop self rest)
                             (PyDict.update task_id
                                (set_completed (task_output task agent r))
                                (tasks self)))
                          (PyDict.update (a_id agent) (set_agent "ready" None)
                             (agents self)))).
    { unfold Inv. cbn [tasks loop with_agents with_tasks with_loop].
      eapply inv_complete; eauto. }
    match goal with
    | |- saturated (with_execution_log ?s _) =>
        apply (saturated_same s); [reflexivity..|]
    end.
    destruct (PyStr.contains "decisions_needed"
                (PyRepr.str_output (task_output task agent r)));
      (intros k t Hget Hp; apply (check_pending_settled _ k t); auto;
       eapply inv_same; [| |exact Hinv];
       cbn [agents tasks loop _create_decision_signal with_signals with_agents
              with_tasks with_loop];
       rewrite ?(inv_ids _ _ HI _ _ G); reflexivity).
  - intros [= <-]. unfold make_decision.
    destruct (find _ (signals self)); [|exact HS].
    eapply saturated_same; [| |exact HS]; reflexivity.
Qed.

Lemma reachable_saturated self : reachable self -> saturated self.
Proof.
  intros (path & pid & events & Hrun).
  pose proof (init_inv path pid) as HI.
  assert (HS : saturated (init path pid)) by (intros k t H; discriminate H).
  revert HI HS Hrun. generalize (init path pid).
  induction events as [|e rest IH]; simpl; intros s HI HS Hrun.
  - now injection Hrun as <-.
  - destruct (step s e) as [mid|] eqn:E; [|discriminate].
    eapply IH; [eapply step_inv; eauto | eapply step_saturated; eauto | exact Hrun].
Qed.

(** In every state an engine can reach, no pending task could be
    assigned: each has a dependency that is missing or not completed, or
    there is no ready agent of its type. The assignments made when a
    requirement is submitted and when a task completes leave nothing for a
    later scan. *)
Theorem no_assignable_task_waits (self : OrchestratorCore) (k : string) (t : Task) :
  reachable self -> PyDict.get k (tasks self) = Some t -> t_status t = PENDING ->
  (_dependencies_met self t = false \/ find_agent self t = None)
  /\ _assign_task self t = self
  /\ _check_pending_tasks self = self.
Proof.
  intros Hreach Hget Hp.
  pose proof (reachable_saturated _ Hreach) as HS.
  split; [exact (HS k t Hget Hp)|]. split.
  - apply cannot_assign_id. exact (HS k t Hget Hp).
  - apply settled_fixpoint. exact HS.
Qed.

Lemma no_assignable_task_waits_witness :
  reachable demo_state
  /\ exists t, PyDict.get "t3" (tasks demo_state) = Some t
               /\ t_status t = PENDING
               /\ _assign_task demo_state t = demo_state.
Proof.
  split; [exact demo_state_reachable|].
  destruct (PyDict.get "t3" (tasks demo_state)) as [t|] eqn:G;
    [|vm_compute in G; discriminate G].
  assert (Hp : t_status t = PENDING).
  { vm_compute in G. injection G as <-. reflexivity. }
  exists t. split; [reflexivity|]. split; [exact Hp|].
  exact (proj1 (proj2 (no_assignable_task_waits demo_state "t3" t
                         demo_state_reachable G Hp))).
Defined.
